(** * Novartis annual-report parser: a shallow embedding of [parser.py]

    The development embeds the extraction engine of [NovartisPDFParser]
    (section location, percentage extraction, total-assets extraction with
    its fallback, cash derivation, validation and the [parse_pdf]
    orchestrator) together with the parts of [config.py] it reads, and
    proves properties of it.

    Conventions of the embedding.
    - A Python [str] is a list of code points below 256 ([list ascii], read
      as Latin-1).  Character classes ([\s], [\d], [\w], [str.lower],
      [str.split], [str.strip]) are Python's Unicode classes restricted to
      that range.
    - A Python [float] is [pyfloat]: the rational it denotes, an infinity
      or NaN.  The rounding of binary64 is not modelled: [py_float] and
      [pf_add] are exact.  They agree with Python on the integers every
      float holds exactly (magnitude at most [max_exact], 2^53) and on
      sums of such integers that stay in that range.  A property that
      gives a float as an integer assumes that bound; the others are
      stated through the operations themselves.
    - A document is its path and the list of its page texts, as
      [pdfplumber] yields them; opening it does not fail, and every page
      has a text, possibly empty.
    - Calls to [self.logger] are recorded in a writer monad. *)

From Stdlib Require Import List String Ascii NArith ZArith QArith Qabs Qreduction Qcanon Bool Lia Lqa DecimalString.
From stdpp Require Import gmap strings.
Import ListNotations.

Abbreviation str := (list ascii).

(** Literal text: [s "abc"] is the Python string ['abc']. *)
Definition s (x : string) : str := list_ascii_of_string x.

(** ** Python strings over Latin-1 *)
Module PyStr.

Definition code (c : ascii) : N := N_of_ascii c.

Definition in_range (lo hi : N) (c : ascii) : bool :=
  (N.leb lo (code c) && N.leb (code c) hi)%bool.

(** [Py_UNICODE_ISSPACE]: what [str.split()], [str.strip()] and the
    regex class [\s] use. *)
Definition is_space (c : ascii) : bool :=
  (in_range 9 13 c || in_range 28 32 c
   || N.eqb (code c) 133 || N.eqb (code c) 160)%bool.

(** [Py_UNICODE_ISDECIMAL], the regex class [\d]. *)
Definition is_digit (c : ascii) : bool := in_range 48 57 c.

(** The regex class [\w]: [Py_UNICODE_ISALNUM] or an underscore. *)
Definition is_word (c : ascii) : bool :=
  (is_digit c || in_range 65 90 c || in_range 97 122 c
   || N.eqb (code c) 95
   || N.eqb (code c) 170 || N.eqb (code c) 178 || N.eqb (code c) 179
   || N.eqb (code c) 181 || N.eqb (code c) 185 || N.eqb (code c) 186
   || in_range 188 190 c || in_range 192 214 c
   || in_range 216 246 c || in_range 248 255 c)%bool.

(** [str.lower] on one character. *)
Definition lower_char (c : ascii) : ascii :=
  if (in_range 65 90 c
      || (in_range 192 222 c && negb (N.eqb (code c) 215)))%bool
  then ascii_of_N (code c + 32) else c.

Definition lower (t : str) : str := map lower_char t.

Definition ascii_eqb (a b : ascii) : bool := Ascii.eqb a b.

Fixpoint str_eqb (a b : str) : bool :=
  match a, b with
  | [], [] => true
  | x :: a', y :: b' => (ascii_eqb x y && str_eqb a' b')%bool
  | _, _ => false
  end.

(** [t.startswith(p)] *)
Fixpoint starts_with (p t : str) : bool :=
  match p, t with
  | [], _ => true
  | x :: p', y :: t' => (ascii_eqb x y && starts_with p' t')%bool
  | _ :: _, [] => false
  end.

(** [needle in hay] *)
Fixpoint contains (needle hay : str) : bool :=
  (starts_with needle hay
   || match hay with
      | [] => false
      | _ :: hay' => contains needle hay'
      end)%bool.

(** [t.split(sep)] for a one-character separator. *)
Fixpoint split_on (sep : ascii) (t : str) : list str :=
  match t with
  | [] => [[]]
  | c :: t' =>
      if ascii_eqb c sep then [] :: split_on sep t'
      else match split_on sep t' with
           | h :: r => (c :: h) :: r
           | [] => [[c]]
           end
  end.

(** The maximal runs of characters satisfying [p], left to right. *)
Fixpoint runs (p : ascii -> bool) (t : str) : list str :=
  match t with
  | [] => []
  | c :: t' =>
      if p c then
        match t' with
        | [] => [[c]]
        | c' :: _ =>
            if p c' then
              match runs p t' with
              | r :: rs => (c :: r) :: rs
              | [] => [[c]]
              end
            else [c] :: runs p t'
        end
      else runs p t'
  end.

(** [t.split()] *)
Definition split_ws (t : str) : list str :=
  runs (fun c => negb (is_space c)) t.

(** Longest prefix whose characters satisfy [p], and the rest. *)
Fixpoint span (p : ascii -> bool) (t : str) : str * str :=
  match t with
  | [] => ([], [])
  | c :: t' =>
      if p c then let '(a, b) := span p t' in (c :: a, b)
      else ([], t)
  end.

Definition lstrip (t : str) : str := snd (span is_space t).

(** [t.strip()] *)
Definition strip (t : str) : str := rev (lstrip (rev (lstrip t))).

(** [t.replace(c, '')] for a one-character [c]. *)
Definition remove_char (c : ascii) (t : str) : str :=
  List.filter (fun x => negb (ascii_eqb x c)) t.

(** [os.path.basename] (POSIX): what follows the last slash. *)
Definition basename (path : str) : str :=
  List.last (split_on "/"%char path) [].

End PyStr.

(** ** Python floats *)
Module PyFloat.
Import PyStr.

Inductive pyfloat : Type :=
| PFin (q : Q)
| PInf (negative : bool)
| PNaN.

Definition of_Z (z : Z) : pyfloat := PFin (inject_Z z).

Definition digit_val (c : ascii) : Z := Z.of_N (code c) - 48.

(** Value of a string of decimal digits. *)
Definition digits_val (ds : str) : Z :=
  fold_left (fun acc c => 10 * acc + digit_val c)%Z ds 0%Z.

(** [digitpart ::= digit (["_"] digit)*]; the digits, underscores
    dropped. *)
Fixpoint digitpart (t : str) : option str :=
  match t with
  | [] => None
  | c :: t' =>
      if is_digit c then
        match t' with
        | [] => Some [c]
        | u :: t'' =>
            if ascii_eqb u "_"%char
            then option_map (cons c) (digitpart t'')
            else option_map (cons c) (digitpart t')
        end
      else None
  end.

(** A possibly empty digit part. *)
Definition opt_digitpart (t : str) : option str :=
  match t with
  | [] => Some []
  | _ => digitpart t
  end.

Definition take_sign (t : str) : bool * str :=
  match t with
  | c :: t' =>
      if ascii_eqb c "-"%char then (true, t')
      else if ascii_eqb c "+"%char then (false, t')
      else (false, t)
  | [] => (false, [])
  end.

Definition is_e (c : ascii) : bool :=
  (ascii_eqb c "e"%char || ascii_eqb c "E"%char)%bool.

Definition is_dot (c : ascii) : bool := ascii_eqb c "."%char.

(** [exponent ::= ("e" | "E") [sign] digitpart], given what follows
    the mantissa. *)
Definition parse_exponent (t : str) : option Z :=
  match t with
  | [] => Some 0%Z
  | _ :: x =>
      let '(neg, d) := take_sign x in
      match digitpart d with
      | Some ds => Some (if neg then - digits_val ds else digits_val ds)%Z
      | None => None
      end
  end.

(** [number ::= [digitpart] "." digitpart | digitpart ["."]]: the integer
    and the fraction digits. *)
Definition parse_mantissa (t : str) : option (str * str) :=
  let '(ip, rest) := span (fun c => negb (is_dot c)) t in
  match rest with
  | [] =>
      match digitpart ip with
      | Some i => Some (i, [])
      | None => None
      end
  | _ :: fp =>
      match opt_digitpart ip, opt_digitpart fp with
      | Some i, Some f =>
          match i, f with
          | [], [] => None
          | _, _ => Some (i, f)
          end
      | _, _ => None
      end
  end.

(** [floatnumber ::= number [exponent]], as an exact rational in lowest
    terms. *)
Definition parse_floatnumber (t : str) : option Q :=
  let '(m, x) := span (fun c => negb (is_e c)) t in
  match parse_mantissa m, parse_exponent x with
  | Some (i, f), Some e =>
      Some (Qred (inject_Z (digits_val (i ++ f))
                  * Qpower 10 (e - Z.of_nat (length f))))
  | _, _ => None
  end.

(** [float(t)] for a string [t]; [None] is [ValueError]. *)
Definition py_float (t : str) : option pyfloat :=
  let '(neg, body) := take_sign (strip t) in
  let l := lower body in
  if (str_eqb l (s "inf") || str_eqb l (s "infinity"))%bool
  then Some (PInf neg)
  else if str_eqb l (s "nan") then Some PNaN
  else match parse_floatnumber body with
       | Some q => Some (PFin (if neg then Qred (- q) else q))
       | None => None
       end.

(** Truth value of a float: [bool(v)]. *)
Definition pf_truthy (v : pyfloat) : bool :=
  match v with
  | PFin q => negb (Qeq_bool q 0)
  | _ => true
  end.

(** [a <= b] *)
Definition pf_leb (a b : pyfloat) : bool :=
  match a, b with
  | PNaN, _ | _, PNaN => false
  | PFin x, PFin y => Qle_bool x y
  | PInf true, _ => true
  | _, PInf false => true
  | PInf false, _ => false
  | _, PInf true => false
  end.

(** [a < b] *)
Definition pf_ltb (a b : pyfloat) : bool :=
  match a, b with
  | PNaN, _ | _, PNaN => false
  | _, _ => negb (pf_leb b a)
  end.

Definition pf_neg (a : pyfloat) : pyfloat :=
  match a with
  | PFin x => PFin (Qred (- x))
  | PInf n => PInf (negb n)
  | PNaN => PNaN
  end.

Definition pf_add (a b : pyfloat) : pyfloat :=
  match a, b with
  | PNaN, _ | _, PNaN => PNaN
  | PFin x, PFin y => PFin (Qred (x + y))
  | PInf n, PFin _ | PFin _, PInf n => PInf n
  | PInf n, PInf m => if Bool.eqb n m then PInf n else PNaN
  end.

Definition pf_sub (a b : pyfloat) : pyfloat := pf_add a (pf_neg b).

Definition pf_abs (a : pyfloat) : pyfloat :=
  match a with
  | PFin x => PFin (Qred (Qabs x))
  | PInf _ => PInf false
  | PNaN => PNaN
  end.

(** [sum(vs)]: Python starts from the integer 0. *)
Definition pf_sum (vs : list pyfloat) : pyfloat :=
  fold_left pf_add vs (of_Z 0).

End PyFloat.

Import PyStr PyFloat.

(** ** The regular expressions of [parser.py]

    Each pattern is a matcher "does the pattern match starting here, and
    what does group 1 capture"; [search] tries it at every position from
    the left, as [re.search] does.  In every pattern the repeated classes
    are followed by a character outside the class, so the greedy match at
    a position is the only one. *)
Module Re.

(** [re.search]: the match at the leftmost position that has one.
    [prev] is the character before the position, for [\b]. *)
Fixpoint search {A : Type} (m : option ascii -> str -> option A)
    (prev : option ascii) (t : str) : option A :=
  match m prev t with
  | Some r => Some r
  | None =>
      match t with
      | [] => None
      | c :: t' => search m (Some c) t'
      end
  end.

(** A literal prefix compared with [eq]; what follows it. *)
Fixpoint strip_prefix (eq : ascii -> ascii -> bool) (p t : str)
    : option str :=
  match p, t with
  | [], _ => Some t
  | x :: p', y :: t' => if eq x y then strip_prefix eq p' t' else None
  | _ :: _, [] => None
  end.

(** Literal characters under [re.IGNORECASE]. *)
Definition ci_eqb (a b : ascii) : bool :=
  ascii_eqb (lower_char a) (lower_char b).

(** [\d{n}]: exactly [n] digits and what follows them. *)
Fixpoint take_digits (n : nat) (t : str) : option (str * str) :=
  match n with
  | O => Some ([], t)
  | S n' =>
      match t with
      | c :: t' =>
          if is_digit c then
            match take_digits n' t' with
            | Some (ds, r) => Some (c :: ds, r)
            | None => None
            end
          else None
      | [] => None
      end
  end.

(** [(\d{4})] *)
Definition four_digits (_ : option ascii) (t : str) : option str :=
  option_map fst (take_digits 4 t).

(** [Annual Report\s+(\d{4})] *)
Definition annual_report (_ : option ascii) (t : str) : option str :=
  match strip_prefix ascii_eqb (s "Annual Report") t with
  | Some r =>
      match span is_space r with
      | (_ :: _, r') => option_map fst (take_digits 4 r')
      | ([], _) => None
      end
  | None => None
  end.

(** [<alias>\s+(\d+)%] with [re.IGNORECASE], the alias escaped. *)
Definition percent_of (alias : str) (_ : option ascii) (t : str)
    : option str :=
  match strip_prefix ci_eqb alias t with
  | Some r =>
      match span is_space r with
      | (_ :: _, r') =>
          match span is_digit r' with
          | (d :: ds, c :: _) =>
              if ascii_eqb c "%"%char then Some (d :: ds) else None
          | _ => None
          end
      | ([], _) => None
      end
  | None => None
  end.

Definition is_word_at (c : option ascii) : bool :=
  match c with
  | Some x => is_word x
  | None => false
  end.

(** [\b] between [before] and [after]. *)
Definition boundary (before after : option ascii) : bool :=
  xorb (is_word_at before) (is_word_at after).

(** [\b1[34]\d{3}\b]; the whole match. *)
Definition five_digit (prev : option ascii) (t : str) : option str :=
  match t with
  | c1 :: c2 :: c3 :: c4 :: c5 :: r =>
      if (boundary prev (Some c1)
          && ascii_eqb c1 "1"%char
          && (ascii_eqb c2 "3"%char || ascii_eqb c2 "4"%char)
          && is_digit c3 && is_digit c4 && is_digit c5
          && boundary (Some c5) (head r))%bool
      then Some [c1; c2; c3; c4; c5]
      else None
  | _ => None
  end.

(** [re.findall(r'\d+', t)] *)
Definition digit_runs (t : str) : list str := runs is_digit t.

End Re.

(** ** The configuration read by the parser ([config.py]) *)
Module Config.

Record output_column : Type := {
  col_asset : string;
  col_metric : string
}.

Record config : Type := {
  PDF_CHART_KEYWORDS : list str;
  PDF_ASSET_NAMES : list (string * list str);
  OUTPUT_COLUMNS : list output_column;
  REQUIRE_ALL_ASSETS : bool;
  VALIDATE_PERCENTAGE_TOTAL : bool;
  PERCENTAGE_TOLERANCE : pyfloat
}.

Definition allocation (asset : string) : output_column :=
  {| col_asset := asset; col_metric := "ACTUALALLOCATION" |}.

(** The values [config.py] ships. *)
Definition shipped : config := {|
  PDF_CHART_KEYWORDS :=
    [ s "The composition of assets breaks down as follows:";
      s "The composition of assets";
      s "composition of assets" ];
  PDF_ASSET_NAMES :=
    [ ("INFRASTRUCTURE", [s "Infrastructure investments"; s "Infrastructure"]);
      ("CASH", [s "Liquidity deposits"; s "Liquidity / Receivables";
                s "Liquidity"; s "Receivables"]);
      ("MORTGAGES", [s "Mortgages"]);
      ("BONDS", [s "Bonds"]);
      ("EQUITIES", [s "Shares"; s "Equities"]);
      ("REALESTATE", [s "Real estate investments"; s "Real estate"]);
      ("HEDGEFUNDS/PRIVATEEQUITY",
         [s "Hedge funds and private equity";
          s "Hedge Funds / Private Equity"]);
      ("CURRENCYOVERLAY", [s "Currency overlay"]);
      ("COLLATERAL", [s "Collateral"]);
      ("TOTAL", [s "Total assets"]) ]%string;
  OUTPUT_COLUMNS :=
    [ {| col_asset := "TOTAL"; col_metric := "LEVEL" |};
      allocation "INFRASTRUCTURE";
      allocation "CASH";
      allocation "MORTGAGES";
      allocation "BONDS";
      allocation "EQUITIES";
      allocation "REALESTATE";
      allocation "HEDGEFUNDS/PRIVATEEQUITY" ]%string;
  REQUIRE_ALL_ASSETS := true;
  VALIDATE_PERCENTAGE_TOTAL := true;
  PERCENTAGE_TOLERANCE := of_Z 2
|}.

End Config.

(** ** Logging *)
Module Log.

Inductive log_level : Type := DEBUG | INFO | WARNING | ERROR.

(** One constructor per message of [parser.py], with the values it
    formats. *)
Inductive message : Type :=
| Year_from_filename (year : str)
| Year_from_content (year : str)
| Searching_composition
| Found_composition (page : nat)
| Extracting_percentages
| Found_percentage (asset : string) (v : pyfloat)
| Searching_balance_sheet
| Found_balance_sheet (page : nat)
| Balance_sheet_not_found
| Extracting_total_assets (page : nat)
| No_text_extracted
| Found_total_assets_line (line : str)
| Split_into_parts (parts : list str)
| Unexpected_pattern (n : nat)
| Pattern_validation_failed (p0 p1 : str)
| Reconstructed_value (v : str)
| Failed_to_convert (v : str)
| Total_assets_too_low (v : pyfloat)
| Extracted_total_assets (v : pyfloat)
| Total_assets_line_not_found
| Error_extracting_total_assets
| Attempting_fallback
| Found_digit_sequences (seqs : list str)
| Fallback_succeeded (v : pyfloat)
| Using_last_resort (v : pyfloat)
| Fallback_failed
| Calculated_cash (v : pyfloat)
| Parsing_pdf (path : str)
| Could_not_extract_year
| Could_not_find_composition
| Could_not_extract_percentages
| Extracted_percentages (n : nat)
| Could_not_extract_total_assets
| Percentage_total_deviates (total deviation : pyfloat)
| Percentage_validation_passed (total : pyfloat)
| Missing_assets (assets : list string)
| Successfully_parsed (year : str) (total : option pyfloat) (n : nat).

Definition entry : Type := log_level * message.

(** A computation that logs: its value and what it logged, in order. *)
Definition M (A : Type) : Type := A * list entry.

Definition ret {A : Type} (a : A) : M A := (a, []).

Definition bind {A B : Type} (m : M A) (f : A -> M B) : M B :=
  let '(a, l1) := m in
  let '(b, l2) := f a in
  (b, l1 ++ l2).

Definition log (lvl : log_level) (msg : message) : M unit :=
  (tt, [(lvl, msg)]).

Definition value {A : Type} (m : M A) : A := fst m.
Definition logged {A : Type} (m : M A) : list entry := snd m.

End Log.

Import Re Config Log.

Notation "'let!' x ':=' m 'in' k" := (Log.bind m (fun x => k))
  (at level 10, x name, m at level 100, k at level 200).
Notation "'log!' lvl msg 'in' k" := (Log.bind (Log.log lvl msg) (fun _ => k))
  (at level 10, lvl at level 0, msg at level 0, k at level 200).

(** ** [NovartisPDFParser] *)
Module Parser.

(** A PDF as the parser sees it: its path and [page.extract_text()] of
    each page, in order. *)
Record pdf : Type := {
  pdf_path : str;
  pdf_pages : list str
}.

(** The dictionary [parse_pdf] returns. *)
Record result : Type := {
  year : str;
  total_assets : option pyfloat;
  percentages : gmap string pyfloat
}.

(** [clean_number] *)
Definition clean_number (value_str : str) : option pyfloat :=
  if (str_eqb value_str [] || str_eqb value_str (s "nan"))%bool then None
  else
    let cleaned :=
      strip (remove_char (ascii_of_N 160)
               (remove_char ","%char (remove_char " "%char value_str))) in
    py_float cleaned.

(** The page loop of [extract_year_from_pdf], over the first three
    pages. *)
Fixpoint content_year_loop (pages : list str) : M (option str) :=
  match pages with
  | [] => ret None
  | text :: rest =>
      match search annual_report None text with
      | Some y =>
          log! INFO (Year_from_content y) in
          ret (Some y)
      | None => content_year_loop rest
      end
  end.

(** [extract_year_from_pdf] *)
Definition extract_year_from_pdf (doc : pdf) : M (option str) :=
  let filename := basename (pdf_path doc) in
  match search four_digits None filename with
  | Some y =>
      log! INFO (Year_from_filename y) in
      ret (Some y)
  | None => content_year_loop (firstn 3 (pdf_pages doc))
  end.

(** The test of the keyword loop of [find_composition_section]: some
    keyword occurs in the page, both lowered. *)
Definition has_keyword (keywords : list str) (text : str) : bool :=
  existsb (fun keyword => contains (lower keyword) (lower text)) keywords.

(** The page loop of [find_composition_section], from page [page_num]
    on. *)
Fixpoint composition_loop (keywords : list str) (page_num : nat)
    (pages : list str) : M (option (nat * str)) :=
  match pages with
  | [] => ret None
  | text :: rest =>
      if has_keyword keywords text then
        log! INFO (Found_composition (page_num + 1)) in
        ret (Some (page_num, text))
      else composition_loop keywords (S page_num) rest
  end.

(** The page loop of [find_balance_sheet_page]. *)
Fixpoint balance_sheet_loop (page_num : nat) (pages : list str)
    : M (option nat) :=
  match pages with
  | [] => ret None
  | text :: rest =>
      if (negb (str_eqb text [])
          && contains (s "balance sheet") (lower text))%bool then
        log! INFO (Found_balance_sheet (page_num + 1)) in
        ret (Some page_num)
      else balance_sheet_loop (S page_num) rest
  end.

(** [find_balance_sheet_page] *)
Definition find_balance_sheet_page (doc : pdf) : M (option nat) :=
  log! INFO Searching_balance_sheet in
  balance_sheet_loop 0 (pdf_pages doc).

(** The acceptance test of the fallback's pair loop:
    [val and 10000 <= val <= 50000]. *)
Definition plausible_total (val : option pyfloat) : bool :=
  match val with
  | Some v =>
      (pf_truthy v && pf_leb (of_Z 10000) v && pf_leb v (of_Z 50000))%bool
  | None => false
  end.

(** The loop [for i in range(len(digit_sequences) - 1)] of the fallback:
    the first adjacent pair whose concatenation is accepted. *)
Fixpoint pairs_loop (digit_sequences : list str) : option pyfloat :=
  match digit_sequences with
  | a :: ((b :: _) as rest) =>
      let val := clean_number (a ++ b) in
      if plausible_total val then val else pairs_loop rest
  | _ => None
  end.

(** [extract_total_assets_fallback]; [parts] is not used by it. *)
Definition extract_total_assets_fallback (line : str) (parts : list str)
    : M (option pyfloat) :=
  log! INFO Attempting_fallback in
  let digit_sequences := digit_runs line in
  log! DEBUG (Found_digit_sequences digit_sequences) in
  match
    (if (2 <=? length digit_sequences)%nat
     then pairs_loop digit_sequences else None)
  with
  | Some val =>
      log! INFO (Fallback_succeeded val) in
      ret (Some val)
  | None =>
      let last_resort :=
        match search five_digit None line with
        | Some m =>
            match clean_number m with
            | Some val => if pf_truthy val then Some val else None
            | None => None
            end
        | None => None
        end in
      match last_resort with
      | Some val =>
          log! WARNING (Using_last_resort val) in
          ret (Some val)
      | None =>
          log! ERROR Fallback_failed in
          ret None
      end
  end.

(** The line test of [extract_total_assets_from_table]. *)
Definition is_total_assets_line (line : str) : bool :=
  (contains (s "total assets") (lower line)
   && negb (contains (s "total liabilities") (lower line)))%bool.

(** What [extract_total_assets_from_table] does with the line it
    found (the body of its [if]). *)
Definition total_assets_of_line (line : str) : M (option pyfloat) :=
  log! DEBUG (Found_total_assets_line line) in
  let parts := split_ws line in
  log! DEBUG (Split_into_parts parts) in
  match parts with
  | [p0; p1; p2; p3; _; _] =>
      if (negb (str_eqb (lower p0) (s "total"))
          || negb (str_eqb (lower p1) (s "assets")))%bool then
        log! WARNING (Pattern_validation_failed p0 p1) in
        ret None
      else
        let current_year_str := p2 ++ p3 in
        log! DEBUG (Reconstructed_value current_year_str) in
        match clean_number current_year_str with
        | None =>
            log! ERROR (Failed_to_convert current_year_str) in
            ret None
        | Some total =>
            let! _ :=
              if pf_ltb total (of_Z 10000)
              then log WARNING (Total_assets_too_low total)
              else ret tt in
            log! INFO (Extracted_total_assets total) in
            ret (Some total)
        end
  | _ =>
      log! WARNING (Unexpected_pattern (length parts)) in
      extract_total_assets_fallback line parts
  end.

(** The line loop of [extract_total_assets_from_table]. *)
Fixpoint lines_loop (lines : list str) : M (option pyfloat) :=
  match lines with
  | [] =>
      log! ERROR Total_assets_line_not_found in
      ret None
  | line :: rest =>
      if is_total_assets_line line then total_assets_of_line line
      else lines_loop rest
  end.

(** The extraction from the text of the balance-sheet page. *)
Definition total_assets_of_text (text : str) : M (option pyfloat) :=
  match text with
  | [] =>
      log! ERROR No_text_extracted in
      ret None
  | _ => lines_loop (split_on (ascii_of_N 10) text)
  end.

(** [extract_total_assets_from_table]; an index outside the document
    raises inside the [try] and is logged. *)
Definition extract_total_assets_from_table (doc : pdf)
    (page_num : option nat) : M (option pyfloat) :=
  let! found :=
    match page_num with
    | Some n => ret (Some n)
    | None => find_balance_sheet_page doc
    end in
  match found with
  | None =>
      log! ERROR Balance_sheet_not_found in
      ret None
  | Some n =>
      log! INFO (Extracting_total_assets (n + 1)) in
      match nth_error (pdf_pages doc) n with
      | Some text => total_assets_of_text text
      | None =>
          log! ERROR Error_extracting_total_assets in
          ret None
      end
  end.

Definition known_assets : list string :=
  ["INFRASTRUCTURE"; "BONDS"; "EQUITIES"; "REALESTATE";
   "HEDGEFUNDS/PRIVATEEQUITY"]%string.

(** [calculate_cash_percentage]; [mapM] yields the five values when all
    five keys are present. *)
Definition calculate_cash_percentage (percentages : gmap string pyfloat)
    : M (option pyfloat) :=
  match mapM (fun asset => percentages !! asset) known_assets with
  | Some values =>
      let total_known := pf_sum values in
      let cash_percentage := pf_sub (of_Z 100) total_known in
      if (pf_leb (of_Z 0) cash_percentage
          && pf_leb cash_percentage (of_Z 100))%bool then
        log! INFO (Calculated_cash cash_percentage) in
        ret (Some cash_percentage)
      else ret None
  | None => ret None
  end.

Section WithConfig.
Variable cfg : config.

(** [find_composition_section] *)
Definition find_composition_section (doc : pdf)
    : M (option (nat * str)) :=
  log! INFO Searching_composition in
  composition_loop (PDF_CHART_KEYWORDS cfg) 0 (pdf_pages doc).

(** The alias loop of [extract_percentages_from_text]: the percentage
    after the first alias that matches.  The capture is a digit run,
    on which [float] does not raise. *)
Fixpoint first_alias_match (asset_names : list str) (text : str)
    : option pyfloat :=
  match asset_names with
  | [] => None
  | asset_name :: rest =>
      match search (percent_of asset_name) None text with
      | Some group1 =>
          match py_float group1 with
          | Some percentage => Some percentage
          | None => first_alias_match rest text
          end
      | None => first_alias_match rest text
      end
  end.

(** The asset loop of [extract_percentages_from_text]. *)
Fixpoint assets_loop (items : list (string * list str)) (text : str)
    (percentages : gmap string pyfloat) : M (gmap string pyfloat) :=
  match items with
  | [] => ret percentages
  | (asset_code, asset_names) :: rest =>
      match first_alias_match asset_names text with
      | Some percentage =>
          log! DEBUG (Found_percentage asset_code percentage) in
          assets_loop rest text (<[asset_code := percentage]> percentages)
      | None => assets_loop rest text percentages
      end
  end.

(** [extract_percentages_from_text] *)
Definition extract_percentages_from_text (text : str)
    : M (gmap string pyfloat) :=
  log! INFO Extracting_percentages in
  assets_loop (PDF_ASSET_NAMES cfg) text ∅.

(** The two checks at the end of [parse_pdf].  The sum runs over the
    values of the dictionary; its order does not matter to exact
    addition. *)
Definition validate (percentages : gmap string pyfloat) : M unit :=
  let! _ :=
    if VALIDATE_PERCENTAGE_TOTAL cfg then
      let total_pct := pf_sum (map snd (map_to_list percentages)) in
      let deviation := pf_abs (pf_sub total_pct (of_Z 100)) in
      if pf_ltb (PERCENTAGE_TOLERANCE cfg) deviation
      then log WARNING (Percentage_total_deviates total_pct deviation)
      else log INFO (Percentage_validation_passed total_pct)
    else ret tt in
  if REQUIRE_ALL_ASSETS cfg then
    let required_assets :=
      map col_asset
        (List.filter (fun col => String.eqb (col_metric col) "ACTUALALLOCATION")
           (OUTPUT_COLUMNS cfg)) in
    let missing_assets :=
      List.filter (fun asset => bool_decide (percentages !! asset = None))
        required_assets in
    match missing_assets with
    | [] => ret tt
    | _ => log WARNING (Missing_assets missing_assets)
    end
  else ret tt.

(** The cash step of [parse_pdf]. *)
Definition derive_cash (percentages : gmap string pyfloat)
    : M (gmap string pyfloat) :=
  match percentages !! "CASH"%string with
  | None =>
      let! cash_pct := calculate_cash_percentage percentages in
      match cash_pct with
      | Some v => ret (<["CASH"%string := v]> percentages)
      | None => ret percentages
      end
  | Some _ => ret percentages
  end.

(** [parse_pdf] *)
Definition parse_pdf (doc : pdf) : M (option result) :=
  log! INFO (Parsing_pdf (pdf_path doc)) in
  let! found_year := extract_year_from_pdf doc in
  match found_year with
  | None | Some [] =>
      log! ERROR Could_not_extract_year in
      ret None
  | Some y =>
      let! section := find_composition_section doc in
      match section with
      | None =>
          log! ERROR Could_not_find_composition in
          ret None
      | Some (page_num, page_text) =>
          let! extracted := extract_percentages_from_text page_text in
          if bool_decide (extracted = ∅) then
            log! ERROR Could_not_extract_percentages in
            ret None
          else
            log! INFO (Extracted_percentages (size extracted)) in
            let! pcts := derive_cash extracted in
            let! total := extract_total_assets_from_table doc None in
            let! _ :=
              match total with
              | None => log WARNING Could_not_extract_total_assets
              | Some _ => ret tt
              end in
            let res :=
              {| year := y; total_assets := total;
                 percentages := pcts |} in
            let! _ := validate pcts in
            log! INFO (Successfully_parsed y total (size pcts)) in
            ret (Some res)
      end
  end.

End WithConfig.

End Parser.

Import Parser.

(** ** [NovartisDownloader]: the report list ([scraper.py])

    The browser and the downloads are outside the embedding; what is
    modelled is what the downloader computes from the report list it has
    read off the page. *)
Module Scraper.

(** An entry of the list [get_report_links] builds. *)
Record report : Type := {
  report_year : str;
  report_title : str;
  report_url : str
}.

(** The two settings of [config.py] that [filter_reports_by_config]
    reads. *)
Record settings : Type := {
  PROCESS_ALL_YEARS : bool;
  TARGET_YEAR : option Z
}.

(** The values [config.py] ships. *)
Definition shipped_settings : settings :=
  {| PROCESS_ALL_YEARS := false; TARGET_YEAR := Some 2022%Z |}.

(** The messages of [filter_reports_by_config]. *)
Inductive scraper_message : Type :=
| Mode_all_years (n : nat)
| Mode_latest_year (year : str)
| Mode_specific_year (target : Z) (n : nat).

(** [extract_year_from_text] *)
Definition extract_year_from_text (text : str) : option str :=
  search four_digits None text.

(** [str(n)] for an integer [n]. *)
Definition str_of_int (n : Z) : str :=
  list_ascii_of_string (NilZero.string_of_int (Z.to_int n)).

(** Comparison of two strings: by code point, then by length. *)
Fixpoint str_compare (a b : str) : comparison :=
  match a, b with
  | [], [] => Eq
  | [], _ :: _ => Lt
  | _ :: _, [] => Gt
  | x :: a', y :: b' =>
      match N.compare (code x) (code y) with
      | Eq => str_compare a' b'
      | c => c
      end
  end.

(** One step of a stable descending sort: [r] goes before the first
    report whose year is not greater than its own. *)
Fixpoint insert_desc (r : report) (sorted : list report) : list report :=
  match sorted with
  | [] => [r]
  | r' :: rest =>
      match str_compare (report_year r') (report_year r) with
      | Gt => r' :: insert_desc r rest
      | _ => r :: sorted
      end
  end.

(** [sorted(reports, key=lambda x: x['year'], reverse=True)]: descending
    by year, reports of one year in their original order. *)
Definition sorted_by_year_desc (reports : list report) : list report :=
  fold_right insert_desc [] reports.

(** [filter_reports_by_config]; the value and what it logs. *)
Definition filter_reports_by_config (cfg : settings) (reports : list report)
    : list report * list (log_level * scraper_message) :=
  if PROCESS_ALL_YEARS cfg then
    (reports, [(INFO, Mode_all_years (length reports))])
  else
    match TARGET_YEAR cfg with
    | None =>
        match reports with
        | [] => ([], [])
        | _ :: _ =>
            match sorted_by_year_desc reports with
            | latest :: _ =>
                ([latest], [(INFO, Mode_latest_year (report_year latest))])
            | [] => ([], [])
            end
        end
    | Some target =>
        let target_year_str := str_of_int target in
        let filtered :=
          List.filter (fun r => str_eqb (report_year r) target_year_str)
            reports in
        (filtered, [(INFO, Mode_specific_year target (length filtered))])
    end.

End Scraper.

Import Scraper.

(** * Vocabulary of the properties *)

(** ** Strings *)

(** [a] occurs in [b]. *)
Definition substring (a b : str) : Prop :=
  exists pre post, b = pre ++ a ++ post.

Abbreviation all_digits := (Forall (fun c => is_digit c = true)).

(** A digit string: what [\d+] captures. *)
Definition digit_string (ds : str) : Prop := ds <> [] /\ all_digits ds.

Abbreviation all_spaces := (Forall (fun c => is_space c = true)).

(** ** Total assets *)

(** The concatenations of adjacent digit runs, left to right. *)
Fixpoint adjacent_pairs (seqs : list str) : list str :=
  match seqs with
  | a :: ((b :: _) as rest) => (a ++ b) :: adjacent_pairs rest
  | _ => []
  end.

(** The digit string writes a number in [10000, 50000]. *)
Definition in_plausible_range (c : str) : bool :=
  ((10000 <=? digits_val c) && (digits_val c <=? 50000))%Z.

(** What the fallback logs before it tries its tiers. *)
Definition fallback_prologue (line : str) : list entry :=
  [(INFO, Attempting_fallback);
   (DEBUG, Found_digit_sequences (digit_runs line))].

(** What is logged about the line before its shape is examined. *)
Definition line_prologue (line : str) : list entry :=
  [(DEBUG, Found_total_assets_line line);
   (DEBUG, Split_into_parts (split_ws line))].

(** The first line of the page that [extract_total_assets_from_table]
    works on. *)
Definition first_total_assets_line (text : str) : option str :=
  List.find is_total_assets_line (split_on (ascii_of_N 10) text).

(** The page [extract_total_assets_from_table] reads: the one it is given,
    or else the one [find_balance_sheet_page] finds. *)
Definition resolved_page (doc : pdf) (page_num : option nat) : option nat :=
  match page_num with
  | Some n => Some n
  | None => value (find_balance_sheet_page doc)
  end.

(** Log entries written while the page is being located. *)
Definition locating_entry (e : entry) : Prop :=
  e = (INFO, Searching_balance_sheet)
  \/ (exists k, e = (INFO, Found_balance_sheet k))
  \/ (exists k, e = (INFO, Extracting_total_assets k)).

(** ** Sections and percentages *)

(** A page matches when some keyword occurs in it, case ignored. *)
Definition page_matches (keywords : list str) (text : str) : Prop :=
  exists keyword, In keyword keywords /\ substring (lower keyword) (lower text).

(** Somewhere in the text: the alias, case ignored, then at least one
    whitespace character, then a digit string, then a percent sign.
    Nothing is required of what precedes the alias. *)
Definition percent_occurrence (alias text : str) : Prop :=
  exists pre a ws ds post,
    text = pre ++ a ++ ws ++ ds ++ "%"%char :: post
    /\ lower a = lower alias
    /\ ws <> [] /\ all_spaces ws
    /\ digit_string ds.

(** The percentage pattern of the alias matches at the very start of
    the text and captures [ds]. *)
Definition percent_at (alias text ds : str) : Prop :=
  exists a ws post,
    text = a ++ ws ++ ds ++ "%"%char :: post
    /\ lower a = lower alias
    /\ ws <> [] /\ all_spaces ws
    /\ digit_string ds.

(** The configuration with another keyword list. *)
Definition with_keywords (cfg : config) (keywords : list str) : config :=
  {| PDF_CHART_KEYWORDS := keywords;
     PDF_ASSET_NAMES := PDF_ASSET_NAMES cfg;
     OUTPUT_COLUMNS := OUTPUT_COLUMNS cfg;
     REQUIRE_ALL_ASSETS := REQUIRE_ALL_ASSETS cfg;
     VALIDATE_PERCENTAGE_TOTAL := VALIDATE_PERCENTAGE_TOTAL cfg;
     PERCENTAGE_TOLERANCE := PERCENTAGE_TOLERANCE cfg |}.

(** ** Validation settings *)

(** The configuration with other validation settings. *)
Definition with_validation (cfg : config) (require_all validate_total : bool)
    (tolerance : pyfloat) : config :=
  {| PDF_CHART_KEYWORDS := PDF_CHART_KEYWORDS cfg;
     PDF_ASSET_NAMES := PDF_ASSET_NAMES cfg;
     OUTPUT_COLUMNS := OUTPUT_COLUMNS cfg;
     REQUIRE_ALL_ASSETS := require_all;
     VALIDATE_PERCENTAGE_TOTAL := validate_total;
     PERCENTAGE_TOLERANCE := tolerance |}.

(** [sum(percentages.values())] *)
Definition percentage_total (m : gmap string pyfloat) : pyfloat :=
  pf_sum (map snd (map_to_list m)).

(** [abs(total_pct - 100.0)] *)
Definition deviation (m : gmap string pyfloat) : pyfloat :=
  pf_abs (pf_sub (percentage_total m) (of_Z 100)).

(** The float [n / 2]. *)
Definition half (n : Z) : pyfloat := PFin (n # 2).

(** ** Lines *)

(** No line feed in the string. *)
Definition one_line (l : str) : Prop :=
  Forall (fun c => ascii_eqb c (ascii_of_N 10) = false) l.

(** The lines joined by line feeds: ['\n'.join(lines)]. *)
Fixpoint join_lines (lines : list str) : str :=
  match lines with
  | [] => []
  | [l] => l
  | l :: rest => l ++ ascii_of_N 10 :: join_lines rest
  end.

(** The page mentions the balance sheet. *)
Definition mentions_balance_sheet (text : str) : Prop :=
  substring (s "balance sheet") (lower text).

(** The canonical layout: the two labels and four groups of digits, one
    space between them. *)
Definition canonical_layout (d1 d2 d3 d4 : str) : str :=
  s "Total assets " ++ d1 ++ " "%char :: d2 ++ " "%char :: d3
  ++ " "%char :: d4.

(** ** Years *)

(** Four decimal digits. *)
Definition four_digit_window (w : str) : Prop :=
  length w = 4%nat /\ all_digits w.

(** The text has "Annual Report", whitespace and the four digits [y]
    somewhere. *)
Definition annual_report_occurrence (y text : str) : Prop :=
  exists pre ws post,
    text = pre ++ s "Annual Report" ++ ws ++ y ++ post
    /\ ws <> [] /\ all_spaces ws
    /\ four_digit_window y.

(** ** Case *)

(** A letter of A to Z or a to z. *)
Definition is_ascii_letter (c : ascii) : bool :=
  (in_range 65 90 c || in_range 97 122 c)%bool.

(** The same character, or the same letter of A to Z in its two
    cases. *)
Definition same_but_ascii_case (a b : ascii) : Prop :=
  a = b
  \/ (is_ascii_letter a = true /\ is_ascii_letter b = true
      /\ lower_char a = lower_char b).

(** ** Numbers *)

(** Every integer up to 2^53 is a float; 2^53 + 1 is the first that is
    not. *)
Definition max_exact : Z := 2 ^ 53.



(** No value of the mapping is below zero. *)
Definition nonneg_valued (m : gmap string pyfloat) : Prop :=
  forall k v, m !! k = Some v -> pf_leb (of_Z 0) v = true.

(** ** Integer percentages *)

(** The sum of the values of a mapping of integers. *)
Definition int_total (mz : gmap string Z) : Z :=
  fold_right Z.add 0%Z (map snd (map_to_list mz)).

(** The assets [validate] requires: those of the output columns whose
    metric is the actual allocation. *)
Definition required_asset (cfg : config) (asset : string) : Prop :=
  exists col,
    In col (OUTPUT_COLUMNS cfg)
    /\ col_asset col = asset
    /\ col_metric col = "ACTUALALLOCATION"%string.

(** ** Sample documents *)

(** A report of three pages: cover, composition of assets, balance
    sheet. *)
Definition report_path : str :=
  s "downloads/20251124_091103/2024/E_Jahresbericht.pdf".

Definition cover_page : str := s "Novartis Pension Funds Annual Report 2024".

Definition composition_page : str :=
  s "The composition of assets breaks down as follows: Bonds 40% Shares 30% Real estate 10% Infrastructure 5% Hedge funds and private equity 10%".

(** A page with two of the known classes and the liquidity. *)
Definition partial_page : str := s "Bonds 40% Shares 30% Liquidity 3%".

(** A page whose percentages of the five known classes sum to 115. *)
Definition overfull_page : str :=
  s "The composition of assets: Bonds 40% Shares 30% Real estate 30% Infrastructure 5% Hedge funds and private equity 10%".

Definition balance_page (balance_line : str) : str :=
  s "Balance sheet" ++ [ascii_of_N 10] ++ balance_line.

Definition report_with (balance_line : str) : pdf :=
  {| pdf_path := report_path;
     pdf_pages :=
       [cover_page; composition_page; balance_page balance_line] |}.

Definition report_without_balance_sheet : pdf :=
  {| pdf_path := report_path;
     pdf_pages := [cover_page; composition_page] |}.

Definition bonds_only_report : pdf :=
  {| pdf_path := report_path;
     pdf_pages := [cover_page; s "The composition of assets: Bonds 40%"] |}.

(** A canonical line in capitals whose figure is below 10000, and one
    whose third and fourth tokens are not a number. *)
Definition low_line : str := s "TOTAL ASSETS 9 500 9 400".

Definition wordy_line : str := s "Total assets see note 7 below".

(** A report whose contents page mentions the balance sheet before the
    balance sheet itself. *)
Definition report_with_contents : pdf :=
  {| pdf_path := report_path;
     pdf_pages :=
       [cover_page; s "Contents: composition, Balance Sheet, notes";
        composition_page; balance_page (s "Total assets 13 432 13 083")] |}.

(** Total-assets lines: the canonical one, one with another first
    token, one with seven tokens, and one with the figure unseparated. *)
Definition canonical_line : str := s "Total assets 13 432 13 083".

Definition mislabelled_line : str := s "Subtotal assets 13 432 13 083".

Definition seven_part_line : str := s "Total assets CHF 13 432 13 083".

Definition joined_line : str := s "Total assets: 13432".


(** ** The report list *)

(** The year of a report, as a number. *)
Definition year_number (r : report) : Z := digits_val (report_year r).

(** The year of the report is four of the digits 0 to 9. *)
Definition plain_year (r : report) : Prop :=
  four_digit_window (report_year r).

(** [a] does not come after [b] in the order of strings. *)
Definition str_le (a b : str) : Prop := str_compare a b <> Gt.

(** The settings ask for the latest report. *)
Definition latest_mode (cfg : settings) : Prop :=
  PROCESS_ALL_YEARS cfg = false /\ TARGET_YEAR cfg = None.

(** Settings with no target year. *)
Definition latest_settings : settings :=
  {| PROCESS_ALL_YEARS := false; TARGET_YEAR := None |}.

(** A listing of four reports, two of them of 2024. *)
Definition listing_entry (title year : str) : report :=
  {| report_year := year; report_title := title;
     report_url := s "https://example.org/" ++ title ++ s ".pdf" |}.

Definition sample_listing : list report :=
  [listing_entry (s "Annual Report 2023") (s "2023");
   listing_entry (s "Annual Report 2024") (s "2024");
   listing_entry (s "Annual Report 2022") (s "2022");
   listing_entry (s "Jahresbericht 2024") (s "2024")].

(** * Properties *)

(** ** Sanity checks of the string and number models *)

Example lower_total : lower (s "Total ASSETS") = s "total assets".
Proof. reflexivity. Qed.
Example split_ws_example :
  split_ws (s "Total assets  13 432 13 083 ") =
  [s "Total"; s "assets"; s "13"; s "432"; s "13"; s "083"].
Proof. reflexivity. Qed.
Example float_13432 : py_float (s "13432") = Some (of_Z 13432).
Proof. reflexivity. Qed.
Example float_frac : py_float (s " -1_0.25e1 ") = Some (PFin (-205 # 2)).
Proof. reflexivity. Qed.
Example float_exponent : py_float (s "1e5") = Some (of_Z 100000).
Proof. reflexivity. Qed.
Example float_double_underscore : py_float (s "1__0") = None.
Proof. reflexivity. Qed.
Example float_nan : py_float (s "NaN") = Some PNaN.
Proof. reflexivity. Qed.
Example clean_number_nan : clean_number (s "nan") = None.
Proof. reflexivity. Qed.
Example clean_number_separators :
  clean_number (s " 13,432 ") = Some (of_Z 13432).
Proof. reflexivity. Qed.
Example split_ws_no_break_space :
  split_ws (s "13" ++ [ascii_of_N 160] ++ s "432") = [s "13"; s "432"].
Proof. reflexivity. Qed.
Example digit_runs_example :
  digit_runs (s "13 432abc083") = [s "13"; s "432"; s "083"].
Proof. reflexivity. Qed.
Example five_digit_needs_boundary :
  search five_digit None (s "x13432") = None
  /\ search five_digit None (s "CHF 13432.") = Some (s "13432")
  /\ search five_digit None (s "CHF 15432") = None.
Proof. repeat split. Qed.

(** ** The writer monad *)
Section LogFacts.
Context {A B : Type}.

Lemma value_bind (m : M A) (f : A -> M B) :
  value (Log.bind m f) = value (f (value m)).
Proof. destruct m as [a l]; cbn. destruct (f a); reflexivity. Qed.

Lemma logged_bind (m : M A) (f : A -> M B) :
  logged (Log.bind m f) = logged m ++ logged (f (value m)).
Proof. destruct m as [a l]; cbn. destruct (f a); reflexivity. Qed.

Lemma value_ret (a : A) : value (ret a) = a.
Proof. reflexivity. Qed.

Lemma logged_ret (a : A) : logged (ret a) = [].
Proof. reflexivity. Qed.
End LogFacts.

Lemma logged_log lvl msg : logged (log lvl msg) = [(lvl, msg)].
Proof. reflexivity. Qed.

Create Rewrite HintDb writer.
#[export] Hint Rewrite @value_bind @logged_bind @value_ret @logged_ret
  logged_log : writer.

Ltac msimpl := autorewrite with writer; cbn [app].
Ltac msimpl_in H := autorewrite with writer in H; cbn [app] in H.

(** ** Character classes *)

Ltac by_cases_on_char c :=
  destruct c as [[] [] [] [] [] [] [] []]; try discriminate; try reflexivity.

Lemma digit_not_space c : is_digit c = true -> is_space c = false.
Proof. by_cases_on_char c. Qed.

Lemma digit_is_word c : is_digit c = true -> is_word c = true.
Proof. by_cases_on_char c. Qed.

Lemma digit_lower c : is_digit c = true -> lower_char c = c.
Proof. by_cases_on_char c. Qed.

Lemma digit_val_range c : is_digit c = true -> (0 <= digit_val c <= 9)%Z.
Proof. by_cases_on_char c; intros _; vm_compute; split; discriminate. Qed.

(** A digit is none of the characters the number parser treats
    specially. *)
Lemma digit_plain c :
  is_digit c = true ->
  is_e c = false /\ is_dot c = false /\ ascii_eqb c "_" = false
  /\ ascii_eqb c "-" = false /\ ascii_eqb c "+" = false
  /\ ascii_eqb c "i" = false /\ ascii_eqb c "n" = false
  /\ ascii_eqb c " " = false /\ ascii_eqb c "," = false
  /\ ascii_eqb c (ascii_of_N 160) = false /\ ascii_eqb c "%" = false.
Proof. by_cases_on_char c; intros _; repeat split. Qed.

Lemma ascii_eqb_eq a b : ascii_eqb a b = true <-> a = b.
Proof. apply Ascii.eqb_eq. Qed.

Lemma str_eqb_eq a b : str_eqb a b = true <-> a = b.
Proof.
  revert b; induction a as [|x a IH]; intros [|y b]; cbn; split;
    try congruence; try discriminate.
  - intros [Hx Hab]%andb_prop. apply ascii_eqb_eq in Hx. apply IH in Hab.
    congruence.
  - intros [= -> ->]. apply andb_true_intro; split.
    + now apply ascii_eqb_eq.
    + now apply IH.
Qed.

(** ** [span], [runs], [contains] *)

Lemma span_app p t :
  fst (span p t) ++ snd (span p t) = t.
Proof.
  induction t as [|c t IH]; cbn; [reflexivity|].
  destruct (p c); [|reflexivity].
  destruct (span p t) as [a b]; cbn in *. now rewrite IH.
Qed.

Lemma span_fst_all p t : Forall (fun c => p c = true) (fst (span p t)).
Proof.
  induction t as [|c t IH]; cbn; [constructor|].
  destruct (p c) eqn:Hc; [|constructor].
  destruct (span p t) as [a b]; cbn in *. now constructor.
Qed.

Lemma span_snd_head p t c r :
  snd (span p t) = c :: r -> p c = false.
Proof.
  induction t as [|x t IH]; cbn; [discriminate|].
  destruct (p x) eqn:Hx.
  - destruct (span p t) as [a b]; cbn in *. exact IH.
  - intros [= -> _]. exact Hx.
Qed.

Lemma span_all p t :
  Forall (fun c => p c = true) t -> span p t = (t, []).
Proof.
  induction 1 as [|c t Hc _ IH]; cbn; [reflexivity|].
  now rewrite Hc, IH.
Qed.

Lemma span_stop p a c r :
  Forall (fun x => p x = true) a -> p c = false ->
  span p (a ++ c :: r) = (a, c :: r).
Proof.
  induction 1 as [|x a Hx _ IH]; cbn; intros Hc.
  - now rewrite Hc.
  - now rewrite Hx, IH.
Qed.

(** Every run is non-empty and made of characters of the class. *)
Lemma runs_elements p t :
  Forall (fun r => r <> [] /\ Forall (fun c => p c = true) r) (runs p t).
Proof.
  induction t as [|c t IH]; cbn; [constructor|].
  destruct (p c) eqn:Hc; [|exact IH].
  destruct t as [|c' t']; [repeat constructor; [discriminate|assumption]|].
  destruct (p c') eqn:Hc'.
  - destruct (runs p (c' :: t')) as [|r rs].
    + repeat constructor; [discriminate|assumption].
    + inversion IH as [|? ? [_ Hr] Hrs]; subst.
      constructor; [|assumption]. split; [discriminate|now constructor].
  - constructor; [|exact IH]. split; [discriminate|now repeat constructor].
Qed.

(** A string of the class is its own single run. *)
Lemma runs_whole p r :
  r <> [] -> Forall (fun c => p c = true) r -> runs p r = [r].
Proof.
  intros Hne Hall. induction Hall as [|c t Hc Ht IH]; [congruence|].
  cbn. rewrite Hc. destruct t as [|c' t']; [reflexivity|].
  inversion Ht as [|? ? Hc' _]; subst. rewrite Hc'.
  now rewrite IH.
Qed.

(** A character outside the class separates the runs on its two sides:
    runs are maximal. *)
Lemma runs_separated p a c b :
  p c = false -> runs p (a ++ c :: b) = runs p a ++ runs p b.
Proof.
  intros Hc. induction a as [|x a IH]; [cbn; now rewrite Hc|].
  destruct a as [|y a'].
  - cbn. rewrite Hc. now destruct (p x).
  - change ((x :: y :: a') ++ c :: b) with (x :: y :: (a' ++ c :: b)).
    change ((y :: a') ++ c :: b) with (y :: (a' ++ c :: b)) in IH.
    assert (Hstep : forall l,
      runs p (x :: y :: l) =
      if p x then
        if p y then
          match runs p (y :: l) with
          | r :: rs => (x :: r) :: rs
          | [] => [[x]]
          end
        else [x] :: runs p (y :: l)
      else runs p (y :: l)) by reflexivity.
    rewrite !Hstep, IH.
    destruct (p x); [|reflexivity].
    destruct (p y) eqn:Hy; [|reflexivity].
    assert (Hne : runs p (y :: a') <> []).
    { cbn. rewrite Hy. destruct a' as [|z a'']; [discriminate|].
      destruct (p z); [|discriminate].
      destruct (runs p (z :: a'')); discriminate. }
    destruct (runs p (y :: a')) as [|r rs]; [congruence|]. reflexivity.
Qed.

Lemma starts_with_spec p t :
  starts_with p t = true <-> exists post, t = p ++ post.
Proof.
  revert t; induction p as [|x p IH]; intros t; cbn.
  - split; [intros _; now exists t|reflexivity].
  - destruct t as [|y t]; [split; [discriminate|intros [? [=]]]|].
    rewrite andb_true_iff, ascii_eqb_eq, IH. split.
    + intros [-> [post ->]]. now exists post.
    + intros [post [= -> ->]]. split; [reflexivity|now exists post].
Qed.

(** [contains] is Python's [in]: the needle occurs somewhere. *)
Lemma contains_spec needle hay :
  contains needle hay = true <-> substring needle hay.
Proof.
  unfold substring. induction hay as [|c hay IH].
  - cbn. rewrite orb_false_r, starts_with_spec. split.
    + intros [post H]. now exists [], post.
    + intros [pre [post H]]. destruct pre; [now exists post|discriminate].
  - cbn [contains]. rewrite orb_true_iff, starts_with_spec, IH. split.
    + intros [[post H]|[pre [post H]]].
      * now exists [], post.
      * exists (c :: pre), post. now rewrite H.
    + intros [[|x pre] [post H]].
      * left. now exists post.
      * right. injection H as -> ->. now exists pre, post.
Qed.

(** ** Parsing digit strings *)

Lemma all_digits_app a b : all_digits a -> all_digits b -> all_digits (a ++ b).
Proof. intros Ha Hb. apply List.Forall_app; now split. Qed.

Lemma digit_string_app a b :
  digit_string a -> digit_string b -> digit_string (a ++ b).
Proof.
  intros [Ha Ha'] [_ Hb']. split; [|now apply all_digits_app].
  destruct a; [congruence|discriminate].
Qed.

Lemma digits_val_snoc ds c :
  digits_val (ds ++ [c]) = (10 * digits_val ds + digit_val c)%Z.
Proof. unfold digits_val. now rewrite fold_left_app. Qed.

Lemma digits_val_nonneg ds : all_digits ds -> (0 <= digits_val ds)%Z.
Proof.
  induction ds as [|c ds IH] using rev_ind; intros H; [cbn; lia|].
  apply List.Forall_app in H as [Hds Hc]. inversion Hc as [|? ? Hc' _]; subst.
  rewrite digits_val_snoc. pose proof (digit_val_range c Hc'). 
  specialize (IH Hds). lia.
Qed.

Lemma digitpart_digits ds : digit_string ds -> digitpart ds = Some ds.
Proof.
  intros [Hne Hall]. induction Hall as [|c t Hc Ht IH]; [congruence|].
  cbn. rewrite Hc. destruct t as [|u t']; [reflexivity|].
  inversion Ht as [|? ? Hu _]; subst.
  destruct (digit_plain u Hu) as (_ & _ & -> & _).
  rewrite IH by discriminate. reflexivity.
Qed.

Lemma lstrip_keeps c t : is_space c = false -> lstrip (c :: t) = c :: t.
Proof. intros H. unfold lstrip. cbn. now rewrite H. Qed.

Lemma strip_digits ds : all_digits ds -> strip ds = ds.
Proof.
  intros Hall. unfold strip.
  assert (Hl : forall t, all_digits t -> lstrip t = t).
  { intros [|c t] H; [reflexivity|]. inversion H; subst.
    apply lstrip_keeps. now apply digit_not_space. }
  rewrite (Hl ds Hall), Hl, rev_involutive; [reflexivity|].
  now apply List.Forall_rev.
Qed.

Lemma remove_char_absent c t :
  Forall (fun x => ascii_eqb x c = false) t -> remove_char c t = t.
Proof.
  induction 1 as [|x t Hx _ IH]; cbn; [reflexivity|].
  rewrite Hx. cbn. f_equal. exact IH.
Qed.

Lemma lower_digits ds : all_digits ds -> lower ds = ds.
Proof.
  induction 1 as [|c t Hc _ IH]; cbn; [reflexivity|].
  rewrite (digit_lower c Hc). f_equal. exact IH.
Qed.

Lemma Qred_inject_Z z : Qred (inject_Z z) = inject_Z z.
Proof. apply Qred_identity. cbn. apply Z.gcd_1_r. Qed.

Lemma Qred_inject_Z_mul_1 z : Qred (inject_Z z * 1) = inject_Z z.
Proof.
  rewrite <- (Qred_inject_Z z) at 2. apply Qred_complete. apply Qmult_1_r.
Qed.

Lemma parse_floatnumber_digits ds :
  digit_string ds -> parse_floatnumber ds = Some (inject_Z (digits_val ds)).
Proof.
  intros Hds. pose proof Hds as [Hne Hall]. unfold parse_floatnumber.
  rewrite span_all.
  2:{ eapply List.Forall_impl; [|exact Hall]. cbn. intros c Hc.
      now destruct (digit_plain c Hc) as (-> & _). }
  unfold parse_mantissa. rewrite span_all.
  2:{ eapply List.Forall_impl; [|exact Hall]. cbn. intros c Hc.
      now destruct (digit_plain c Hc) as (_ & -> & _). }
  rewrite (digitpart_digits ds Hds). cbn [parse_exponent].
  rewrite app_nil_r. cbn [length Z.of_nat Z.sub Z.opp Z.add Qpower].
  now rewrite Qred_inject_Z_mul_1.
Qed.

(** [float] of a digit string is the integer it writes. *)
Lemma py_float_digits ds :
  digit_string ds -> py_float ds = Some (of_Z (digits_val ds)).
Proof.
  intros Hds. pose proof Hds as [Hne Hall]. unfold py_float.
  rewrite (strip_digits ds Hall).
  destruct ds as [|c t]; [congruence|].
  inversion Hall as [|? ? Hc Ht]; subst.
  destruct (digit_plain c Hc) as (_ & _ & _ & Hm & Hp & Hi & Hn & _).
  unfold take_sign. rewrite Hm, Hp.
  rewrite (lower_digits _ Hall).
  cbn [str_eqb s list_ascii_of_string]. rewrite Hi, Hn. cbn [andb orb].
  now rewrite (parse_floatnumber_digits _ Hds).
Qed.

(** [clean_number] of a digit string is the integer it writes. *)
Lemma clean_number_digits ds :
  digit_string ds -> clean_number ds = Some (of_Z (digits_val ds)).
Proof.
  intros Hds. pose proof Hds as [Hne Hall]. unfold clean_number.
  assert (Hnan : (str_eqb ds [] || str_eqb ds (s "nan"))%bool = false).
  { destruct ds as [|c t]; [congruence|]. inversion Hall; subst.
    cbn. now destruct (digit_plain c) as (_ & _ & _ & _ & _ & _ & -> & _). }
  rewrite Hnan.
  assert (Habs : forall x,
    (forall c, is_digit c = true -> ascii_eqb c x = false) ->
    remove_char x ds = ds).
  { intros x Hx. apply remove_char_absent.
    eapply List.Forall_impl; [|exact Hall]. exact Hx. }
  rewrite (Habs " "%char), (Habs ","%char), (Habs (ascii_of_N 160)).
  - rewrite (strip_digits ds Hall). now apply py_float_digits.
  - intros c Hc. now destruct (digit_plain c Hc) as (_&_&_&_&_&_&_&_&_& H & _).
  - intros c Hc. now destruct (digit_plain c Hc) as (_&_&_&_&_&_&_&_& H & _).
  - intros c Hc. now destruct (digit_plain c Hc) as (_&_&_&_&_&_&_& H & _).
Qed.

(** ** Comparisons of floats that are integers *)

Lemma pf_leb_of_Z a b : pf_leb (of_Z a) (of_Z b) = true <-> (a <= b)%Z.
Proof.
  cbn. rewrite Qle_bool_iff, <- Zle_Qle. reflexivity.
Qed.

Lemma pf_truthy_of_Z z : z <> 0%Z -> pf_truthy (of_Z z) = true.
Proof.
  intros Hz. cbn. apply negb_true_iff. apply not_true_is_false.
  intros H%Qeq_bool_iff. apply Hz.
  unfold Qeq in H. cbn in H. lia.
Qed.

Lemma plausible_total_of_Z z :
  plausible_total (Some (of_Z z)) = true <-> (10000 <= z <= 50000)%Z.
Proof.
  unfold plausible_total. rewrite !andb_true_iff, !pf_leb_of_Z. split.
  - intros [[_ H1] H2]. lia.
  - intros [H1 H2]. repeat split; try assumption.
    apply pf_truthy_of_Z. lia.
Qed.

(** ** [search] *)

Lemma search_found {A : Type} (m : option ascii -> str -> option A)
    prev t r :
  search m prev t = Some r ->
  exists before pre suf, t = pre ++ suf /\ m before suf = Some r.
Proof.
  revert prev. induction t as [|c t IH]; intros prev; cbn.
  - destruct (m prev []) eqn:Hm; [|discriminate].
    intros [= ->]. now exists prev, [], [].
  - destruct (m prev (c :: t)) eqn:Hm.
    + intros [= ->]. now exists prev, [], (c :: t).
    + intros H. destruct (IH _ H) as (before & pre & suf & -> & Hs).
      now exists before, (c :: pre), suf.
Qed.

(** A matcher that does not look behind finds a match whenever some
    suffix has one. *)
Lemma search_complete {A : Type} (m : option ascii -> str -> option A)
    prev pre suf r :
  (forall p q t, m p t = m q t) ->
  m None suf = Some r ->
  exists r', search m prev (pre ++ suf) = Some r'.
Proof.
  intros Hctx Hm. revert prev. induction pre as [|c pre IH]; intros prev.
  - destruct suf as [|c suf]; cbn; rewrite (Hctx prev None), Hm; eauto.
  - cbn. destruct (m prev (c :: pre ++ suf)); eauto.
Qed.

(** What the last-resort pattern captures: five digits that write a
    number from 13000 to 14999. *)
Lemma five_digit_capture prev t m :
  five_digit prev t = Some m ->
  digit_string m /\ (13000 <= digits_val m <= 14999)%Z.
Proof.
  unfold five_digit.
  destruct t as [|c1 [|c2 [|c3 [|c4 [|c5 r]]]]]; try discriminate.
  destruct (_ && _)%bool eqn:H; [|discriminate]. intros [= <-].
  rewrite !andb_true_iff in H.
  destruct H as [[[[[[_ E1] E2] D3] D4] D5] _].
  apply ascii_eqb_eq in E1. subst c1.
  assert (Hc2 : (digit_val c2 = 3 \/ digit_val c2 = 4)%Z
                /\ is_digit c2 = true).
  { apply orb_prop in E2 as [E|E]; apply ascii_eqb_eq in E; subst c2;
      split; auto. }
  destruct Hc2 as [V2 D2].
  split.
  - split; [discriminate|]. repeat constructor; assumption.
  - pose proof (digit_val_range c3 D3).
    pose proof (digit_val_range c4 D4).
    pose proof (digit_val_range c5 D5).
    unfold digits_val. cbn [fold_left].
    change (digit_val "1") with 1%Z. lia.
Qed.

(** ** The total-assets fallback *)


Lemma digit_runs_digits line : Forall digit_string (digit_runs line).
Proof. apply runs_elements. Qed.

Lemma plausible_total_digits c :
  digit_string c ->
  plausible_total (clean_number c) = in_plausible_range c.
Proof.
  intros Hc. rewrite (clean_number_digits c Hc). unfold in_plausible_range.
  apply eq_true_iff_eq.
  rewrite plausible_total_of_Z, andb_true_iff, !Z.leb_le. reflexivity.
Qed.

(** The pair loop returns the number of the first adjacent pair in
    range. *)
Lemma pairs_loop_find seqs :
  Forall digit_string seqs ->
  pairs_loop seqs =
  option_map (fun c => of_Z (digits_val c))
    (List.find in_plausible_range (adjacent_pairs seqs)).
Proof.
  induction 1 as [|a rest Ha Hrest IH]; [reflexivity|].
  destruct rest as [|b rest']; [reflexivity|].
  inversion Hrest as [|? ? Hb _]; subst.
  cbn [pairs_loop adjacent_pairs List.find].
  pose proof (digit_string_app a b Ha Hb) as Hab.
  rewrite (plausible_total_digits _ Hab).
  destruct (in_plausible_range (a ++ b)).
  - now rewrite (clean_number_digits _ Hab).
  - exact IH.
Qed.

Lemma pairs_loop_guard seqs :
  (if (2 <=? length seqs)%nat then pairs_loop seqs else None)
  = pairs_loop seqs.
Proof. destruct seqs as [|a [|b rest]]; reflexivity. Qed.

(** The fallback, tier by tier: value and log. *)
Lemma fallback_tiers line parts :
  extract_total_assets_fallback line parts =
  match List.find in_plausible_range (adjacent_pairs (digit_runs line)) with
  | Some c =>
      (Some (of_Z (digits_val c)),
       fallback_prologue line
       ++ [(INFO, Fallback_succeeded (of_Z (digits_val c)))])
  | None =>
      match search five_digit None line with
      | Some m =>
          (Some (of_Z (digits_val m)),
           fallback_prologue line
           ++ [(WARNING, Using_last_resort (of_Z (digits_val m)))])
      | None =>
          (None, fallback_prologue line ++ [(ERROR, Fallback_failed)])
      end
  end.
Proof.
  unfold extract_total_assets_fallback.
  rewrite pairs_loop_guard, (pairs_loop_find _ (digit_runs_digits line)).
  destruct (List.find _ _) as [c|]; [reflexivity|]. cbn [option_map].
  destruct (search five_digit None line) as [m|] eqn:Hs; [|reflexivity].
  destruct (search_found _ _ _ _ Hs) as (before & pre & suf & _ & Hm).
  destruct (five_digit_capture _ _ _ Hm) as [Hds Hrange].
  rewrite (clean_number_digits m Hds), pf_truthy_of_Z by lia.
  reflexivity.
Qed.

(** ** The total-assets line *)

(** A line that does not split into six parts goes to the fallback. *)
Lemma line_not_six line :
  length (split_ws line) <> 6 ->
  total_assets_of_line line =
  (value (extract_total_assets_fallback line (split_ws line)),
   line_prologue line
   ++ (WARNING, Unexpected_pattern (length (split_ws line)))
   :: logged (extract_total_assets_fallback line (split_ws line))).
Proof.
  intros Hlen. unfold total_assets_of_line, line_prologue.
  destruct (split_ws line) as [|p0 [|p1 [|p2 [|p3 [|p4 [|p5 [|p6 r]]]]]]];
    cbn in Hlen; try lia;
    cbn -[extract_total_assets_fallback];
    destruct (extract_total_assets_fallback line _); reflexivity.
Qed.

(** A six-part line whose labels are not "total" and "assets" is
    rejected on the spot. *)
Lemma line_bad_labels line p0 p1 p2 p3 p4 p5 :
  split_ws line = [p0; p1; p2; p3; p4; p5] ->
  lower p0 <> s "total" \/ lower p1 <> s "assets" ->
  total_assets_of_line line =
  (None, line_prologue line ++ [(WARNING, Pattern_validation_failed p0 p1)]).
Proof.
  intros Hparts Hbad. unfold total_assets_of_line, line_prologue.
  rewrite Hparts.
  assert (Hb : (negb (str_eqb (lower p0) (s "total"))
                || negb (str_eqb (lower p1) (s "assets")))%bool = true).
  { apply orb_true_iff. destruct Hbad as [H|H]; [left|right];
      apply negb_true_iff, not_true_is_false; now rewrite str_eqb_eq. }
  rewrite Hb. reflexivity.
Qed.


(** ** From the document to the line *)

Lemma balance_sheet_loop_log k pages :
  Forall locating_entry (logged (balance_sheet_loop k pages)).
Proof.
  revert k. induction pages as [|text rest IH]; intros k; cbn; [constructor|].
  destruct (_ && _)%bool; [|apply IH].
  cbn. constructor; [|constructor]. right; left. eauto.
Qed.

Lemma lines_loop_find lines :
  lines_loop lines =
  match List.find is_total_assets_line lines with
  | Some line => total_assets_of_line line
  | None => (None, [(ERROR, Total_assets_line_not_found)])
  end.
Proof.
  induction lines as [|line rest IH]; [reflexivity|]. cbn.
  destruct (is_total_assets_line line); [reflexivity|exact IH].
Qed.

Lemma text_on_line text line :
  first_total_assets_line text = Some line ->
  total_assets_of_text text = total_assets_of_line line.
Proof.
  unfold first_total_assets_line, total_assets_of_text. intros H.
  destruct text as [|c t]; [discriminate|].
  now rewrite lines_loop_find, H.
Qed.

Lemma table_on_line doc page_num n text line :
  resolved_page doc page_num = Some n ->
  nth_error (pdf_pages doc) n = Some text ->
  first_total_assets_line text = Some line ->
  value (extract_total_assets_from_table doc page_num)
  = value (total_assets_of_line line)
  /\ exists pre,
       logged (extract_total_assets_from_table doc page_num)
       = pre ++ logged (total_assets_of_line line)
       /\ Forall locating_entry pre.
Proof.
  intros Hpage Hnth Hline. unfold extract_total_assets_from_table.
  rewrite value_bind, logged_bind.
  assert (Hv : value (match page_num with
                      | Some n0 => ret (Some n0)
                      | None => find_balance_sheet_page doc
                      end) = Some n).
  { destruct page_num; exact Hpage. }
  rewrite Hv. msimpl. rewrite Hnth, (text_on_line _ _ Hline).
  split; [reflexivity|].
  match goal with
  | |- exists pre, ?l ++ ?e :: ?r = _ /\ _ => exists (l ++ [e])
  end.
  split; [now rewrite <- app_assoc|].
  apply List.Forall_app. split.
  - destruct page_num; [constructor|].
    unfold find_balance_sheet_page. msimpl.
    constructor; [now left|apply balance_sheet_loop_log].
  - constructor; [|constructor]. right; right. eauto.
Qed.



Ltac split_in H :=
  repeat match type of H with
         | In _ (_ ++ _) => apply in_app_or in H as [H|H]
         | In _ (_ :: _) => destruct H as [H|H]
         | In _ [] => destruct H
         end.

(** ** [clean_number] and the separators *)

Lemma separators_removed t :
  Forall (fun c => is_digit c = true \/ c = " "%char \/ c = ","%char
                   \/ c = ascii_of_N 160) t ->
  remove_char (ascii_of_N 160) (remove_char "," (remove_char " " t))
  = List.filter is_digit t.
Proof.
  induction 1 as [|c t Hc _ IH]; [reflexivity|].
  destruct Hc as [Hc|[-> |[-> | ->]]].
  - destruct (digit_plain c Hc) as (_&_&_&_&_&_&_& H1 & H2 & H3 & _).
    unfold remove_char in *. cbn [List.filter].
    rewrite H1. cbn [negb List.filter]. rewrite H2. cbn [negb List.filter].
    rewrite H3, Hc. cbn [negb]. f_equal. exact IH.
  - exact IH.
  - exact IH.
  - exact IH.
Qed.

Lemma filter_digits_all t : all_digits (List.filter is_digit t).
Proof.
  apply List.Forall_forall. intros c Hc. now apply filter_In in Hc.
Qed.

(** A string of digits and separators with a digit in it: the digits
    alone are parsed. *)
Lemma clean_number_separated t :
  Forall (fun c => is_digit c = true \/ c = " "%char \/ c = ","%char
                   \/ c = ascii_of_N 160) t ->
  Exists (fun c => is_digit c = true) t ->
  clean_number t = Some (of_Z (digits_val (List.filter is_digit t))).
Proof.
  intros Hall Hex. unfold clean_number.
  assert (Hne : List.filter is_digit t <> []).
  { apply List.Exists_exists in Hex as (c & Hin & Hc).
    intros H. assert (Hf : In c (List.filter is_digit t))
      by (apply filter_In; auto).
    rewrite H in Hf. destruct Hf. }
  assert (Hguard : (str_eqb t [] || str_eqb t (s "nan"))%bool = false).
  { apply orb_false_iff. split; apply not_true_is_false; intros H;
      apply str_eqb_eq in H; subst t.
    - now apply Hne.
    - inversion Hall as [|? ? Hn _]; subst.
      destruct Hn as [Hn|[Hn|[Hn|Hn]]]; discriminate. }
  rewrite Hguard, (separators_removed t Hall).
  rewrite (strip_digits _ (filter_digits_all t)).
  apply py_float_digits. split; [exact Hne|apply filter_digits_all].
Qed.









(** ** Total assets: the canonical line *)



(** ** Total assets: deviations from the canonical line *)

(** C2, as stated, fails: a six-token line whose first token is not
    "Total" returns nothing and never enters the fallback, although the
    fallback would have produced 13432 from it. *)
Lemma mislabelled_line_skips_fallback :
  first_total_assets_line (balance_page mislabelled_line)
  = Some mislabelled_line
  /\ length (split_ws mislabelled_line) = 6%nat
  /\ value (extract_total_assets_from_table
              (report_with mislabelled_line) None) = None
  /\ ~ In (INFO, Attempting_fallback)
         (logged (extract_total_assets_from_table
                    (report_with mislabelled_line) None))
  /\ value (extract_total_assets_fallback mislabelled_line
              (split_ws mislabelled_line)) = Some (of_Z 13432).
Proof.
  repeat split; try reflexivity.
  intros H. vm_compute in H.
  repeat (destruct H as [H|H]; [discriminate|]). exact H.
Qed.

(** C2, amended. A total-assets line that does not split into six tokens
    goes to the fallback, whose result is returned.  A six-token line
    whose first two tokens are not "total" and "assets" (compared in lower
    case) is rejected: nothing is returned and the fallback is not
    entered. *)
Theorem deviation_routing doc page_num n text line :
  resolved_page doc page_num = Some n ->
  nth_error (pdf_pages doc) n = Some text ->
  first_total_assets_line text = Some line ->
  (length (split_ws line) <> 6%nat ->
   value (extract_total_assets_from_table doc page_num)
   = value (extract_total_assets_fallback line (split_ws line))
   /\ In (INFO, Attempting_fallback)
        (logged (extract_total_assets_from_table doc page_num)))
  /\ (forall p0 p1 p2 p3 p4 p5,
        split_ws line = [p0; p1; p2; p3; p4; p5] ->
        lower p0 <> s "total" \/ lower p1 <> s "assets" ->
        value (extract_total_assets_from_table doc page_num) = None
        /\ In (WARNING, Pattern_validation_failed p0 p1)
             (logged (extract_total_assets_from_table doc page_num))
        /\ ~ In (INFO, Attempting_fallback)
               (logged (extract_total_assets_from_table doc page_num))).
Proof.
  intros Hpage Hnth Hline.
  destruct (table_on_line _ _ _ _ _ Hpage Hnth Hline)
    as (-> & pre & -> & Hpre).
  split.
  - intros Hlen. rewrite (line_not_six line Hlen). cbn [value logged fst snd].
    split; [reflexivity|].
    rewrite fallback_tiers. apply in_or_app. right. apply in_or_app. right.
    right. destruct (List.find _ _); [now left|].
    destruct (search _ _ _); now left.
  - intros p0 p1 p2 p3 p4 p5 Hparts Hbad.
    rewrite (line_bad_labels line _ _ _ _ _ _ Hparts Hbad).
    cbn [value logged fst snd]. split; [reflexivity|]. split.
    + apply in_or_app. right. apply in_or_app. right. now left.
    + intros H. apply in_app_or in H as [H|H].
      * rewrite List.Forall_forall in Hpre. apply Hpre in H.
        destruct H as [H|[[k H]|[k H]]]; discriminate.
      * unfold line_prologue in H. split_in H; discriminate.
Qed.

Lemma deviation_routing_witness :
  (value (extract_total_assets_from_table (report_with seven_part_line) None)
   = Some (of_Z 13432)
   /\ In (INFO, Attempting_fallback)
        (logged (extract_total_assets_from_table
                   (report_with seven_part_line) None)))
  /\ (value (extract_total_assets_from_table
               (report_with mislabelled_line) None) = None
      /\ In (WARNING, Pattern_validation_failed (s "Subtotal") (s "assets"))
           (logged (extract_total_assets_from_table
                      (report_with mislabelled_line) None))
      /\ ~ In (INFO, Attempting_fallback)
             (logged (extract_total_assets_from_table
                        (report_with mislabelled_line) None))).
Proof.
  split.
  - refine (proj1 (deviation_routing (report_with seven_part_line) None 2
                     (balance_page seven_part_line)
                     seven_part_line eq_refl eq_refl eq_refl) _).
    vm_compute. discriminate.
  - refine (proj2 (deviation_routing (report_with mislabelled_line) None 2
                     (balance_page mislabelled_line)
                     mislabelled_line eq_refl eq_refl eq_refl)
              (s "Subtotal") (s "assets") (s "13") (s "432") (s "13")
              (s "083") eq_refl _).
    left. vm_compute. discriminate.
Defined.

(** ** Total assets: the order of the fallback tiers *)



(** ** Total assets: the range of the fallback *)

(** C10. A number returned by [extract_total_assets_fallback] is an
    integer in [10000, 50000]; when it comes from the last-resort pattern
    it is in [13000, 14999]. *)
Theorem fallback_value_in_range line parts v :
  value (extract_total_assets_fallback line parts) = Some v ->
  exists z,
    v = of_Z z
    /\ (10000 <= z <= 50000)%Z
    /\ pf_leb (of_Z 10000) v = true /\ pf_leb v (of_Z 50000) = true
    /\ (In (WARNING, Using_last_resort v)
          (logged (extract_total_assets_fallback line parts)) ->
        (13000 <= z <= 14999)%Z).
Proof.
  rewrite fallback_tiers.
  destruct (List.find _ _) as [c|] eqn:Hfind.
  - cbn [value logged fst snd]. intros [= <-].
    apply find_some in Hfind as [_ Hc]. unfold in_plausible_range in Hc.
    apply andb_prop in Hc as [H1%Z.leb_le H2%Z.leb_le].
    exists (digits_val c). rewrite !pf_leb_of_Z.
    split; [reflexivity|]. split; [lia|]. split; [lia|]. split; [lia|].
    intros H. unfold fallback_prologue in H. split_in H; discriminate.
  - destruct (search five_digit None line) as [m|] eqn:Hs;
      cbn [value logged fst snd]; [|discriminate].
    intros [= <-].
    destruct (search_found _ _ _ _ Hs) as (before & pre & suf & _ & Hm).
    destruct (five_digit_capture _ _ _ Hm) as [_ Hrange].
    exists (digits_val m). rewrite !pf_leb_of_Z.
    split; [reflexivity|]. repeat split; lia.
Qed.

Lemma fallback_value_in_range_witness :
  exists z,
    of_Z 13432 = of_Z z
    /\ (10000 <= z <= 50000)%Z
    /\ pf_leb (of_Z 10000) (of_Z 13432) = true
    /\ pf_leb (of_Z 13432) (of_Z 50000) = true
    /\ (In (WARNING, Using_last_resort (of_Z 13432))
          (logged (extract_total_assets_fallback joined_line
                     (split_ws joined_line))) ->
        (13000 <= z <= 14999)%Z).
Proof.
  exact (fallback_value_in_range joined_line (split_ws joined_line)
           (of_Z 13432) eq_refl).
Defined.

(** ** The section locator *)

Lemma has_keyword_spec keywords text :
  has_keyword keywords text = true <-> page_matches keywords text.
Proof.
  unfold has_keyword, page_matches. rewrite existsb_exists.
  split; intros (kw & Hin & H); exists kw; (split; [exact Hin|]);
    now apply contains_spec.
Qed.




Lemma composition_loop_none keywords k pages :
  (forall t, In t pages -> has_keyword keywords t = false) ->
  composition_loop keywords k pages = (None, []).
Proof.
  revert k. induction pages as [|page rest IH]; intros k H; [reflexivity|].
  cbn. rewrite (H page) by now left. apply IH. intros t Ht. apply H. now right.
Qed.



(** ** The percentage pattern *)

Lemma strip_prefix_ci_spec alias t r :
  strip_prefix ci_eqb alias t = Some r <->
  exists a, t = a ++ r /\ lower a = lower alias.
Proof.
  unfold lower. revert t. induction alias as [|x alias IH]; intros t.
  - cbn. split.
    + intros [= ->]. now exists [].
    + intros ([|? ?] & -> & H); [reflexivity|discriminate].
  - destruct t as [|y t]; cbn [strip_prefix map].
    + split; [discriminate|]. intros ([|? ?] & H & H'); discriminate.
    + unfold ci_eqb at 1. destruct (ascii_eqb _ _) eqn:Hxy.
      * apply ascii_eqb_eq in Hxy. rewrite IH. split.
        -- intros (a & -> & Ha). exists (y :: a). split; [reflexivity|].
           cbn [map]. now rewrite Hxy, Ha.
        -- intros ([|y' a] & H & Ha); [discriminate|].
           injection H as <- ->. cbn [map] in Ha. injection Ha as _ Ha.
           now exists a.
      * split; [discriminate|].
        intros ([|y' a] & H & Ha); [discriminate|].
        injection H as <- ->. cbn [map] in Ha. injection Ha as Hy _.
        rewrite Hy in Hxy. unfold ascii_eqb in Hxy.
        now rewrite Ascii.eqb_refl in Hxy.
Qed.

(** What the percentage pattern matches at a position. *)
Lemma percent_of_spec alias prev t ds :
  percent_of alias prev t = Some ds <->
  exists a ws post,
    t = a ++ ws ++ ds ++ "%"%char :: post
    /\ lower a = lower alias
    /\ ws <> [] /\ all_spaces ws
    /\ digit_string ds.
Proof.
  unfold percent_of. split.
  - destruct (strip_prefix ci_eqb alias t) as [r|] eqn:Hp; [|discriminate].
    apply strip_prefix_ci_spec in Hp as (a & -> & Ha).
    pose proof (span_app is_space r) as Hr.
    pose proof (span_fst_all is_space r) as Hws.
    destruct (span is_space r) as [ws r']; cbn [fst snd] in *.
    destruct ws as [|w ws]; [discriminate|].
    pose proof (span_app is_digit r') as Hr'.
    pose proof (span_fst_all is_digit r') as Hds.
    destruct (span is_digit r') as [ds' rest]; cbn [fst snd] in *.
    destruct ds' as [|d ds']; [discriminate|].
    destruct rest as [|c rest]; [discriminate|].
    destruct (ascii_eqb c "%") eqn:Hc; [|discriminate].
    apply ascii_eqb_eq in Hc. subst c. intros [= <-].
    exists a, (w :: ws), rest. subst r r'.
    repeat split; try assumption; discriminate.
  - intros (a & ws & post & -> & Ha & Hne & Hws & Hne' & Hds).
    assert (Hp : strip_prefix ci_eqb alias (a ++ ws ++ ds ++ "%"%char :: post)
                 = Some (ws ++ ds ++ "%"%char :: post)).
    { apply strip_prefix_ci_spec. now exists a. }
    rewrite Hp.
    destruct ds as [|d ds]; [congruence|].
    inversion Hds as [|? ? Hd Hds']; subst.
    change ((d :: ds) ++ "%"%char :: post)
      with (d :: (ds ++ "%"%char :: post)).
    rewrite (span_stop is_space ws d (ds ++ "%"%char :: post) Hws
               (digit_not_space d Hd)).
    destruct ws as [|w ws]; [congruence|].
    change (d :: (ds ++ "%"%char :: post))
      with ((d :: ds) ++ "%"%char :: post).
    rewrite (span_stop is_digit (d :: ds) "%"%char post Hds eq_refl).
    reflexivity.
Qed.

Lemma percent_search_capture alias prev text ds :
  search (percent_of alias) prev text = Some ds -> digit_string ds.
Proof.
  intros H. destruct (search_found _ _ _ _ H) as (b & pre & suf & _ & Hm).
  apply percent_of_spec in Hm. now destruct Hm as (_ & _ & _ & _ & _ & _ & _ & ?).
Qed.

(** C4, as stated, fails: "Eurobonds 27%" is a match for the alias
    "Bonds", and the extractor records 27 for BONDS. *)
Lemma eurobonds_matches_bonds :
  search (percent_of (s "Bonds")) None (s "Eurobonds 27%") = Some (s "27")
  /\ value (extract_percentages_from_text shipped (s "Eurobonds 27%"))
     !! "BONDS"%string = Some (of_Z 27).
Proof. split; reflexivity. Qed.

(** C4, amended. The pattern of an alias finds a match exactly when the
    text contains, at any position, the alias (case ignored) followed by
    whitespace, an integer and a percent sign; the alias may be the end
    of a longer word. *)
Theorem percent_match_is_occurrence alias text :
  (exists ds, search (percent_of alias) None text = Some ds)
  <-> percent_occurrence alias text.
Proof.
  unfold percent_occurrence. split.
  - intros [ds H].
    destruct (search_found _ _ _ _ H) as (b & pre & suf & -> & Hm).
    apply percent_of_spec in Hm as (a & ws & post & -> & Hrest).
    now exists pre, a, ws, ds, post.
  - intros (pre & a & ws & ds & post & -> & Hrest).
    apply search_complete with (r := ds); [reflexivity|].
    apply percent_of_spec. now exists a, ws, post.
Qed.

Lemma percent_match_is_occurrence_witness :
  exists ds,
    search (percent_of (s "Bonds")) None (s "Eurobonds   27% Shares 30%")
    = Some ds.
Proof.
  apply (proj2 (percent_match_is_occurrence (s "Bonds")
                  (s "Eurobonds   27% Shares 30%"))).
  exists (s "Euro"), (s "bonds"), (s "   "), (s "27"), (s " Shares 30%").
  split; [reflexivity|]. split; [reflexivity|]. split; [discriminate|].
  split; [repeat constructor|]. split; [discriminate|repeat constructor].
Defined.

(** ** The extracted percentages *)

Lemma first_alias_match_some names text v :
  first_alias_match names text = Some v ->
  exists alias ds,
    In alias names
    /\ search (percent_of alias) None text = Some ds
    /\ v = of_Z (digits_val ds).
Proof.
  induction names as [|alias rest IH]; cbn; [discriminate|].
  destruct (search (percent_of alias) None text) as [ds|] eqn:Hs.
  - rewrite (py_float_digits ds (percent_search_capture _ _ _ _ Hs)).
    intros [= <-]. exists alias, ds. auto.
  - intros H. destruct (IH H) as (a & ds & Hin & Hrest).
    exists a, ds. auto.
Qed.

Lemma first_alias_match_none names text :
  (forall alias, In alias names ->
                 search (percent_of alias) None text = None) ->
  first_alias_match names text = None.
Proof.
  induction names as [|alias rest IH]; intros H; [reflexivity|]. cbn.
  rewrite (H alias) by now left. apply IH. intros a Ha. apply H. now right.
Qed.

Lemma assets_loop_lookup_some items text (acc : gmap string pyfloat) code v :
  value (assets_loop items text acc) !! code = Some v ->
  acc !! code = Some v
  \/ exists names,
       In (code, names) items /\ first_alias_match names text = Some v.
Proof.
  revert acc. induction items as [|[c names] rest IH]; intros acc;
    cbn [assets_loop]; [auto|].
  destruct (first_alias_match names text) as [p|] eqn:Hm.
  - msimpl. intros H. destruct (IH _ H) as [Hacc|(ns & Hin & Hns)].
    + rewrite lookup_insert in Hacc. case_decide as Hc.
      * injection Hacc as <-. right. exists names.
        split; [left; now rewrite Hc|exact Hm].
      * now left.
    + right. exists ns. split; [now right|exact Hns].
  - intros H. destruct (IH _ H) as [Hacc|(ns & Hin & Hns)]; [now left|].
    right. exists ns. split; [now right|exact Hns].
Qed.

Lemma assets_loop_lookup_none items text (acc : gmap string pyfloat) code :
  acc !! code = None ->
  (forall names, In (code, names) items ->
                 first_alias_match names text = None) ->
  value (assets_loop items text acc) !! code = None.
Proof.
  revert acc. induction items as [|[c names] rest IH]; intros acc Hacc Hnone;
    cbn [assets_loop]; [exact Hacc|].
  destruct (first_alias_match names text) as [p|] eqn:Hm.
  - msimpl. apply IH.
    + rewrite lookup_insert_ne; [exact Hacc|]. intros ->.
      rewrite (Hnone names) in Hm by now left. discriminate.
    + intros ns Hns. apply Hnone. now right.
  - apply IH; [exact Hacc|]. intros ns Hns. apply Hnone. now right.
Qed.

(** C5, as stated, fails: the pattern accepts any integer, so "Bonds
    250%" puts 250, above 100, in the mapping. *)
Lemma percentage_above_100 :
  value (extract_percentages_from_text shipped (s "Bonds 250%"))
  !! "BONDS"%string = Some (of_Z 250)
  /\ pf_leb (of_Z 250) (of_Z 100) = false.
Proof. split; reflexivity. Qed.

(** C5, amended. Every value in the mapping returned by
    [extract_percentages_from_text] is [float] of the digits written
    after a matching alias of its asset class: it is at least 0, with no
    upper bound, and it is the integer the digits write when that is at
    most 2^53.  A class none of whose aliases matches has no key. *)
Theorem extracted_percentages_sound cfg text code :
  let m := value (extract_percentages_from_text cfg text) in
  (forall v,
     m !! code = Some v ->
     exists names alias ds,
       In (code, names) (PDF_ASSET_NAMES cfg)
       /\ In alias names
       /\ search (percent_of alias) None text = Some ds
       /\ py_float ds = Some v
       /\ pf_leb (of_Z 0) v = true
       /\ ((digits_val ds <= max_exact)%Z -> v = of_Z (digits_val ds)))
  /\ ((forall names alias,
         In (code, names) (PDF_ASSET_NAMES cfg) -> In alias names ->
         search (percent_of alias) None text = None) ->
      m !! code = None).
Proof.
  intros m. subst m. unfold extract_percentages_from_text. msimpl. split.
  - intros v H.
    apply assets_loop_lookup_some in H as [H|(names & Hin & Hm)];
      [rewrite lookup_empty in H; discriminate|].
    apply first_alias_match_some in Hm as (alias & ds & Ha & Hs & ->).
    pose proof (percent_search_capture _ _ _ _ Hs) as Hds.
    pose proof (digits_val_nonneg ds (proj2 Hds)) as Hpos.
    exists names, alias, ds. repeat split; try assumption.
    + now apply py_float_digits.
    + now apply pf_leb_of_Z.
  - intros Hnone. apply assets_loop_lookup_none; [apply lookup_empty|].
    intros names Hin. apply first_alias_match_none. eauto.
Qed.

Lemma extracted_percentages_sound_witness :
  (exists names alias ds,
     In ("BONDS"%string, names) (PDF_ASSET_NAMES shipped)
     /\ In alias names
     /\ search (percent_of alias) None (s "Bonds 250%") = Some ds
     /\ py_float ds = Some (of_Z 250)
     /\ pf_leb (of_Z 0) (of_Z 250) = true
     /\ ((digits_val ds <= max_exact)%Z -> of_Z 250 = of_Z (digits_val ds)))
  /\ value (extract_percentages_from_text shipped (s "Bonds 250%"))
     !! "CASH"%string = None.
Proof.
  split.
  - exact (proj1 (extracted_percentages_sound shipped (s "Bonds 250%")
                    "BONDS"%string) (of_Z 250) eq_refl).
  - apply (proj2 (extracted_percentages_sound shipped (s "Bonds 250%")
                    "CASH"%string)).
    intros names alias Hin Ha. cbn in Hin.
    repeat (destruct Hin as [Hin|Hin]; [try discriminate|]);
      try contradiction.
    injection Hin as <-. cbn in Ha.
    repeat (destruct Ha as [<-|Ha]; [reflexivity|]). contradiction.
Defined.

(** ** The cash derivation *)

Lemma known_assets_present (m : gmap string pyfloat) v1 v2 v3 v4 v5 :
  m !! "INFRASTRUCTURE"%string = Some v1 ->
  m !! "BONDS"%string = Some v2 ->
  m !! "EQUITIES"%string = Some v3 ->
  m !! "REALESTATE"%string = Some v4 ->
  m !! "HEDGEFUNDS/PRIVATEEQUITY"%string = Some v5 ->
  mapM (fun asset => m !! asset) known_assets = Some [v1; v2; v3; v4; v5].
Proof.
  intros H1 H2 H3 H4 H5. unfold known_assets. cbn [mapM].
  rewrite H1, H2, H3, H4, H5. reflexivity.
Qed.

(** More than 100 known leaves a negative remainder. *)
Lemma remainder_negative total :
  pf_ltb (of_Z 100) total = true ->
  pf_leb (of_Z 0) (pf_sub (of_Z 100) total) = false.
Proof.
  destruct total as [q|[]|]; cbn; try reflexivity; try discriminate.
  intros H. apply negb_true_iff in H.
  apply not_true_iff_false. intros Hle. apply Qle_bool_iff in Hle.
  apply not_true_iff_false in H. apply H. apply Qle_bool_iff.
  repeat rewrite Qred_correct in Hle.
  unfold inject_Z in *. lra.
Qed.

Lemma derive_cash_other (m : gmap string pyfloat) k :
  k <> "CASH"%string -> value (derive_cash m) !! k = m !! k.
Proof.
  intros Hk. unfold derive_cash.
  destruct (m !! "CASH"%string); [reflexivity|]. msimpl.
  destruct (value (calculate_cash_percentage m)); [|reflexivity].
  cbn. now rewrite lookup_insert_ne.
Qed.

Lemma derive_cash_keeps (m : gmap string pyfloat) k v :
  m !! k = Some v -> value (derive_cash m) !! k = Some v.
Proof.
  intros Hk. destruct (decide (k = "CASH"%string)) as [->|Hne].
  - unfold derive_cash. now rewrite Hk.
  - now rewrite derive_cash_other.
Qed.

(** C6. With CASH absent and the five known classes present, the cash
    step sets CASH to 100 minus their sum when that lies in [0, 100], and
    leaves the mapping as it is, CASH still absent, when the sum exceeds
    100.  On any mapping the step changes no key other than CASH. *)
Theorem cash_derivation :
  (forall (m : gmap string pyfloat) v1 v2 v3 v4 v5,
     m !! "CASH"%string = None ->
     m !! "INFRASTRUCTURE"%string = Some v1 ->
     m !! "BONDS"%string = Some v2 ->
     m !! "EQUITIES"%string = Some v3 ->
     m !! "REALESTATE"%string = Some v4 ->
     m !! "HEDGEFUNDS/PRIVATEEQUITY"%string = Some v5 ->
     let total := pf_sum [v1; v2; v3; v4; v5] in
     let cash := pf_sub (of_Z 100) total in
     (pf_leb (of_Z 0) cash = true -> pf_leb cash (of_Z 100) = true ->
      value (calculate_cash_percentage m) = Some cash
      /\ value (derive_cash m) = <["CASH"%string := cash]> m)
     /\ (pf_ltb (of_Z 100) total = true ->
         value (calculate_cash_percentage m) = None
         /\ value (derive_cash m) = m
         /\ value (derive_cash m) !! "CASH"%string = None))
  /\ (forall (m : gmap string pyfloat) k,
        k <> "CASH"%string -> value (derive_cash m) !! k = m !! k).
Proof.
  split; [|exact derive_cash_other].
  intros m v1 v2 v3 v4 v5 Hcash H1 H2 H3 H4 H5 total cash.
  assert (Hcalc : calculate_cash_percentage m =
            if (pf_leb (of_Z 0) cash && pf_leb cash (of_Z 100))%bool
            then (Some cash, [(INFO, Calculated_cash cash)])
            else (None, [])).
  { unfold calculate_cash_percentage.
    rewrite (known_assets_present m v1 v2 v3 v4 v5 H1 H2 H3 H4 H5).
    fold total. fold cash. destruct (_ && _)%bool; reflexivity. }
  unfold derive_cash. rewrite Hcash. msimpl. rewrite Hcalc. split.
  - intros Hlo Hhi. rewrite Hlo, Hhi. cbn. split; reflexivity.
  - intros Hover. subst cash. rewrite (remainder_negative total Hover).
    cbn. repeat split; [exact Hcash].
Qed.

Lemma cash_derivation_witness :
  let m := value (extract_percentages_from_text shipped composition_page) in
  let over := value (extract_percentages_from_text shipped overfull_page) in
  value (derive_cash m) = <["CASH"%string := of_Z 5]> m
  /\ (value (calculate_cash_percentage over) = None
      /\ value (derive_cash over) = over
      /\ value (derive_cash over) !! "CASH"%string = None)
  /\ value (derive_cash m) !! "BONDS"%string = m !! "BONDS"%string.
Proof.
  intros m over. split; [|split].
  - exact (proj2 (proj1 (proj1 cash_derivation m
             (of_Z 5) (of_Z 40) (of_Z 30) (of_Z 10) (of_Z 10)
             eq_refl eq_refl eq_refl eq_refl eq_refl eq_refl)
             eq_refl eq_refl)).
  - exact (proj2 (proj1 cash_derivation over
             (of_Z 5) (of_Z 40) (of_Z 30) (of_Z 30) (of_Z 10)
             eq_refl eq_refl eq_refl eq_refl eq_refl eq_refl)
             eq_refl).
  - apply (proj2 cash_derivation m "BONDS"%string). discriminate.
Defined.

(** ** The orchestrator *)

Lemma take_digits_length n t ds r :
  take_digits n t = Some (ds, r) -> length ds = n.
Proof.
  revert t ds r. induction n as [|n IH]; intros t ds r; cbn.
  - now intros [= <- _].
  - destruct t as [|c t]; [discriminate|].
    destruct (is_digit c); [|discriminate].
    destruct (take_digits n t) as [[ds' r']|] eqn:Ht; [|discriminate].
    intros [= <- _]. cbn. f_equal. eapply IH, Ht.
Qed.

Lemma four_digits_length prev t y : four_digits prev t = Some y -> length y = 4%nat.
Proof.
  unfold four_digits. destruct (take_digits 4 t) as [[ds r]|] eqn:Ht;
    [|discriminate].
  intros [= <-]. eapply take_digits_length, Ht.
Qed.

Lemma annual_report_length prev t y :
  annual_report prev t = Some y -> length y = 4%nat.
Proof.
  unfold annual_report. destruct (strip_prefix _ _ _); [|discriminate].
  destruct (span is_space l) as [[|w ws] r']; [discriminate|].
  apply (four_digits_length None).
Qed.

Lemma content_year_length pages y :
  value (content_year_loop pages) = Some y -> length y = 4%nat.
Proof.
  induction pages as [|text rest IH]; cbn; [discriminate|].
  destruct (search annual_report None text) as [y'|] eqn:Hs; [|exact IH].
  cbn. intros [= <-].
  destruct (search_found _ _ _ _ Hs) as (b & pre & suf & _ & Hm).
  eapply annual_report_length, Hm.
Qed.

(** The year [extract_year_from_pdf] returns has four characters. *)
Lemma year_length doc y :
  value (extract_year_from_pdf doc) = Some y -> length y = 4%nat.
Proof.
  unfold extract_year_from_pdf.
  destruct (search four_digits None _) as [y'|] eqn:Hs.
  - cbn. intros [= <-].
    destruct (search_found _ _ _ _ Hs) as (b & pre & suf & _ & Hm).
    eapply four_digits_length, Hm.
  - apply content_year_length.
Qed.

(** What [parse_pdf] returns, in terms of what its steps return. *)
Lemma parse_pdf_value cfg doc :
  value (parse_pdf cfg doc) =
  match value (extract_year_from_pdf doc) with
  | None => None
  | Some y =>
      match value (find_composition_section cfg doc) with
      | None => None
      | Some (_, page_text) =>
          let extracted :=
            value (extract_percentages_from_text cfg page_text) in
          if bool_decide (extracted = ∅) then None
          else Some {| year := y;
                       total_assets :=
                         value (extract_total_assets_from_table doc None);
                       percentages := value (derive_cash extracted) |}
      end
  end.
Proof.
  unfold parse_pdf. msimpl.
  destruct (value (extract_year_from_pdf doc)) as [y|] eqn:Hy;
    [|reflexivity].
  pose proof (year_length doc y Hy) as Hlen.
  destruct y as [|c y]; [discriminate|]. msimpl.
  destruct (value (find_composition_section cfg doc)) as [[n text]|];
    [|reflexivity].
  msimpl. destruct (bool_decide _); msimpl; reflexivity.
Qed.

Lemma derive_cash_nonempty (m : gmap string pyfloat) :
  m <> ∅ -> value (derive_cash m) <> ∅.
Proof.
  intros Hm. apply map_choose in Hm as (k & v & Hk).
  intros Hempty. pose proof (derive_cash_keeps m k v Hk) as H.
  rewrite Hempty, lookup_empty in H. discriminate.
Qed.

Lemma no_balance_sheet_no_total doc :
  value (find_balance_sheet_page doc) = None ->
  value (extract_total_assets_from_table doc None) = None.
Proof.
  intros H. unfold extract_total_assets_from_table. msimpl.
  now rewrite H.
Qed.

(** C7. [parse_pdf] returns nothing exactly when the year, the
    composition section or the percentages are not found.  When all three
    are found and the total assets are not, it still returns a result:
    the year, no total assets, and a non-empty mapping that holds every
    extracted percentage.  A document without a balance-sheet page is one
    such case. *)
Theorem orchestrator_outcomes cfg doc :
  (value (parse_pdf cfg doc) = None <->
   value (extract_year_from_pdf doc) = None
   \/ value (find_composition_section cfg doc) = None
   \/ exists n text,
        value (find_composition_section cfg doc) = Some (n, text)
        /\ value (extract_percentages_from_text cfg text) = ∅)
  /\ (forall y n text,
        value (extract_year_from_pdf doc) = Some y ->
        value (find_composition_section cfg doc) = Some (n, text) ->
        value (extract_percentages_from_text cfg text) <> ∅ ->
        value (extract_total_assets_from_table doc None) = None ->
        exists r,
          value (parse_pdf cfg doc) = Some r
          /\ year r = y
          /\ total_assets r = None
          /\ percentages r <> ∅
          /\ forall k v,
               value (extract_percentages_from_text cfg text) !! k = Some v ->
               percentages r !! k = Some v)
  /\ (value (find_balance_sheet_page doc) = None ->
      value (extract_total_assets_from_table doc None) = None).
Proof.
  split; [|split; [|apply no_balance_sheet_no_total]].
  - rewrite parse_pdf_value.
    destruct (value (extract_year_from_pdf doc)) as [y|];
      [|split; auto].
    destruct (value (find_composition_section cfg doc)) as [[n text]|];
      [|split; auto].
    cbn zeta. case_bool_decide as He.
    + split; [|reflexivity]. intros _. right; right. now exists n, text.
    + split; [discriminate|].
      intros [H|[H|(n' & text' & [= <- <-] & H)]]; try discriminate.
      contradiction.
  - intros y n text Hy Hs He Ht. rewrite parse_pdf_value, Hy, Hs. cbn zeta.
    rewrite bool_decide_eq_false_2 by exact He. rewrite Ht.
    eexists. split; [reflexivity|]. cbn.
    split; [reflexivity|]. split; [reflexivity|].
    split; [now apply derive_cash_nonempty|]. apply derive_cash_keeps.
Qed.

Lemma orchestrator_outcomes_witness :
  exists r,
    value (parse_pdf shipped report_without_balance_sheet) = Some r
    /\ year r = s "2024"
    /\ total_assets r = None
    /\ percentages r <> ∅
    /\ forall k v,
         value (extract_percentages_from_text shipped composition_page) !! k
         = Some v ->
         percentages r !! k = Some v.
Proof.
  refine (proj1 (proj2 (orchestrator_outcomes shipped
            report_without_balance_sheet))
            (s "2024") 1%nat composition_page eq_refl eq_refl _ eq_refl).
  intros H. apply (f_equal (fun m => m !! "BONDS"%string)) in H.
  vm_compute in H. discriminate.
Defined.

(** ** Validation *)

Lemma validate_warns cfg (m : gmap string pyfloat) :
  VALIDATE_PERCENTAGE_TOTAL cfg = true ->
  pf_ltb (PERCENTAGE_TOLERANCE cfg) (deviation m) = true ->
  In (WARNING, Percentage_total_deviates (percentage_total m) (deviation m))
     (logged (validate cfg m)).
Proof.
  intros Hv Hdev. unfold validate. rewrite logged_bind, Hv.
  fold (percentage_total m). fold (deviation m). rewrite Hdev.
  apply in_or_app. left. now left.
Qed.

Lemma validate_quiet cfg (m : gmap string pyfloat) :
  pf_ltb (PERCENTAGE_TOLERANCE cfg) (deviation m) = false ->
  forall t d,
    ~ In (WARNING, Percentage_total_deviates t d) (logged (validate cfg m)).
Proof.
  intros Hdev t d. unfold validate. rewrite logged_bind.
  fold (percentage_total m). fold (deviation m). rewrite Hdev.
  intros H. apply in_app_or in H as [H|H].
  - destruct (VALIDATE_PERCENTAGE_TOTAL cfg); cbn in H;
      [destruct H as [H|[]]; discriminate|destruct H].
  - destruct (REQUIRE_ALL_ASSETS cfg); [|destruct H].
    destruct (List.filter _ _); cbn in H; [destruct H|].
    destruct H as [H|[]]; discriminate.
Qed.

(** The log of a successful [parse_pdf] ends with that of the
    validation and the closing message. *)
Lemma parse_pdf_log_validate cfg doc r :
  value (parse_pdf cfg doc) = Some r ->
  exists before,
    logged (parse_pdf cfg doc) =
    before ++ logged (validate cfg (percentages r))
    ++ [(INFO, Successfully_parsed (year r) (total_assets r)
                 (size (percentages r)))].
Proof.
  unfold parse_pdf. autorewrite with writer.
  destruct (value (extract_year_from_pdf doc)) as [[|c y]|];
    autorewrite with writer; try discriminate.
  destruct (value (find_composition_section cfg doc)) as [[n text]|];
    autorewrite with writer; try discriminate.
  destruct (bool_decide _); autorewrite with writer; try discriminate.
  intros [= <-]. cbn [percentages year total_assets].
  rewrite app_nil_r, !app_assoc, <- (app_assoc _ (logged (validate _ _))).
  eexists. reflexivity.
Qed.

(** C8. The validation settings never change what [parse_pdf] returns.
    When the percentages of the returned result sum to a total that
    deviates from 100 by more than the tolerance, the log of [parse_pdf]
    carries the warning; when it does not, the validation logs no such
    warning.  With the shipped tolerance 2.0 a total of 97.5 is warned
    about and a total of 98.5 is not. *)
Theorem validation_is_advisory :
  (forall cfg doc require_all validate_total tolerance,
     value (parse_pdf
              (with_validation cfg require_all validate_total tolerance) doc)
     = value (parse_pdf cfg doc))
  /\ (forall cfg doc r,
        value (parse_pdf cfg doc) = Some r ->
        VALIDATE_PERCENTAGE_TOTAL cfg = true ->
        pf_ltb (PERCENTAGE_TOLERANCE cfg) (deviation (percentages r)) = true ->
        In (WARNING,
            Percentage_total_deviates (percentage_total (percentages r))
              (deviation (percentages r)))
           (logged (parse_pdf cfg doc)))
  /\ (forall cfg (m : gmap string pyfloat),
        pf_ltb (PERCENTAGE_TOLERANCE cfg) (deviation m) = false ->
        forall t d,
          ~ In (WARNING, Percentage_total_deviates t d)
               (logged (validate cfg m)))
  /\ (let m := {[ "BONDS"%string := half 115; "EQUITIES"%string := of_Z 40 ]}
        : gmap string pyfloat in
      percentage_total m = half 195
      /\ In (WARNING, Percentage_total_deviates (half 195) (half 5))
           (logged (validate shipped m)))
  /\ (let m := {[ "BONDS"%string := half 117; "EQUITIES"%string := of_Z 40 ]}
        : gmap string pyfloat in
      percentage_total m = half 197
      /\ forall t d,
           ~ In (WARNING, Percentage_total_deviates t d)
                (logged (validate shipped m))).
Proof.
  split; [|split; [|split; [|split]]].
  - intros cfg doc ra vt tol. now rewrite !parse_pdf_value.
  - intros cfg doc r Hr Hv Hdev.
    destruct (parse_pdf_log_validate cfg doc r Hr) as [before ->].
    apply in_or_app. right. apply in_or_app. left.
    now apply validate_warns.
  - exact validate_quiet.
  - split; [reflexivity|]. vm_compute. auto.
  - split; [reflexivity|]. apply validate_quiet. reflexivity.
Qed.

Lemma validation_is_advisory_witness :
  In (WARNING, Percentage_total_deviates (of_Z 40) (of_Z 60))
     (logged (parse_pdf shipped bonds_only_report))
  /\ forall t d,
       ~ In (WARNING, Percentage_total_deviates t d)
            (logged (validate shipped
                       (value (derive_cash
                          (value (extract_percentages_from_text shipped
                                    composition_page)))))).
Proof.
  split.
  - exact (proj1 (proj2 validation_is_advisory) shipped bonds_only_report
             {| year := s "2024"; total_assets := None;
                percentages := {[ "BONDS"%string := of_Z 40 ]} |}
             eq_refl eq_refl eq_refl).
  - exact (proj1 (proj2 (proj2 validation_is_advisory)) shipped
             (value (derive_cash
                (value (extract_percentages_from_text shipped
                          composition_page))))
             eq_refl).
Defined.

(** ** A whole document *)

(** The sample report is parsed to its year, its total assets and its
    six percentages, CASH derived; the validation has nothing to warn
    about. *)
Example parse_sample_report :
  value (parse_pdf shipped (report_with canonical_line))
  = Some {| year := s "2024";
            total_assets := Some (of_Z 13432);
            percentages :=
              {[ "INFRASTRUCTURE"%string := of_Z 5;
                 "BONDS"%string := of_Z 40;
                 "EQUITIES"%string := of_Z 30;
                 "REALESTATE"%string := of_Z 10;
                 "HEDGEFUNDS/PRIVATEEQUITY"%string := of_Z 10;
                 "CASH"%string := of_Z 5 ]} |}
  /\ List.filter (fun e => match fst e with WARNING | ERROR => true | _ => false end)
       (logged (parse_pdf shipped (report_with canonical_line)))
     = [(WARNING, Missing_assets ["MORTGAGES"%string])].
Proof. split; vm_compute; reflexivity. Qed.

(** * Further properties *)

(** ** Leftmost matches *)

(** For a matcher that does not look behind, [search] returns the match
    at the first position that has one. *)
Lemma search_leftmost {A : Type} (m : option ascii -> str -> option A)
    prev t r :
  (forall p q u, m p u = m q u) ->
  search m prev t = Some r <->
  exists pre suf,
    t = pre ++ suf /\ m None suf = Some r
    /\ forall p1 p2, pre = p1 ++ p2 -> p2 <> [] -> m None (p2 ++ suf) = None.
Proof.
  intros Hctx. revert prev. induction t as [|c t IH]; intros prev.
  - cbn. rewrite (Hctx prev None). split.
    + destruct (m None []) eqn:Hm; [|discriminate]. intros [= ->].
      exists [], []. repeat split; [exact Hm|].
      intros p1 p2 H Hne. symmetry in H. apply app_eq_nil in H as [_ ->].
      congruence.
    + intros (pre & suf & H & Hm & _). symmetry in H.
      apply app_eq_nil in H as [-> ->]. now rewrite Hm.
  - cbn [search]. rewrite (Hctx prev None). split.
    + destruct (m None (c :: t)) eqn:Hm.
      * intros [= ->]. exists [], (c :: t). repeat split; [exact Hm|].
        intros p1 p2 H Hne. symmetry in H. apply app_eq_nil in H as [_ ->].
        congruence.
      * intros H. apply IH in H as (pre & suf & -> & Hs & Hleft).
        exists (c :: pre), suf. repeat split; [exact Hs|].
        intros [|x p1] p2 H Hne.
        -- cbn in H. subst p2. exact Hm.
        -- injection H as <- ->. now apply (Hleft p1 p2).
    + intros ([|x pre] & suf & H & Hs & Hleft).
      * cbn in H. subst suf. now rewrite Hs.
      * injection H as <- ->.
        pose proof (Hleft [] (c :: pre) eq_refl ltac:(discriminate)) as H0.
        cbn [app] in H0. rewrite H0.
        apply IH. exists pre, suf. repeat split; [exact Hs|].
        intros p1 p2 -> Hne. now apply (Hleft (c :: p1) p2).
Qed.

Lemma search_nowhere {A : Type} (m : option ascii -> str -> option A)
    prev t :
  (forall p q u, m p u = m q u) ->
  search m prev t = None <->
  forall pre suf, t = pre ++ suf -> m None suf = None.
Proof.
  intros Hctx. split.
  - revert prev. induction t as [|c t IH]; intros prev; cbn;
      rewrite (Hctx prev None).
    + destruct (m None []) eqn:Hm; [discriminate|].
      intros _ pre suf H. symmetry in H. apply app_eq_nil in H as [-> ->].
      exact Hm.
    + destruct (m None (c :: t)) eqn:Hm; [discriminate|].
      intros H [|x pre] suf Heq.
      * cbn in Heq. now subst suf.
      * injection Heq as <- ->. now apply (IH _ H pre suf).
  - intros H. destruct (search m prev t) as [r|] eqn:Hs; [|reflexivity].
    apply search_found in Hs as (b & pre & suf & -> & Hm).
    rewrite (Hctx _ None), (H pre suf eq_refl) in Hm. discriminate.
Qed.

(** ** Years *)

Lemma take_digits_exact ds r :
  all_digits ds -> take_digits (length ds) (ds ++ r) = Some (ds, r).
Proof.
  induction 1 as [|d ds Hd _ IH]; cbn; [reflexivity|].
  now rewrite Hd, IH.
Qed.

Lemma take_digits_spec n t ds r :
  take_digits n t = Some (ds, r) <->
  t = ds ++ r /\ length ds = n /\ all_digits ds.
Proof.
  split.
  - revert t ds r. induction n as [|n IH]; intros t ds r; cbn.
    + intros [= <- <-]. repeat split. constructor.
    + destruct t as [|c t]; [discriminate|].
      destruct (is_digit c) eqn:Hc; [|discriminate].
      destruct (take_digits n t) as [[ds' r']|] eqn:Ht; [|discriminate].
      apply IH in Ht as (-> & Hl & Hall). intros [= <- <-].
      repeat split; [cbn; lia|now constructor].
  - intros (-> & <- & Hall). now apply take_digits_exact.
Qed.

Lemma four_digits_spec prev t y :
  four_digits prev t = Some y <->
  exists rest, t = y ++ rest /\ four_digit_window y.
Proof.
  unfold four_digits, four_digit_window. split.
  - destruct (take_digits 4 t) as [[ds r]|] eqn:Ht; [|discriminate].
    intros [= <-]. apply take_digits_spec in Ht as (-> & Hl & Hall).
    now exists r.
  - intros (rest & -> & Hl & Hall).
    assert (Ht : take_digits 4 (y ++ rest) = Some (y, rest)).
    { apply take_digits_spec. auto. }
    now rewrite Ht.
Qed.

Lemma annual_report_spec prev t y :
  annual_report prev t = Some y <->
  exists ws post,
    t = s "Annual Report" ++ ws ++ y ++ post
    /\ ws <> [] /\ all_spaces ws /\ four_digit_window y.
Proof.
  unfold annual_report. split.
  - destruct (strip_prefix ascii_eqb (s "Annual Report") t) as [r|] eqn:Hp;
      [|discriminate].
    assert (Ht : t = s "Annual Report" ++ r).
    { clear -Hp. revert Hp. generalize (s "Annual Report") as p.
      intros p. revert t. induction p as [|x p IH]; intros t; cbn.
      - now intros [= ->].
      - destruct t as [|c t]; [discriminate|].
        destruct (ascii_eqb x c) eqn:Hx; [|discriminate].
        apply ascii_eqb_eq in Hx. subst c. intros H. f_equal. now apply IH. }
    pose proof (span_app is_space r) as Hr.
    pose proof (span_fst_all is_space r) as Hws.
    destruct (span is_space r) as [ws r']; cbn [fst snd] in *.
    destruct ws as [|w ws]; [discriminate|].
    intros H. apply (four_digits_spec None) in H as (post & -> & Hy).
    exists (w :: ws), post. subst t r.
    split; [reflexivity|]. split; [discriminate|]. split; assumption.
  - intros (ws & post & -> & Hne & Hws & Hl & Hall).
    assert (Hp : strip_prefix ascii_eqb (s "Annual Report")
                   (s "Annual Report" ++ ws ++ y ++ post)
                 = Some (ws ++ y ++ post)).
    { generalize (s "Annual Report") as p. intros p.
      induction p as [|x p IH]; cbn; [reflexivity|].
      unfold ascii_eqb at 1. now rewrite Ascii.eqb_refl. }
    rewrite Hp. destruct y as [|d y]; [discriminate|].
    inversion Hall as [|? ? Hd _]; subst.
    change ((d :: y) ++ post) with (d :: (y ++ post)).
    rewrite (span_stop is_space ws d (y ++ post) Hws (digit_not_space d Hd)).
    destruct ws as [|w ws]; [congruence|].
    apply (four_digits_spec None). exists post. split; [reflexivity|].
    split; assumption.
Qed.

(** The four-digit pattern finds the first window of four digits, and
    nothing when the text has none. *)
Theorem year_of_text_is_first_window text :
  match extract_year_from_text text with
  | Some y =>
      exists pre post,
        text = pre ++ y ++ post
        /\ four_digit_window y
        /\ forall p1 p2 w rest,
             pre = p1 ++ p2 -> p2 <> [] -> p2 ++ y ++ post = w ++ rest ->
             ~ four_digit_window w
  | None =>
      forall pre w post, text = pre ++ w ++ post -> ~ four_digit_window w
  end.
Proof.
  unfold extract_year_from_text.
  destruct (search four_digits None text) as [y|] eqn:Hs.
  - apply search_leftmost in Hs as (pre & suf & -> & Hm & Hleft);
      [|reflexivity].
    apply four_digits_spec in Hm as (post & -> & Hy).
    exists pre, post. repeat split; try apply Hy.
    intros p1 p2 w rest Hpre Hne Heq Hw.
    specialize (Hleft p1 p2 Hpre Hne). rewrite Heq in Hleft.
    assert (Hsome : four_digits None (w ++ rest) = Some w).
    { apply four_digits_spec. now exists rest. }
    congruence.
  - intros pre w post -> Hw.
    pose proof (proj1 (search_nowhere four_digits None _ ltac:(reflexivity))
                  Hs pre (w ++ post) eq_refl) as Hn.
    assert (Hsome : four_digits None (w ++ post) = Some w).
    { apply four_digits_spec. now exists post. }
    congruence.
Qed.

Lemma year_of_text_is_first_window_witness :
  exists pre post,
    s "Annual Report 20251124" = pre ++ s "2025" ++ post
    /\ four_digit_window (s "2025")
    /\ forall p1 p2 w rest,
         pre = p1 ++ p2 -> p2 <> [] -> p2 ++ s "2025" ++ post = w ++ rest ->
         ~ four_digit_window w.
Proof.
  exact (year_of_text_is_first_window (s "Annual Report 20251124")).
Defined.

Lemma annual_report_search text y :
  search annual_report None text = Some y -> annual_report_occurrence y text.
Proof.
  intros H. apply search_found in H as (b & pre & suf & -> & Hm).
  apply annual_report_spec in Hm as (ws & post & -> & Hrest).
  now exists pre, ws, post.
Qed.

Lemma annual_report_search_none text :
  search annual_report None text = None <->
  forall y, ~ annual_report_occurrence y text.
Proof.
  split.
  - intros H y (pre & ws & post & -> & Hrest).
    pose proof (proj1 (search_nowhere annual_report None _
                         ltac:(reflexivity)) H pre _ eq_refl) as Hn.
    assert (Hs : annual_report None (s "Annual Report" ++ ws ++ y ++ post)
                 = Some y).
    { apply annual_report_spec. now exists ws, post. }
    congruence.
  - intros H. destruct (search annual_report None text) as [y|] eqn:Hs;
      [|reflexivity].
    destruct (H y). now apply annual_report_search.
Qed.

Lemma content_year_found pages y :
  value (content_year_loop pages) = Some y ->
  exists page, In page pages /\ annual_report_occurrence y page.
Proof.
  induction pages as [|text rest IH]; cbn; [discriminate|].
  destruct (search annual_report None text) as [y'|] eqn:Hs.
  - cbn. intros [= <-]. exists text. split; [now left|].
    now apply annual_report_search.
  - intros H. destruct (IH H) as (page & Hin & Hocc).
    exists page. split; [now right|exact Hocc].
Qed.

Lemma content_year_none pages :
  value (content_year_loop pages) = None <->
  forall page, In page pages -> search annual_report None page = None.
Proof.
  induction pages as [|text rest IH]; cbn.
  - split; [intros _ page []|reflexivity].
  - destruct (search annual_report None text) as [y'|] eqn:Hs.
    + cbn. split; [discriminate|]. intros H.
      rewrite (H text) in Hs by now left. discriminate.
    + rewrite IH. split.
      * intros H page [<-|Hin]; [exact Hs|now apply H].
      * intros H page Hin. apply H. now right.
Qed.

(** The year [extract_year_from_pdf] returns is four decimal digits,
    and it stands either in the file name or after "Annual Report" and
    whitespace in one of the first three pages. *)
Theorem year_comes_from_name_or_first_pages doc y :
  value (extract_year_from_pdf doc) = Some y ->
  four_digit_window y
  /\ (substring y (basename (pdf_path doc))
      \/ exists page,
           In page (firstn 3 (pdf_pages doc))
           /\ annual_report_occurrence y page).
Proof.
  unfold extract_year_from_pdf.
  destruct (search four_digits None _) as [y'|] eqn:Hs.
  - cbn. intros [= <-].
    apply search_found in Hs as (b & pre & suf & Hname & Hm).
    apply four_digits_spec in Hm as (post & -> & Hy).
    split; [exact Hy|]. left. now exists pre, post.
  - intros H. apply content_year_found in H as (page & Hin & Hocc).
    split; [|right; now exists page].
    now destruct Hocc as (_ & _ & _ & _ & _ & _ & ?).
Qed.

Lemma year_comes_from_name_or_first_pages_witness :
  four_digit_window (s "2024")
  /\ (substring (s "2024") (basename report_path)
      \/ exists page,
           In page (firstn 3 (pdf_pages (report_with canonical_line)))
           /\ annual_report_occurrence (s "2024") page).
Proof.
  exact (year_comes_from_name_or_first_pages (report_with canonical_line)
           (s "2024") eq_refl).
Defined.

(** No year is found exactly when the file name has no four consecutive
    digits and none of the first three pages has "Annual Report",
    whitespace and four digits; later pages are never read. *)
Theorem no_year_iff doc :
  value (extract_year_from_pdf doc) = None <->
  (forall pre w post,
     basename (pdf_path doc) = pre ++ w ++ post -> ~ four_digit_window w)
  /\ (forall page y,
        In page (firstn 3 (pdf_pages doc)) ->
        ~ annual_report_occurrence y page).
Proof.
  unfold extract_year_from_pdf.
  pose proof (year_of_text_is_first_window (basename (pdf_path doc))) as Hw.
  unfold extract_year_from_text in Hw.
  destruct (search four_digits None _) as [y'|] eqn:Hs.
  - cbn. split; [discriminate|]. intros [Hname _].
    destruct Hw as (pre & post & Heq & Hy & _).
    destruct (Hname pre y' post Heq Hy).
  - rewrite content_year_none. split.
    + intros H. split; [exact Hw|]. intros page y Hin.
      now apply annual_report_search_none, H.
    + intros [_ H] page Hin. apply annual_report_search_none.
      intros y. now apply H.
Qed.

Lemma no_year_iff_witness :
  value (extract_year_from_pdf
           {| pdf_path := report_path;
              pdf_pages := [s "Contents"; composition_page;
                            balance_page canonical_line; cover_page] |})
  = None.
Proof.
  apply (proj2 (no_year_iff _)). split.
  - apply (proj1 (no_year_iff
             {| pdf_path := report_path; pdf_pages := [] |}) eq_refl).
  - intros page y Hin.
    assert (Hn : search annual_report None page = None).
    { cbn in Hin. destruct Hin as [<-|[<-|[<-|[]]]]; reflexivity. }
    now apply annual_report_search_none.
Defined.

(** ** File names *)

Lemma split_on_app sep a b :
  split_on sep (a ++ sep :: b) = split_on sep a ++ split_on sep b.
Proof.
  induction a as [|c a IH]; cbn.
  - unfold ascii_eqb. now rewrite Ascii.eqb_refl.
  - destruct (ascii_eqb c sep); rewrite IH; [reflexivity|].
    destruct (split_on sep a) as [|h r] eqn:Ha; [|reflexivity].
    destruct a; cbn in Ha; [discriminate|].
    destruct (ascii_eqb _ _); [discriminate|].
    destruct (split_on sep a0); discriminate.
Qed.

Lemma split_on_absent sep a :
  Forall (fun c => ascii_eqb c sep = false) a -> split_on sep a = [a].
Proof.
  induction 1 as [|c a Hc _ IH]; cbn; [reflexivity|].
  now rewrite Hc, IH.
Qed.

Lemma last_app_nonempty {A : Type} (l1 l2 : list A) d :
  l2 <> [] -> List.last (l1 ++ l2) d = List.last l2 d.
Proof.
  intros Hne. induction l1 as [|x l1 IH]; [reflexivity|].
  cbn [app List.last]. rewrite IH.
  destruct (l1 ++ l2) eqn:H; [|reflexivity].
  apply app_eq_nil in H as [_ H]. congruence.
Qed.

(** [basename] keeps what follows the last slash. *)
Lemma basename_of_path dir name :
  Forall (fun c => ascii_eqb c "/" = false) name ->
  basename (dir ++ "/"%char :: name) = name /\ basename name = name.
Proof.
  intros Hname. unfold basename.
  rewrite split_on_app, (split_on_absent _ _ Hname).
  split; [|reflexivity]. now rewrite last_app_nonempty.
Qed.

(** Digits in the directories of the path never give the year: the
    report is treated as if it were given by its file name alone. *)
Theorem year_ignores_directories dir name pages :
  Forall (fun c => ascii_eqb c "/" = false) name ->
  extract_year_from_pdf {| pdf_path := dir ++ "/"%char :: name;
                           pdf_pages := pages |}
  = extract_year_from_pdf {| pdf_path := name; pdf_pages := pages |}.
Proof.
  intros Hname. unfold extract_year_from_pdf. cbn [pdf_path pdf_pages].
  destruct (basename_of_path dir name Hname) as [-> ->]. reflexivity.
Qed.

Lemma year_ignores_directories_witness :
  extract_year_from_pdf (report_with canonical_line)
  = extract_year_from_pdf
      {| pdf_path := s "E_Jahresbericht.pdf";
         pdf_pages := pdf_pages (report_with canonical_line) |}.
Proof.
  refine (year_ignores_directories (s "downloads/20251124_091103/2024")
            (s "E_Jahresbericht.pdf")
            (pdf_pages (report_with canonical_line)) _).
  repeat constructor.
Defined.

(** ** [clean_number] *)

(** Spaces, commas and no-break spaces anywhere in a number are
    ignored: when the digits alone write an integer of at most 2^53,
    [clean_number] returns that integer. *)
Theorem clean_number_ignores_separators t :
  Forall (fun c => is_digit c = true \/ c = " "%char \/ c = ","%char
                   \/ c = ascii_of_N 160) t ->
  Exists (fun c => is_digit c = true) t ->
  (digits_val (List.filter is_digit t) <= max_exact)%Z ->
  clean_number t = Some (of_Z (digits_val (List.filter is_digit t))).
Proof. intros Hall Hex _. now apply clean_number_separated. Qed.

Lemma clean_number_ignores_separators_witness :
  clean_number (s "13" ++ [ascii_of_N 160] ++ s "432, 0")
  = Some (of_Z 134320).
Proof.
  refine (clean_number_ignores_separators
            (s "13" ++ [ascii_of_N 160] ++ s "432, 0") _ _ _).
  - repeat (constructor;
      [first [ left; reflexivity
             | right; left; reflexivity
             | right; right; left; reflexivity
             | right; right; right; reflexivity ]|]).
    constructor.
  - apply Exists_cons_hd. reflexivity.
  - vm_compute. discriminate.
Defined.

Lemma blank_cleaned t :
  Forall (fun c => is_space c = true \/ c = ","%char) t ->
  all_spaces
    (remove_char (ascii_of_N 160) (remove_char "," (remove_char " " t))).
Proof.
  intros H. unfold remove_char.
  apply List.Forall_forall. intros c Hc.
  apply filter_In in Hc as [Hc H3]. apply filter_In in Hc as [Hc H2].
  apply filter_In in Hc as [Hc H1].
  rewrite List.Forall_forall in H. destruct (H c Hc) as [Hs | ->];
    [exact Hs|discriminate].
Qed.

Lemma strip_blank t : all_spaces t -> strip t = [].
Proof.
  intros H. unfold strip, lstrip. now rewrite (span_all _ _ H).
Qed.

(** A string of whitespace and commas only, the empty string included,
    is not a number: [clean_number] returns nothing, never zero. *)
Theorem clean_number_blank t :
  Forall (fun c => is_space c = true \/ c = ","%char) t ->
  clean_number t = None.
Proof.
  intros H. unfold clean_number.
  destruct (_ || _)%bool; [reflexivity|].
  now rewrite (strip_blank _ (blank_cleaned t H)).
Qed.

Lemma clean_number_blank_witness :
  clean_number (s " ,  " ++ [ascii_of_N 9; ascii_of_N 160]) = None.
Proof.
  apply clean_number_blank.
  repeat (constructor; [first [left; reflexivity|right; reflexivity]|]).
  constructor.
Defined.

(** ** The canonical line, in full *)

(** Value and log of a six-part line with the right labels. *)
Lemma line_canonical_exact line p0 p1 p2 p3 p4 p5 :
  split_ws line = [p0; p1; p2; p3; p4; p5] ->
  lower p0 = s "total" -> lower p1 = s "assets" ->
  total_assets_of_line line =
  (clean_number (p2 ++ p3),
   line_prologue line
   ++ (DEBUG, Reconstructed_value (p2 ++ p3))
   :: match clean_number (p2 ++ p3) with
      | None => [(ERROR, Failed_to_convert (p2 ++ p3))]
      | Some v =>
          (if pf_ltb v (of_Z 10000)
           then [(WARNING, Total_assets_too_low v)] else [])
          ++ [(INFO, Extracted_total_assets v)]
      end).
Proof.
  intros Hparts H0 H1. unfold total_assets_of_line, line_prologue.
  rewrite Hparts, H0, H1.
  assert (Ht : str_eqb (s "total") (s "total") = true) by reflexivity.
  assert (Ha : str_eqb (s "assets") (s "assets") = true) by reflexivity.
  rewrite Ht, Ha. cbn [negb orb].
  destruct (clean_number (p2 ++ p3)) as [total|]; [|reflexivity].
  destruct (pf_ltb total (of_Z 10000)); reflexivity.
Qed.

Lemma locating_entry_cases e :
  locating_entry e ->
  e <> (INFO, Attempting_fallback)
  /\ (forall v, e <> (WARNING, Total_assets_too_low v))
  /\ (forall v, e <> (INFO, Extracted_total_assets v))
  /\ (forall v, e <> (ERROR, Failed_to_convert v)).
Proof.
  intros [->|[[k ->]|[k ->]]]; repeat split; intros; discriminate.
Qed.

(** On a six-token line the labels are compared in lower case; the
    figure of tokens three and four is returned even when it is below
    10000, with a warning then and only then; a figure that does not
    parse gives nothing, with an error and without the fallback. *)
Theorem canonical_line_edge_cases doc page_num n text line
    p0 p1 p2 p3 p4 p5 :
  resolved_page doc page_num = Some n ->
  nth_error (pdf_pages doc) n = Some text ->
  first_total_assets_line text = Some line ->
  split_ws line = [p0; p1; p2; p3; p4; p5] ->
  lower p0 = s "total" -> lower p1 = s "assets" ->
  let r := extract_total_assets_from_table doc page_num in
  value r = clean_number (p2 ++ p3)
  /\ (clean_number (p2 ++ p3) = None ->
      In (ERROR, Failed_to_convert (p2 ++ p3)) (logged r)
      /\ ~ In (INFO, Attempting_fallback) (logged r))
  /\ (forall v,
        clean_number (p2 ++ p3) = Some v ->
        In (INFO, Extracted_total_assets v) (logged r)
        /\ (In (WARNING, Total_assets_too_low v) (logged r)
            <-> pf_ltb v (of_Z 10000) = true)).
Proof.
  intros Hpage Hnth Hline Hparts H0 H1 r. subst r.
  destruct (table_on_line _ _ _ _ _ Hpage Hnth Hline)
    as (-> & pre & -> & Hpre).
  rewrite (line_canonical_exact line _ _ _ _ _ _ Hparts H0 H1).
  cbn [value logged fst snd].
  assert (Hloc : forall e, In e pre -> locating_entry e)
    by now apply List.Forall_forall.
  split; [reflexivity|]. split.
  - intros ->. split.
    + apply in_or_app. right. apply in_or_app. right. right. now left.
    + intros H. apply in_app_or in H as [H|H].
      * apply Hloc, locating_entry_cases in H. now destruct H as [H _].
      * unfold line_prologue in H. split_in H; discriminate.
  - intros v ->. split.
    + apply in_or_app. right. apply in_or_app. right. right.
      apply in_or_app. right. now left.
    + split.
      * intros H. apply in_app_or in H as [H|H].
        -- apply Hloc, locating_entry_cases in H.
           destruct H as (_ & H & _). now destruct (H v).
        -- unfold line_prologue in H.
           destruct (pf_ltb v (of_Z 10000)); [reflexivity|].
           split_in H; discriminate.
      * intros ->. apply in_or_app. right. apply in_or_app. right. right.
        now left.
Qed.

Lemma canonical_line_edge_cases_witness :
  (value (extract_total_assets_from_table (report_with low_line) None)
   = Some (of_Z 9500)
   /\ In (WARNING, Total_assets_too_low (of_Z 9500))
        (logged (extract_total_assets_from_table (report_with low_line)
                   None)))
  /\ (value (extract_total_assets_from_table (report_with wordy_line) None)
      = None
      /\ ~ In (INFO, Attempting_fallback)
             (logged (extract_total_assets_from_table
                        (report_with wordy_line) None))).
Proof.
  split.
  - pose proof (canonical_line_edge_cases (report_with low_line) None 2
                  (balance_page low_line) low_line
                  (s "TOTAL") (s "ASSETS") (s "9") (s "500") (s "9")
                  (s "400") eq_refl eq_refl eq_refl eq_refl eq_refl eq_refl)
      as (Hv & _ & Hsome).
    split; [exact Hv|].
    now apply (proj2 (Hsome (of_Z 9500) eq_refl)).
  - pose proof (canonical_line_edge_cases (report_with wordy_line) None 2
                  (balance_page wordy_line) wordy_line
                  (s "Total") (s "assets") (s "see") (s "note") (s "7")
                  (s "below") eq_refl eq_refl eq_refl eq_refl eq_refl eq_refl)
      as (Hv & Hnone & _).
    split; [exact Hv|]. now apply Hnone.
Defined.

(** ** Only the first total-assets line *)

Lemma split_join_lines lines :
  lines <> [] -> Forall one_line lines ->
  split_on (ascii_of_N 10) (join_lines lines) = lines.
Proof.
  intros Hne Hall. induction Hall as [|l rest Hl Hrest IH]; [congruence|].
  destruct rest as [|l' rest'].
  - cbn [join_lines]. now apply split_on_absent.
  - change (join_lines (l :: l' :: rest'))
      with (l ++ ascii_of_N 10 :: join_lines (l' :: rest')).
    rewrite split_on_app, (split_on_absent _ _ Hl), IH by discriminate.
    reflexivity.
Qed.

(** The first line that mentions "total assets" without "total
    liabilities" decides: the lines before it are passed over and the
    lines after it are never read, whether or not that line yields a
    number. *)
Theorem only_first_total_assets_line before line after :
  Forall one_line (before ++ line :: after) ->
  Forall (fun l => is_total_assets_line l = false) before ->
  is_total_assets_line line = true ->
  total_assets_of_text (join_lines (before ++ line :: after))
  = total_assets_of_line line.
Proof.
  intros Hone Hbefore Hline. apply text_on_line.
  unfold first_total_assets_line.
  rewrite split_join_lines; [|now destruct before|exact Hone].
  clear Hone. induction Hbefore as [|l rest Hl _ IH]; cbn.
  - now rewrite Hline.
  - now rewrite Hl.
Qed.

Lemma only_first_total_assets_line_witness :
  value (total_assets_of_text
           (join_lines [s "Balance sheet"; s "Total liabilities 1 2 3 4";
                        mislabelled_line; canonical_line]))
  = None.
Proof.
  refine (eq_trans (f_equal value
            (only_first_total_assets_line
               [s "Balance sheet"; s "Total liabilities 1 2 3 4"]
               mislabelled_line [canonical_line] _ _ _)) _).
  - repeat constructor.
  - repeat constructor.
  - reflexivity.
  - reflexivity.
Defined.

(** ** The balance-sheet page *)

Lemma balance_sheet_test text :
  (negb (str_eqb text []) && contains (s "balance sheet") (lower text))%bool
  = true <-> mentions_balance_sheet text.
Proof.
  unfold mentions_balance_sheet. rewrite <- contains_spec, andb_true_iff.
  split; [now intros [_ H]|]. intros H. split; [|exact H].
  destruct text; [discriminate|reflexivity].
Qed.

Lemma balance_sheet_loop_first k pages i text :
  nth_error pages i = Some text ->
  mentions_balance_sheet text ->
  (forall j t, (j < i)%nat -> nth_error pages j = Some t ->
               ~ mentions_balance_sheet t) ->
  value (balance_sheet_loop k pages) = Some (k + i)%nat.
Proof.
  revert k i. induction pages as [|page rest IH]; intros k [|i] Hn Hm Hlt;
    try discriminate; cbn [balance_sheet_loop].
  - injection Hn as ->. apply balance_sheet_test in Hm. rewrite Hm. cbn.
    now rewrite Nat.add_0_r.
  - destruct (_ && _)%bool eqn:Hp.
    + apply balance_sheet_test in Hp.
      destruct (Hlt 0%nat page ltac:(lia) eq_refl Hp).
    + cbn in Hn. rewrite (IH (S k) i Hn Hm).
      * f_equal. lia.
      * intros j t Hj Ht. apply (Hlt (S j) t); [lia|exact Ht].
Qed.

Lemma balance_sheet_loop_none k pages :
  (forall t, In t pages -> ~ mentions_balance_sheet t) ->
  value (balance_sheet_loop k pages) = None.
Proof.
  revert k. induction pages as [|page rest IH]; intros k H; [reflexivity|].
  cbn [balance_sheet_loop]. destruct (_ && _)%bool eqn:Hp.
  - apply balance_sheet_test in Hp. destruct (H page (or_introl eq_refl) Hp).
  - apply IH. intros t Ht. apply H. now right.
Qed.

(** [find_balance_sheet_page] returns the first page that mentions
    "balance sheet", case ignored, and the total assets are read from
    that page alone; when no page mentions it there is no page and no
    total. *)
Theorem balance_sheet_is_first_mention doc :
  (forall i text,
     nth_error (pdf_pages doc) i = Some text ->
     mentions_balance_sheet text ->
     (forall j t, (j < i)%nat -> nth_error (pdf_pages doc) j = Some t ->
                  ~ mentions_balance_sheet t) ->
     value (find_balance_sheet_page doc) = Some i
     /\ value (extract_total_assets_from_table doc None)
        = value (total_assets_of_text text))
  /\ ((forall t, In t (pdf_pages doc) -> ~ mentions_balance_sheet t) ->
      value (find_balance_sheet_page doc) = None
      /\ value (extract_total_assets_from_table doc None) = None).
Proof.
  split.
  - intros i text Hn Hm Hlt.
    assert (Hfind : value (find_balance_sheet_page doc) = Some i).
    { unfold find_balance_sheet_page. msimpl.
      now rewrite (balance_sheet_loop_first 0 _ i text Hn Hm Hlt). }
    split; [exact Hfind|].
    unfold extract_total_assets_from_table. msimpl.
    rewrite Hfind. msimpl. now rewrite Hn.
  - intros Hnone.
    assert (Hfind : value (find_balance_sheet_page doc) = None).
    { unfold find_balance_sheet_page. msimpl.
      now apply balance_sheet_loop_none. }
    split; [exact Hfind|]. now apply no_balance_sheet_no_total.
Qed.

Lemma balance_sheet_is_first_mention_witness :
  value (find_balance_sheet_page report_with_contents) = Some 1%nat
  /\ value (extract_total_assets_from_table report_with_contents None)
     = None.
Proof.
  refine (proj1 (balance_sheet_is_first_mention report_with_contents)
            1%nat (s "Contents: composition, Balance Sheet, notes")
            eq_refl _ _).
  - apply contains_spec. reflexivity.
  - intros [|j] t Hj Ht; [|lia]. injection Ht as <-.
    intros H. apply contains_spec in H. discriminate.
Defined.

(** ** The two strategies on the canonical layout *)

Lemma runs_skip p c t : p c = false -> runs p (c :: t) = runs p t.
Proof. intros H. cbn. now rewrite H. Qed.

Lemma digits_not_space ds :
  all_digits ds -> Forall (fun c => negb (is_space c) = true) ds.
Proof.
  intros H. eapply List.Forall_impl; [|exact H]. cbn. intros c Hc.
  now rewrite (digit_not_space c Hc).
Qed.

(** Groups separated by single characters outside the class are the
    runs. *)
Lemma runs_four p a b c d x :
  p x = false ->
  a <> [] -> b <> [] -> c <> [] -> d <> [] ->
  Forall (fun y => p y = true) a -> Forall (fun y => p y = true) b ->
  Forall (fun y => p y = true) c -> Forall (fun y => p y = true) d ->
  runs p (a ++ x :: b ++ x :: c ++ x :: d) = [a; b; c; d].
Proof.
  intros Hx Ha Hb Hc Hd Pa Pb Pc Pd.
  rewrite !runs_separated by exact Hx.
  now rewrite !runs_whole by assumption.
Qed.

Lemma canonical_layout_parts d1 d2 d3 d4 :
  digit_string d1 -> digit_string d2 -> digit_string d3 -> digit_string d4 ->
  split_ws (canonical_layout d1 d2 d3 d4)
  = [s "Total"; s "assets"; d1; d2; d3; d4]
  /\ digit_runs (canonical_layout d1 d2 d3 d4) = [d1; d2; d3; d4].
Proof.
  intros [N1 A1] [N2 A2] [N3 A3] [N4 A4]. split.
  - unfold split_ws, canonical_layout.
    change (s "Total assets " ++ d1 ++ " "%char :: d2 ++ " "%char :: d3
            ++ " "%char :: d4)
      with (s "Total" ++ " "%char :: s "assets" ++ " "%char
            :: (d1 ++ " "%char :: d2 ++ " "%char :: d3 ++ " "%char :: d4)).
    rewrite !(runs_separated _ (s "Total")), !(runs_separated _ (s "assets"))
      by reflexivity.
    rewrite runs_four; auto using digits_not_space.
  - unfold digit_runs, canonical_layout. cbn [s list_ascii_of_string app].
    rewrite !runs_skip by reflexivity.
    now apply runs_four.
Qed.

(** On the canonical layout the primary strategy returns
    [clean_number] of the first two groups of digits, concatenated;
    whenever they write an integer in [10000, 50000], that integer is
    what it returns and the fallback would return the same. *)
Theorem strategies_agree_on_canonical_layout d1 d2 d3 d4 :
  digit_string d1 -> digit_string d2 -> digit_string d3 -> digit_string d4 ->
  let line := canonical_layout d1 d2 d3 d4 in
  value (total_assets_of_line line) = clean_number (d1 ++ d2)
  /\ (in_plausible_range (d1 ++ d2) = true ->
      value (total_assets_of_line line)
      = Some (of_Z (digits_val (d1 ++ d2)))
      /\ value (extract_total_assets_fallback line (split_ws line))
         = Some (of_Z (digits_val (d1 ++ d2)))).
Proof.
  intros H1 H2 H3 H4 line. subst line.
  destruct (canonical_layout_parts d1 d2 d3 d4 H1 H2 H3 H4) as [Hparts Hruns].
  assert (Hv : value (total_assets_of_line (canonical_layout d1 d2 d3 d4))
               = clean_number (d1 ++ d2)).
  { now rewrite (line_canonical_exact _ _ _ _ _ _ _ Hparts eq_refl eq_refl). }
  split; [exact Hv|]. intros Hrange. split.
  - rewrite Hv. apply clean_number_digits. now apply digit_string_app.
  - rewrite fallback_tiers, Hruns.
    cbn [adjacent_pairs List.find]. now rewrite Hrange.
Qed.

Lemma strategies_agree_on_canonical_layout_witness :
  value (total_assets_of_line canonical_line) = Some (of_Z 13432)
  /\ value (extract_total_assets_fallback canonical_line
              (split_ws canonical_line)) = Some (of_Z 13432).
Proof.
  assert (Hd : forall d, d = s "13" \/ d = s "432" \/ d = s "083" ->
                         digit_string d).
  { intros d [-> |[-> | ->]]; (split; [discriminate|repeat constructor]). }
  pose proof (strategies_agree_on_canonical_layout
                (s "13") (s "432") (s "13") (s "083")
                (Hd _ (or_introl eq_refl))
                (Hd _ (or_intror (or_introl eq_refl)))
                (Hd _ (or_introl eq_refl))
                (Hd _ (or_intror (or_intror eq_refl)))) as [_ Hf].
  exact (Hf eq_refl).
Defined.

(** ** Which percentage is taken *)

Lemma percent_of_at alias prev t ds :
  percent_of alias prev t = Some ds <-> percent_at alias t ds.
Proof. apply percent_of_spec. Qed.

(** Of several occurrences of an alias with a percentage, the leftmost
    one is taken. *)
Theorem leftmost_percentage_wins alias pre suf ds :
  percent_at alias suf ds ->
  (forall p1 p2 ds', pre = p1 ++ p2 -> p2 <> [] ->
                     ~ percent_at alias (p2 ++ suf) ds') ->
  search (percent_of alias) None (pre ++ suf) = Some ds.
Proof.
  intros Hat Hleft. apply search_leftmost; [reflexivity|].
  exists pre, suf. split; [reflexivity|]. split.
  - now apply percent_of_at.
  - intros p1 p2 Hpre Hne.
    destruct (percent_of alias None (p2 ++ suf)) as [ds'|] eqn:Hm;
      [|reflexivity].
    apply percent_of_at in Hm. destruct (Hleft p1 p2 ds' Hpre Hne Hm).
Qed.

Lemma leftmost_percentage_wins_witness :
  search (percent_of (s "Bonds")) None (s "(Bonds 27% Bonds 30%") = Some (s "27").
Proof.
  refine (leftmost_percentage_wins (s "Bonds") (s "(")
            (s "Bonds 27% Bonds 30%") (s "27") _ _).
  - exists (s "Bonds"), (s " "), (s " Bonds 30%").
    split; [reflexivity|]. split; [reflexivity|]. split; [discriminate|].
    split; [repeat constructor|]. split; [discriminate|repeat constructor].
  - intros p1 p2 ds' Hpre Hne Hat. apply (percent_of_at _ None) in Hat.
    destruct p1 as [|c [|c' p1]]; cbn in Hpre.
    + subst p2. discriminate.
    + injection Hpre as <- <-. congruence.
    + destruct p1; discriminate.
Defined.

Lemma first_alias_match_first before alias after text ds :
  (forall a, In a before -> search (percent_of a) None text = None) ->
  search (percent_of alias) None text = Some ds ->
  first_alias_match (before ++ alias :: after) text
  = Some (of_Z (digits_val ds)).
Proof.
  intros Hbefore Hs. induction before as [|b before IH]; cbn.
  - rewrite Hs. now rewrite (py_float_digits ds (percent_search_capture _ _ _ _ Hs)).
  - rewrite (Hbefore b) by now left. apply IH. intros a Ha. apply Hbefore.
    now right.
Qed.

Lemma assets_loop_app l1 l2 text (acc : gmap string pyfloat) :
  value (assets_loop (l1 ++ l2) text acc)
  = value (assets_loop l2 text (value (assets_loop l1 text acc))).
Proof.
  revert acc. induction l1 as [|[c names] l1 IH]; intros acc;
    [reflexivity|].
  cbn [app assets_loop]. destruct (first_alias_match names text);
    msimpl; apply IH.
Qed.

Lemma assets_loop_untouched items text (acc : gmap string pyfloat) code :
  Forall (fun item => fst item <> code) items ->
  value (assets_loop items text acc) !! code = acc !! code.
Proof.
  intros H. revert acc. induction H as [|[c names] rest Hc _ IH];
    intros acc; [reflexivity|].
  cbn [assets_loop]. cbn in Hc.
  destruct (first_alias_match names text); msimpl; rewrite IH;
    [now rewrite lookup_insert_ne|reflexivity].
Qed.

(** The aliases of a class are tried in their order: the percentage
    recorded is [float] of the digits that follow the first alias that
    matches, whatever the later aliases would match. *)
Theorem first_alias_wins cfg text code items1 before alias after items2 ds :
  PDF_ASSET_NAMES cfg
  = items1 ++ (code, before ++ alias :: after) :: items2 ->
  Forall (fun item => fst item <> code) items2 ->
  (forall a, In a before -> search (percent_of a) None text = None) ->
  search (percent_of alias) None text = Some ds ->
  value (extract_percentages_from_text cfg text) !! code = py_float ds.
Proof.
  intros Hcfg Hlater Hbefore Hs. unfold extract_percentages_from_text.
  msimpl. rewrite Hcfg, assets_loop_app. cbn [assets_loop].
  rewrite (first_alias_match_first _ _ _ _ _ Hbefore Hs). msimpl.
  rewrite (assets_loop_untouched _ _ _ _ Hlater).
  rewrite (py_float_digits ds (percent_search_capture _ _ _ _ Hs)).
  apply lookup_insert_eq.
Qed.

Lemma first_alias_wins_witness :
  value (extract_percentages_from_text shipped
           (s "Infrastructure investments 5% Infrastructure 7%"))
  !! "INFRASTRUCTURE"%string = Some (of_Z 5).
Proof.
  refine (first_alias_wins shipped
            (s "Infrastructure investments 5% Infrastructure 7%")
            "INFRASTRUCTURE"%string [] [] (s "Infrastructure investments")
            [s "Infrastructure"] (tl (PDF_ASSET_NAMES shipped)) (s "5")
            eq_refl _ _ eq_refl).
  - repeat (constructor; [discriminate|]). constructor.
  - intros a [].
Defined.

Lemma first_alias_match_hit names alias text ds :
  In alias names ->
  search (percent_of alias) None text = Some ds ->
  exists v, first_alias_match names text = Some v.
Proof.
  intros Hin Hs. induction names as [|a names IH]; [destruct Hin|]. cbn.
  destruct (search (percent_of a) None text) as [ds'|] eqn:Ha.
  - rewrite (py_float_digits ds' (percent_search_capture _ _ _ _ Ha)). eauto.
  - destruct Hin as [->|Hin]; [congruence|]. now apply IH.
Qed.

Lemma assets_loop_keeps items text (acc : gmap string pyfloat) code :
  is_Some (acc !! code) ->
  is_Some (value (assets_loop items text acc) !! code).
Proof.
  revert acc. induction items as [|[c names] rest IH]; intros acc Hacc;
    [exact Hacc|].
  cbn [assets_loop]. destruct (first_alias_match names text); msimpl;
    apply IH; [|exact Hacc].
  rewrite lookup_insert. case_decide; [eauto|exact Hacc].
Qed.

(** Every class one of whose aliases occurs with a percentage gets a
    key. *)
Theorem matched_class_is_present cfg text code names alias :
  In (code, names) (PDF_ASSET_NAMES cfg) ->
  In alias names ->
  percent_occurrence alias text ->
  is_Some (value (extract_percentages_from_text cfg text) !! code).
Proof.
  intros Hitem Halias (pre & a & ws & ds & post & -> & Hrest).
  assert (Hs : exists ds', search (percent_of alias) None
                 (pre ++ a ++ ws ++ ds ++ "%"%char :: post) = Some ds').
  { apply search_complete with (r := ds); [reflexivity|].
    apply percent_of_spec. now exists a, ws, post. }
  destruct Hs as [ds' Hs].
  destruct (first_alias_match_hit names alias _ ds' Halias Hs) as [v Hv].
  unfold extract_percentages_from_text. msimpl.
  generalize (∅ : gmap string pyfloat) as acc.
  induction (PDF_ASSET_NAMES cfg) as [|[c ns] rest IH]; intros acc;
    [destruct Hitem|].
  cbn [assets_loop]. destruct Hitem as [[= -> ->]|Hitem].
  - rewrite Hv. msimpl. apply assets_loop_keeps.
    rewrite lookup_insert_eq. eauto.
  - destruct (first_alias_match ns _); msimpl; now apply IH.
Qed.

Lemma matched_class_is_present_witness :
  is_Some (value (extract_percentages_from_text shipped
                    (s "of which REAL ESTATE   12% abroad"))
           !! "REALESTATE"%string).
Proof.
  refine (matched_class_is_present shipped
            (s "of which REAL ESTATE   12% abroad") "REALESTATE"%string
            [s "Real estate investments"; s "Real estate"] (s "Real estate")
            _ _ _).
  - cbn. auto 10.
  - cbn. auto.
  - exists (s "of which "), (s "REAL ESTATE"), (s "   "), (s "12"),
      (s " abroad").
    split; [reflexivity|]. split; [reflexivity|]. split; [discriminate|].
    split; [repeat constructor|]. split; [discriminate|repeat constructor].
Defined.

(** ** The case of the text *)

Lemma lower_char_classes c :
  lower_char (lower_char c) = lower_char c
  /\ is_space (lower_char c) = is_space c
  /\ is_digit (lower_char c) = is_digit c
  /\ ascii_eqb (lower_char c) "%" = ascii_eqb c "%".
Proof. by_cases_on_char c; repeat split. Qed.

Lemma span_lower p t :
  (forall c, p (lower_char c) = p c) ->
  span p (lower t) = (lower (fst (span p t)), lower (snd (span p t))).
Proof.
  intros Hp. induction t as [|c t IH]; [reflexivity|].
  cbn [lower map span]. fold (lower t). rewrite Hp.
  destruct (p c); [|reflexivity]. rewrite IH.
  destruct (span p t); reflexivity.
Qed.

Lemma strip_prefix_ci_lower alias t :
  strip_prefix ci_eqb alias (lower t)
  = option_map lower (strip_prefix ci_eqb alias t).
Proof.
  revert t. induction alias as [|x alias IH]; intros t; [reflexivity|].
  destruct t as [|c t]; [reflexivity|].
  cbn [lower map strip_prefix]. fold (lower t).
  unfold ci_eqb at 1 3.
  destruct (lower_char_classes c) as (-> & _). 
  destruct (ascii_eqb _ _); [apply IH|reflexivity].
Qed.

Lemma percent_of_lower alias p q t :
  percent_of alias p (lower t) = percent_of alias q t.
Proof.
  unfold percent_of. rewrite strip_prefix_ci_lower.
  destruct (strip_prefix ci_eqb alias t) as [r|]; [|reflexivity].
  cbn [option_map].
  rewrite span_lower by (intros c; apply lower_char_classes).
  pose proof (span_fst_all is_space r) as _.
  destruct (span is_space r) as [[|w ws] r']; [reflexivity|].
  cbn [fst snd lower map].
  fold (lower r'). rewrite span_lower by (intros c; apply lower_char_classes).
  pose proof (span_fst_all is_digit r') as Hds.
  destruct (span is_digit r') as [[|d ds] [|c rest]]; try reflexivity.
  cbn [fst snd] in *. cbn [lower map].
  destruct (lower_char_classes c) as (_ & _ & _ & ->).
  destruct (ascii_eqb c "%"); [|reflexivity].
  f_equal. apply (lower_digits (d :: ds) Hds).
Qed.

Lemma search_percent_lower alias p q t :
  search (percent_of alias) p (lower t) = search (percent_of alias) q t.
Proof.
  revert p q. induction t as [|c t IH]; intros p q.
  - pose proof (percent_of_lower alias p q []) as H.
    cbn [lower map] in H. cbn [lower map search]. now rewrite H.
  - cbn [lower map search]. fold (lower t).
    change (lower_char c :: lower t) with (lower (c :: t)).
    rewrite (percent_of_lower alias p q (c :: t)).
    destruct (percent_of alias q (c :: t)); [reflexivity|]. apply IH.
Qed.

Lemma first_alias_match_lower names t :
  first_alias_match names (lower t) = first_alias_match names t.
Proof.
  induction names as [|a names IH]; [reflexivity|]. cbn.
  now rewrite (search_percent_lower a None None t), IH.
Qed.

Lemma assets_loop_lower items t (acc : gmap string pyfloat) :
  assets_loop items (lower t) acc = assets_loop items t acc.
Proof.
  revert acc. induction items as [|[c names] rest IH]; intros acc;
    [reflexivity|].
  cbn [assets_loop]. rewrite first_alias_match_lower.
  destruct (first_alias_match names t); now rewrite IH.
Qed.

(** The percentages do not depend on the case of the letters A to Z:
    two texts that differ only there give the same mapping and the same
    log. *)
Theorem percentages_ignore_case cfg text text' :
  Forall2 same_but_ascii_case text text' ->
  extract_percentages_from_text cfg text
  = extract_percentages_from_text cfg text'.
Proof.
  intros Hsame.
  assert (H : lower text = lower text').
  { unfold lower. induction Hsame as [|a b t t' Hab _ IH]; [reflexivity|].
    cbn [map]. f_equal; [|exact IH].
    destruct Hab as [-> |(_ & _ & Hl)]; [reflexivity|exact Hl]. }
  unfold extract_percentages_from_text.
  rewrite <- (assets_loop_lower _ text), <- (assets_loop_lower _ text').
  now rewrite H.
Qed.

Lemma percentages_ignore_case_witness :
  extract_percentages_from_text shipped (s "BONDS 40% shares 30%")
  = extract_percentages_from_text shipped (s "Bonds 40% Shares 30%").
Proof.
  refine (percentages_ignore_case shipped (s "BONDS 40% shares 30%")
            (s "Bonds 40% Shares 30%") _).
  repeat (constructor;
    [first [ left; reflexivity
           | right; split; [reflexivity|split; reflexivity] ]|]).
  constructor.
Defined.

(** ** Arithmetic of floats that are integers *)

Lemma pf_add_of_Z a b : pf_add (of_Z a) (of_Z b) = of_Z (a + b).
Proof.
  unfold of_Z. cbn. f_equal. rewrite <- (Qred_inject_Z (a + b)).
  apply Qred_complete. rewrite inject_Z_plus. reflexivity.
Qed.

Lemma pf_neg_of_Z a : pf_neg (of_Z a) = of_Z (- a).
Proof.
  unfold of_Z. cbn. f_equal. rewrite <- (Qred_inject_Z (- a)).
  apply Qred_complete. rewrite inject_Z_opp. reflexivity.
Qed.

Lemma pf_sub_of_Z a b : pf_sub (of_Z a) (of_Z b) = of_Z (a - b).
Proof. unfold pf_sub. now rewrite pf_neg_of_Z, pf_add_of_Z. Qed.

Lemma pf_abs_of_Z a : pf_abs (of_Z a) = of_Z (Z.abs a).
Proof. unfold of_Z. cbn. f_equal. apply (Qred_inject_Z (Z.abs a)). Qed.

Lemma pf_ltb_of_Z a b : pf_ltb (of_Z a) (of_Z b) = true <-> (a < b)%Z.
Proof.
  change (pf_ltb (of_Z a) (of_Z b)) with (negb (pf_leb (of_Z b) (of_Z a))).
  rewrite negb_true_iff. pose proof (pf_leb_of_Z b a) as H.
  destruct (pf_leb (of_Z b) (of_Z a)).
  - split; [discriminate|]. intros Hlt.
    assert (b <= a)%Z by now apply H. lia.
  - split; [|reflexivity]. intros _.
    destruct (Z_lt_le_dec a b) as [Hlt|Hle]; [exact Hlt|].
    apply H in Hle. discriminate.
Qed.

Lemma pf_sum_from acc zs :
  fold_left pf_add (map of_Z zs) (of_Z acc)
  = of_Z (acc + fold_right Z.add 0%Z zs).
Proof.
  revert acc. induction zs as [|z zs IH]; intros acc; cbn [map fold_left fold_right].
  - f_equal. lia.
  - rewrite pf_add_of_Z, IH. f_equal. lia.
Qed.

Lemma pf_sum_of_Z zs :
  pf_sum (map of_Z zs) = of_Z (fold_right Z.add 0%Z zs).
Proof. unfold pf_sum. now rewrite pf_sum_from. Qed.

(** ** The cash derivation, further *)

Lemma calculate_cash_value (m : gmap string pyfloat) :
  calculate_cash_percentage m =
  match mapM (fun asset => m !! asset) known_assets with
  | Some values =>
      let cash := pf_sub (of_Z 100) (pf_sum values) in
      if (pf_leb (of_Z 0) cash && pf_leb cash (of_Z 100))%bool
      then (Some cash, [(INFO, Calculated_cash cash)])
      else (None, [])
  | None => (None, [])
  end.
Proof.
  unfold calculate_cash_percentage.
  destruct (mapM _ _); [|reflexivity]. cbn zeta.
  destruct (_ && _)%bool; reflexivity.
Qed.

Lemma known_assets_lookup (m : gmap string pyfloat) :
  mapM (fun asset => m !! asset) known_assets =
  match m !! "INFRASTRUCTURE"%string, m !! "BONDS"%string,
        m !! "EQUITIES"%string, m !! "REALESTATE"%string,
        m !! "HEDGEFUNDS/PRIVATEEQUITY"%string with
  | Some v1, Some v2, Some v3, Some v4, Some v5 => Some [v1; v2; v3; v4; v5]
  | _, _, _, _, _ => None
  end.
Proof.
  unfold known_assets. cbn [mapM].
  destruct (m !! "INFRASTRUCTURE"%string); [|reflexivity].
  destruct (m !! "BONDS"%string); [|reflexivity].
  destruct (m !! "EQUITIES"%string); [|reflexivity].
  destruct (m !! "REALESTATE"%string); [|reflexivity].
  destruct (m !! "HEDGEFUNDS/PRIVATEEQUITY"%string); reflexivity.
Qed.

(** [calculate_cash_percentage] needs all five known classes: with one
    of them missing it returns nothing and logs nothing; what it returns
    is always in [0, 100]; and it reads no key other than the five. *)
Theorem cash_needs_the_five_known :
  (forall (m : gmap string pyfloat) asset,
     In asset known_assets -> m !! asset = None ->
     calculate_cash_percentage m = (None, []))
  /\ (forall (m : gmap string pyfloat) v,
        value (calculate_cash_percentage m) = Some v ->
        pf_leb (of_Z 0) v = true /\ pf_leb v (of_Z 100) = true)
  /\ (forall (m : gmap string pyfloat) k x,
        ~ In k known_assets ->
        calculate_cash_percentage (<[k := x]> m)
        = calculate_cash_percentage m).
Proof.
  split; [|split].
  - intros m asset Hin Hnone.
    rewrite calculate_cash_value, known_assets_lookup.
    unfold known_assets in Hin. cbn in Hin.
    destruct Hin as [<-|[<-|[<-|[<-|[<-|[]]]]]]; rewrite Hnone;
      repeat (destruct (m !! _); try reflexivity).
  - intros m v. rewrite calculate_cash_value.
    destruct (mapM _ _) as [values|]; [|discriminate]. cbn zeta.
    destruct (_ && _)%bool eqn:Hin; [|discriminate].
    cbn. intros [= <-]. now apply andb_prop in Hin.
  - intros m k x Hk. rewrite !calculate_cash_value, !known_assets_lookup.
    unfold known_assets in Hk. cbn in Hk.
    rewrite !lookup_insert_ne by (intros ->; tauto). reflexivity.
Qed.

Lemma cash_needs_the_five_known_witness :
  calculate_cash_percentage
    (value (extract_percentages_from_text shipped partial_page))
  = (None, []).
Proof.
  refine (proj1 cash_needs_the_five_known
            (value (extract_percentages_from_text shipped partial_page))
            "REALESTATE"%string _ eq_refl).
  cbn. auto 10.
Defined.

Lemma derive_cash_cases (m : gmap string pyfloat) :
  value (derive_cash m) =
  match m !! "CASH"%string with
  | Some _ => m
  | None =>
      match value (calculate_cash_percentage m) with
      | Some v => <["CASH"%string := v]> m
      | None => m
      end
  end.
Proof.
  unfold derive_cash. destruct (m !! "CASH"%string); [reflexivity|].
  msimpl. destruct (value (calculate_cash_percentage m)); reflexivity.
Qed.

(** The cash step is idempotent, and it never replaces a CASH value
    that was extracted from the text. *)
Theorem derive_cash_idempotent (m : gmap string pyfloat) :
  value (derive_cash (value (derive_cash m))) = value (derive_cash m)
  /\ (forall v, m !! "CASH"%string = Some v -> derive_cash m = (m, [])).
Proof.
  split.
  - rewrite (derive_cash_cases m).
    destruct (m !! "CASH"%string) eqn:Hc.
    + now rewrite derive_cash_cases, Hc.
    + destruct (value (calculate_cash_percentage m)) as [v|] eqn:Hv.
      * now rewrite derive_cash_cases, lookup_insert_eq.
      * now rewrite derive_cash_cases, Hc, Hv.
  - intros v Hv. unfold derive_cash. now rewrite Hv.
Qed.

Lemma derive_cash_idempotent_witness :
  derive_cash (value (extract_percentages_from_text shipped partial_page))
  = (value (extract_percentages_from_text shipped partial_page), []).
Proof.
  exact (proj2 (derive_cash_idempotent
                  (value (extract_percentages_from_text shipped
                            partial_page)))
           (of_Z 3) eq_refl).
Defined.

Lemma calculate_cash_integers (m : gmap string pyfloat) z1 z2 z3 z4 z5 :
  m !! "INFRASTRUCTURE"%string = Some (of_Z z1) ->
  m !! "BONDS"%string = Some (of_Z z2) ->
  m !! "EQUITIES"%string = Some (of_Z z3) ->
  m !! "REALESTATE"%string = Some (of_Z z4) ->
  m !! "HEDGEFUNDS/PRIVATEEQUITY"%string = Some (of_Z z5) ->
  value (calculate_cash_percentage m) =
  let rest := (100 - (z1 + z2 + z3 + z4 + z5))%Z in
  if ((0 <=? rest) && (rest <=? 100))%Z then Some (of_Z rest) else None.
Proof.
  intros H1 H2 H3 H4 H5.
  rewrite calculate_cash_value, known_assets_lookup, H1, H2, H3, H4, H5.
  change [of_Z z1; of_Z z2; of_Z z3; of_Z z4; of_Z z5]
    with (map of_Z [z1; z2; z3; z4; z5]).
  rewrite pf_sum_of_Z, pf_sub_of_Z. cbn [fold_right]. cbn zeta.
  replace (100 - (z1 + (z2 + (z3 + (z4 + (z5 + 0))))))%Z
    with (100 - (z1 + z2 + z3 + z4 + z5))%Z by lia.
  set (rest := (100 - (z1 + z2 + z3 + z4 + z5))%Z).
  destruct (pf_leb (of_Z 0) (of_Z rest)) eqn:Hlo;
    destruct (pf_leb (of_Z rest) (of_Z 100)) eqn:Hhi; cbn [andb].
  - apply pf_leb_of_Z in Hlo, Hhi.
    apply Z.leb_le in Hlo, Hhi. now rewrite Hlo, Hhi.
  - assert (Hn : (rest <=? 100)%Z = false).
    { apply not_true_is_false. intros H%Z.leb_le.
      apply pf_leb_of_Z in H. congruence. }
    rewrite Hn, andb_false_r. reflexivity.
  - assert (Hn : (0 <=? rest)%Z = false).
    { apply not_true_is_false. intros H%Z.leb_le.
      apply pf_leb_of_Z in H. congruence. }
    now rewrite Hn.
  - assert (Hn : (0 <=? rest)%Z = false).
    { apply not_true_is_false. intros H%Z.leb_le.
      apply pf_leb_of_Z in H. congruence. }
    now rewrite Hn.
Qed.

(** For percentages that are non-negative integers, as the extractor
    records them, the derived CASH is the integer 100 minus the sum of
    the five known classes when that sum is at most 100, and nothing
    when it is above 100. *)
Theorem cash_of_integer_percentages (m : gmap string pyfloat)
    z1 z2 z3 z4 z5 :
  m !! "INFRASTRUCTURE"%string = Some (of_Z z1) ->
  m !! "BONDS"%string = Some (of_Z z2) ->
  m !! "EQUITIES"%string = Some (of_Z z3) ->
  m !! "REALESTATE"%string = Some (of_Z z4) ->
  m !! "HEDGEFUNDS/PRIVATEEQUITY"%string = Some (of_Z z5) ->
  (0 <= z1)%Z -> (0 <= z2)%Z -> (0 <= z3)%Z -> (0 <= z4)%Z -> (0 <= z5)%Z ->
  let total := (z1 + z2 + z3 + z4 + z5)%Z in
  ((total <= 100)%Z ->
   value (calculate_cash_percentage m) = Some (of_Z (100 - total)))
  /\ ((100 < total)%Z ->
      value (calculate_cash_percentage m) = None).
Proof.
  intros H1 H2 H3 H4 H5 P1 P2 P3 P4 P5 total.
  rewrite (calculate_cash_integers m z1 z2 z3 z4 z5 H1 H2 H3 H4 H5).
  cbn zeta. fold total. split.
  - intros Hle.
    assert (Hlo : (0 <=? 100 - total)%Z = true) by (apply Z.leb_le; lia).
    assert (Hhi : (100 - total <=? 100)%Z = true)
      by (apply Z.leb_le; subst total; lia).
    now rewrite Hlo, Hhi.
  - intros Hgt.
    assert (Hn : (0 <=? 100 - total)%Z = false) by (apply Z.leb_gt; lia).
    now rewrite Hn.
Qed.

Lemma cash_of_integer_percentages_witness :
  value (calculate_cash_percentage
           (value (extract_percentages_from_text shipped composition_page)))
  = Some (of_Z 5)
  /\ value (calculate_cash_percentage
              (value (extract_percentages_from_text shipped overfull_page)))
     = None.
Proof.
  split.
  - refine (proj1 (cash_of_integer_percentages
              (value (extract_percentages_from_text shipped composition_page))
              5 40 30 10 10 eq_refl eq_refl eq_refl eq_refl eq_refl
              _ _ _ _ _) _); lia.
  - refine (proj2 (cash_of_integer_percentages
              (value (extract_percentages_from_text shipped overfull_page))
              5 40 30 30 10 eq_refl eq_refl eq_refl eq_refl eq_refl
              _ _ _ _ _) _); lia.
Defined.

(** ** Totals of integer percentages *)

Lemma sum_permutation (l l' : list Z) :
  Permutation l l' -> fold_right Z.add 0%Z l = fold_right Z.add 0%Z l'.
Proof. induction 1; cbn; lia. Qed.

Lemma pf_sum_permuted vs zs :
  Permutation vs (map of_Z zs) ->
  pf_sum vs = of_Z (fold_right Z.add 0%Z zs).
Proof.
  intros H. apply Permutation_map_inv in H as (zs' & -> & Hp).
  rewrite pf_sum_of_Z. f_equal. symmetry. now apply sum_permutation.
Qed.

Lemma percentage_total_fmap (mz : gmap string Z) :
  percentage_total (of_Z <$> mz) = of_Z (int_total mz).
Proof.
  unfold percentage_total, int_total. apply pf_sum_permuted.
  assert (Hl : forall l : list (string * Z),
            map snd (prod_map id of_Z <$> l) = map of_Z (map snd l)).
  { induction l as [|[k z] l IH]; [reflexivity|]. cbn. f_equal. exact IH. }
  now rewrite map_to_list_fmap, Hl.
Qed.

Lemma int_total_insert (mz : gmap string Z) k z :
  mz !! k = None -> int_total (<[k := z]> mz) = (z + int_total mz)%Z.
Proof.
  intros H. unfold int_total.
  rewrite (sum_permutation _ (map snd ((k, z) :: map_to_list mz))).
  - reflexivity.
  - apply Permutation_map. now apply map_to_list_insert.
Qed.

Lemma int_total_empty : int_total ∅ = 0%Z.
Proof. unfold int_total. now rewrite map_to_list_empty. Qed.

(** For percentages that are non-negative integers whose sum is at most
    2^53 the total is their integer sum, and the deviation is above an
    integer tolerance exactly when the sum differs from 100 by more than
    the tolerance: a sum that differs by exactly the tolerance passes. *)
Theorem deviation_of_integer_percentages (mz : gmap string Z) tolerance :
  (forall k z, mz !! k = Some z -> (0 <= z)%Z) ->
  (int_total mz <= max_exact)%Z ->
  percentage_total (of_Z <$> mz) = of_Z (int_total mz)
  /\ deviation (of_Z <$> mz) = of_Z (Z.abs (int_total mz - 100))
  /\ (pf_ltb (of_Z tolerance) (deviation (of_Z <$> mz)) = true
      <-> (tolerance < Z.abs (int_total mz - 100))%Z).
Proof.
  intros _ _.
  assert (Hdev : deviation (of_Z <$> mz)
                 = of_Z (Z.abs (int_total mz - 100))).
  { unfold deviation.
    now rewrite percentage_total_fmap, pf_sub_of_Z, pf_abs_of_Z. }
  split; [apply percentage_total_fmap|]. split; [exact Hdev|].
  rewrite Hdev. apply pf_ltb_of_Z.
Qed.

Lemma deviation_of_integer_percentages_witness :
  pf_ltb (of_Z 2)
    (deviation (of_Z <$> ({[ "BONDS"%string := 58%Z;
                             "EQUITIES"%string := 40%Z ]} : gmap string Z)))
  = false.
Proof.
  apply not_true_is_false. intros H.
  pose proof (deviation_of_integer_percentages
                ({[ "BONDS"%string := 58%Z;
                    "EQUITIES"%string := 40%Z ]} : gmap string Z) 2) as P.
  apply (fun Hpos Hmax => proj1 (proj2 (proj2 (P Hpos Hmax)))) in H.
  - vm_compute in H. discriminate.
  - intros k z Hk.
    destruct (decide (k = "BONDS"%string)) as [-> |Hb].
    + rewrite lookup_insert_eq in Hk. injection Hk as <-. lia.
    + rewrite lookup_insert_ne in Hk by congruence.
      apply lookup_singleton_Some in Hk as [_ <-]. lia.
  - vm_compute. discriminate.
Defined.

(** ** Derived cash and the total *)

Lemma five_known_only (mz : gmap string Z) z1 z2 z3 z4 z5 :
  dom mz = list_to_set known_assets ->
  mz !! "INFRASTRUCTURE"%string = Some z1 ->
  mz !! "BONDS"%string = Some z2 ->
  mz !! "EQUITIES"%string = Some z3 ->
  mz !! "REALESTATE"%string = Some z4 ->
  mz !! "HEDGEFUNDS/PRIVATEEQUITY"%string = Some z5 ->
  mz !! "CASH"%string = None
  /\ int_total mz = (z1 + z2 + z3 + z4 + z5)%Z.
Proof.
  intros Hdom H1 H2 H3 H4 H5.
  assert (Hother : forall k, ~ In k known_assets -> mz !! k = None).
  { intros k Hk. apply not_elem_of_dom. rewrite Hdom.
    rewrite elem_of_list_to_set, list_elem_of_In. exact Hk. }
  split.
  { apply Hother. cbn. intros H.
    repeat (destruct H as [H|H]; [discriminate|]). exact H. }
  assert (Hmz : mz = <["INFRASTRUCTURE"%string := z1]>
                       (<["BONDS"%string := z2]>
                          (<["EQUITIES"%string := z3]>
                             (<["REALESTATE"%string := z4]>
                                (<["HEDGEFUNDS/PRIVATEEQUITY"%string := z5]>
                                   ∅))))).
  { apply map_eq. intros k.
    repeat (rewrite lookup_insert; case_decide; [subst k; assumption|]).
    rewrite lookup_empty. apply Hother. cbn. intros Hin.
    repeat (destruct Hin as [Hin|Hin]; [congruence|]). exact Hin. }
  rewrite Hmz.
  rewrite !int_total_insert, int_total_empty;
    [lia|..]; by rewrite ?lookup_insert_ne, ?lookup_empty.
Qed.

(** When exactly the five known classes were extracted, as
    non-negative integers whose sum is at most 100, the cash step adds
    CASH as the integer remainder, the percentages then sum to exactly
    100 and the deviation is zero. *)
Theorem derived_cash_completes_to_100 (mz : gmap string Z) z1 z2 z3 z4 z5 :
  dom mz = list_to_set known_assets ->
  mz !! "INFRASTRUCTURE"%string = Some z1 ->
  mz !! "BONDS"%string = Some z2 ->
  mz !! "EQUITIES"%string = Some z3 ->
  mz !! "REALESTATE"%string = Some z4 ->
  mz !! "HEDGEFUNDS/PRIVATEEQUITY"%string = Some z5 ->
  (0 <= z1)%Z -> (0 <= z2)%Z -> (0 <= z3)%Z -> (0 <= z4)%Z -> (0 <= z5)%Z ->
  (z1 + z2 + z3 + z4 + z5 <= 100)%Z ->
  let m' := value (derive_cash (of_Z <$> mz)) in
  m' = of_Z <$> <["CASH"%string := (100 - (z1 + z2 + z3 + z4 + z5))%Z]> mz
  /\ percentage_total m' = of_Z 100
  /\ deviation m' = of_Z 0.
Proof.
  intros Hdom H1 H2 H3 H4 H5 P1 P2 P3 P4 P5 Hsum m'.
  assert (Hlo : (0 <= 100 - (z1 + z2 + z3 + z4 + z5))%Z) by lia.
  assert (Hhi : (100 - (z1 + z2 + z3 + z4 + z5) <= 100)%Z) by lia.
  destruct (five_known_only mz z1 z2 z3 z4 z5 Hdom H1 H2 H3 H4 H5)
    as [Hcash Htotal].
  assert (Hm' : m' = of_Z <$> <["CASH"%string :=
                        (100 - (z1 + z2 + z3 + z4 + z5))%Z]> mz).
  { subst m'. rewrite derive_cash_cases, lookup_fmap, Hcash. cbn.
    rewrite (calculate_cash_integers _ z1 z2 z3 z4 z5)
      by (rewrite lookup_fmap; (rewrite H1 || rewrite H2 || rewrite H3
                                || rewrite H4 || rewrite H5); reflexivity).
    cbn zeta. apply Z.leb_le in Hlo, Hhi. rewrite Hlo, Hhi. cbn.
    now rewrite fmap_insert. }
  split; [exact Hm'|].
  assert (Ht : percentage_total m' = of_Z 100).
  { rewrite Hm', percentage_total_fmap, int_total_insert, Htotal by exact Hcash.
    f_equal. lia. }
  split; [exact Ht|]. unfold deviation. rewrite Ht.
  now rewrite pf_sub_of_Z, pf_abs_of_Z.
Qed.

Lemma derived_cash_completes_to_100_witness :
  let mz : gmap string Z :=
    {[ "INFRASTRUCTURE"%string := 5%Z; "BONDS"%string := 40%Z;
       "EQUITIES"%string := 30%Z; "REALESTATE"%string := 10%Z;
       "HEDGEFUNDS/PRIVATEEQUITY"%string := 10%Z ]} in
  percentage_total (value (derive_cash (of_Z <$> mz))) = of_Z 100.
Proof.
  intros mz.
  refine (proj1 (proj2 (derived_cash_completes_to_100 mz 5 40 30 10 10
            _ eq_refl eq_refl eq_refl eq_refl eq_refl _ _ _ _ _ _)));
    try lia.
  subst mz. unfold known_assets. cbn [list_to_set].
  rewrite !dom_insert_L, dom_singleton_L. set_solver.
Defined.

(** ** What a result of [parse_pdf] always satisfies *)

Lemma year_window doc y :
  value (extract_year_from_pdf doc) = Some y -> four_digit_window y.
Proof.
  unfold extract_year_from_pdf.
  destruct (search four_digits None _) as [y'|] eqn:Hs.
  - cbn. intros [= <-].
    apply search_found in Hs as (b & pre & suf & _ & Hm).
    now apply four_digits_spec in Hm as (post & _ & Hy).
  - intros H. apply content_year_found in H as (page & _ & Hocc).
    now destruct Hocc as (_ & _ & _ & _ & _ & _ & ?).
Qed.

Lemma extracted_lookup cfg text k v :
  value (extract_percentages_from_text cfg text) !! k = Some v ->
  In k (map fst (PDF_ASSET_NAMES cfg)) /\ pf_leb (of_Z 0) v = true.
Proof.
  unfold extract_percentages_from_text. msimpl. intros H.
  apply assets_loop_lookup_some in H as [H|(names & Hin & Hm)];
    [rewrite lookup_empty in H; discriminate|].
  split.
  - apply in_map_iff. now exists (k, names).
  - apply first_alias_match_some in Hm as (alias & ds & _ & Hs & ->).
    apply pf_leb_of_Z, digits_val_nonneg.
    now apply (percent_search_capture _ _ _ _ Hs).
Qed.

(** What [calculate_cash_percentage] returns has passed its test
    [0 <= cash_percentage]. *)
Lemma calculate_cash_nonneg (m : gmap string pyfloat) v :
  value (calculate_cash_percentage m) = Some v -> pf_leb (of_Z 0) v = true.
Proof.
  rewrite calculate_cash_value.
  destruct (mapM _ _) as [values|]; [|discriminate]. cbn zeta.
  destruct (_ && _)%bool eqn:Hin; [|discriminate].
  cbn. intros [= <-]. now apply andb_prop in Hin as [Hlo _].
Qed.

Lemma derive_cash_nonneg (m : gmap string pyfloat) :
  nonneg_valued m -> nonneg_valued (value (derive_cash m)).
Proof.
  intros Hm k v. rewrite derive_cash_cases.
  destruct (m !! "CASH"%string) eqn:Hc; [apply Hm|].
  destruct (value (calculate_cash_percentage m)) as [c|] eqn:Hv; [|apply Hm].
  rewrite lookup_insert. case_decide; [|apply Hm].
  intros [= <-]. now apply (calculate_cash_nonneg m c).
Qed.

(** Every result of [parse_pdf] has a year of four digits, a non-empty
    mapping none of whose values is below zero and whose keys are CASH
    or configured asset codes, and the total that
    [extract_total_assets_from_table] returned. *)
Theorem parse_result_invariants cfg doc r :
  value (parse_pdf cfg doc) = Some r ->
  four_digit_window (year r)
  /\ percentages r <> ∅
  /\ nonneg_valued (percentages r)
  /\ (forall k, is_Some (percentages r !! k) ->
                k = "CASH"%string \/ In k (map fst (PDF_ASSET_NAMES cfg)))
  /\ total_assets r = value (extract_total_assets_from_table doc None).
Proof.
  rewrite parse_pdf_value.
  destruct (value (extract_year_from_pdf doc)) as [y|] eqn:Hy; [|discriminate].
  destruct (value (find_composition_section cfg doc)) as [[n text]|];
    [|discriminate].
  cbn zeta. case_bool_decide as He; [discriminate|]. intros [= <-].
  cbn [year percentages total_assets].
  split; [now apply (year_window doc)|].
  split; [now apply derive_cash_nonempty|].
  assert (Hnat : nonneg_valued
                   (value (extract_percentages_from_text cfg text))).
  { intros k v Hk. now apply (extracted_lookup cfg text k v). }
  split; [now apply derive_cash_nonneg|]. split; [|reflexivity].
  intros k [v Hk]. destruct (decide (k = "CASH"%string)) as [->|Hne];
    [now left|right].
  rewrite derive_cash_other in Hk by exact Hne.
  now apply (extracted_lookup cfg text k v).
Qed.

Lemma parse_result_invariants_witness :
  let r := {| year := s "2024"; total_assets := None;
              percentages :=
                value (derive_cash
                         (value (extract_percentages_from_text shipped
                                   composition_page))) |} in
  four_digit_window (year r)
  /\ percentages r <> ∅
  /\ nonneg_valued (percentages r)
  /\ (forall k, is_Some (percentages r !! k) ->
                k = "CASH"%string
                \/ In k (map fst (PDF_ASSET_NAMES shipped)))
  /\ total_assets r = None.
Proof.
  intros r.
  exact (parse_result_invariants shipped report_without_balance_sheet r
           eq_refl).
Defined.

(** ** The missing-assets warning *)

Lemma required_assets_spec cfg asset :
  In asset
    (map col_asset
       (List.filter
          (fun col => String.eqb (col_metric col) "ACTUALALLOCATION")
          (OUTPUT_COLUMNS cfg)))
  <-> required_asset cfg asset.
Proof.
  unfold required_asset. rewrite in_map_iff. split.
  - intros (col & Ha & Hin). apply filter_In in Hin as [Hin Hm].
    apply String.eqb_eq in Hm. now exists col.
  - intros (col & Hin & Ha & Hm). exists col. split; [exact Ha|].
    apply filter_In. split; [exact Hin|]. now apply String.eqb_eq.
Qed.

(** With [REQUIRE_ALL_ASSETS] on, the warning about missing assets is
    logged exactly when some asset of an actual-allocation output column
    has no key, and it lists exactly those assets; an asset of another
    metric, such as TOTAL, is never listed. *)
Theorem missing_assets_warning cfg (m : gmap string pyfloat) :
  REQUIRE_ALL_ASSETS cfg = true ->
  (forall l,
     In (WARNING, Missing_assets l) (logged (validate cfg m)) ->
     l <> []
     /\ forall asset,
          In asset l <-> required_asset cfg asset /\ m !! asset = None)
  /\ ((exists asset, required_asset cfg asset /\ m !! asset = None) ->
      exists l, In (WARNING, Missing_assets l) (logged (validate cfg m))).
Proof.
  intros Hreq. unfold validate. rewrite logged_bind, Hreq.
  set (first := logged (if VALIDATE_PERCENTAGE_TOTAL cfg then _ else _)).
  assert (Hfirst : forall l, ~ In (WARNING, Missing_assets l) first).
  { intros l. subst first. destruct (VALIDATE_PERCENTAGE_TOTAL cfg);
      [|intros []].
    destruct (pf_ltb _ _); intros [H|[]]; discriminate. }
  set (missing := List.filter _ _).
  assert (Hmissing : forall asset,
            In asset missing <-> required_asset cfg asset /\ m !! asset = None).
  { intros asset. subst missing. rewrite filter_In, required_assets_spec.
    now rewrite bool_decide_eq_true. }
  split.
  - intros l H. apply in_app_or in H as [H|H]; [destruct (Hfirst l H)|].
    destruct missing as [|a rest] eqn:Hm; [destruct H|].
    destruct H as [[= <-]|[]]. split; [discriminate|exact Hmissing].
  - intros (asset & Ha). apply Hmissing in Ha.
    destruct missing as [|a rest] eqn:Hm; [destruct Ha|].
    exists (a :: rest). apply in_or_app. right. now left.
Qed.

Lemma missing_assets_warning_witness :
  exists l,
    In (WARNING, Missing_assets l)
       (logged (validate shipped
                  (value (extract_percentages_from_text shipped
                            composition_page)))).
Proof.
  refine (proj2 (missing_assets_warning shipped
                   (value (extract_percentages_from_text shipped
                             composition_page)) eq_refl) _).
  exists "CASH"%string. split; [|reflexivity].
  exists (allocation "CASH"). split; [cbn; auto 10|]. split; reflexivity.
Defined.

(** ** Keywords *)

Lemma substring_trans a b c : substring a b -> substring b c -> substring a c.
Proof.
  intros (p1 & q1 & ->) (p2 & q2 & ->). exists (p2 ++ p1), (q1 ++ q2).
  now rewrite <- !app_assoc.
Qed.

Lemma has_keyword_subsumed keywords keyword text :
  In keyword keywords ->
  (forall k, In k keywords -> substring (lower keyword) (lower k)) ->
  has_keyword keywords text = has_keyword [keyword] text.
Proof.
  intros Hin Hsub. apply eq_true_iff_eq. rewrite !has_keyword_spec.
  unfold page_matches. split.
  - intros (k & Hk & H). exists keyword. split; [now left|].
    eapply substring_trans; [apply Hsub, Hk|exact H].
  - intros (k & [<-|[]] & H). now exists keyword.
Qed.

Lemma composition_loop_keywords kws kws' n pages :
  (forall text, has_keyword kws text = has_keyword kws' text) ->
  composition_loop kws n pages = composition_loop kws' n pages.
Proof.
  intros H. revert n. induction pages as [|text rest IH]; intros n;
    [reflexivity|].
  cbn [composition_loop]. rewrite H. now rewrite IH.
Qed.

(** A keyword that occurs, case ignored, in every keyword of the list
    decides alone: the section found is the one found with that keyword
    only.  Of the shipped list only "composition of assets" counts. *)
Theorem subsumed_keywords_are_idle cfg keyword doc :
  In keyword (PDF_CHART_KEYWORDS cfg) ->
  (forall k, In k (PDF_CHART_KEYWORDS cfg) ->
             substring (lower keyword) (lower k)) ->
  find_composition_section cfg doc
  = find_composition_section (with_keywords cfg [keyword]) doc.
Proof.
  intros Hin Hsub. unfold find_composition_section.
  cbn [with_keywords PDF_CHART_KEYWORDS].
  rewrite (composition_loop_keywords (PDF_CHART_KEYWORDS cfg) [keyword]);
    [reflexivity|].
  intros text. now apply has_keyword_subsumed.
Qed.

Lemma subsumed_keywords_are_idle_witness :
  find_composition_section shipped (report_with canonical_line)
  = find_composition_section
      (with_keywords shipped [s "composition of assets"])
      (report_with canonical_line).
Proof.
  refine (subsumed_keywords_are_idle shipped (s "composition of assets")
            (report_with canonical_line) _ _).
  - cbn. auto.
  - intros k Hk. apply contains_spec. cbn in Hk.
    destruct Hk as [<-|[<-|[<-|[]]]]; reflexivity.
Defined.

(** With no keyword no section is ever found; with an empty keyword in
    the list the first page is always the section. *)
Theorem degenerate_keywords cfg doc :
  (PDF_CHART_KEYWORDS cfg = [] ->
   value (find_composition_section cfg doc) = None)
  /\ (In [] (PDF_CHART_KEYWORDS cfg) ->
      forall text rest,
        pdf_pages doc = text :: rest ->
        value (find_composition_section cfg doc) = Some (0%nat, text)).
Proof.
  unfold find_composition_section. split.
  - intros ->. msimpl. now rewrite composition_loop_none.
  - intros Hin text rest ->. msimpl. cbn [composition_loop].
    assert (Hm : has_keyword (PDF_CHART_KEYWORDS cfg) text = true).
    { apply has_keyword_spec. exists []. split; [exact Hin|].
      now exists [], (lower text). }
    now rewrite Hm.
Qed.

Lemma degenerate_keywords_witness :
  value (find_composition_section (with_keywords shipped [])
           (report_with canonical_line)) = None
  /\ value (find_composition_section
              (with_keywords shipped [s "no such section"; []])
              (report_with canonical_line)) = Some (0%nat, cover_page).
Proof.
  split.
  - exact (proj1 (degenerate_keywords (with_keywords shipped [])
                    (report_with canonical_line)) eq_refl).
  - refine (proj2 (degenerate_keywords
                     (with_keywords shipped [s "no such section"; []])
                     (report_with canonical_line)) _ cover_page
              [composition_page; balance_page canonical_line] eq_refl).
    cbn. auto.
Defined.

(** ** The report list *)

Lemma code_inj x y : code x = code y -> x = y.
Proof.
  unfold code. intros H.
  rewrite <- (ascii_N_embedding x), <- (ascii_N_embedding y). now rewrite H.
Qed.

Lemma str_compare_eq a b : str_compare a b = Eq -> a = b.
Proof.
  revert b. induction a as [|x a IH]; intros [|y b]; cbn; try discriminate;
    [reflexivity|].
  destruct (N.compare_spec (code x) (code y)) as [Hc|_|_]; try discriminate.
  intros H. apply code_inj in Hc. apply IH in H. congruence.
Qed.

Lemma str_compare_antisym a b : str_compare b a = CompOpp (str_compare a b).
Proof.
  revert b. induction a as [|x a IH]; intros [|y b]; cbn; try reflexivity.
  rewrite (N.compare_antisym (code x) (code y)).
  destruct (N.compare (code x) (code y)); cbn; auto.
Qed.

Lemma str_le_trans a b c : str_le a b -> str_le b c -> str_le a c.
Proof.
  unfold str_le. revert b c.
  induction a as [|x a IH]; intros [|y b] [|z c]; cbn; try congruence.
  destruct (N.compare_spec (code x) (code y)),
           (N.compare_spec (code y) (code z)),
           (N.compare_spec (code x) (code z));
    try congruence; try lia.
  apply IH.
Qed.

Lemma str_lt_le a b : str_compare a b = Lt -> str_le a b.
Proof. unfold str_le. congruence. Qed.

Lemma str_gt_lt a b : str_compare a b = Gt -> str_compare b a = Lt.
Proof. intros H. now rewrite str_compare_antisym, H. Qed.

(** The head of the sorted list is the first report of the greatest
    year. *)
Lemma sorted_head_first_max r rs :
  exists before latest after rest,
    r :: rs = before ++ latest :: after
    /\ sorted_by_year_desc (r :: rs) = latest :: rest
    /\ Forall (fun b => str_compare (report_year b) (report_year latest) = Lt)
         before
    /\ Forall (fun a => str_le (report_year a) (report_year latest)) after.
Proof.
  revert r. induction rs as [|r' rs IH]; intros r.
  - exists [], r, [], []. repeat split; constructor.
  - destruct (IH r') as (before & latest & after & rest & Hsplit & Hsort
                         & Hb & Ha).
    unfold sorted_by_year_desc in *. cbn [fold_right] in *.
    rewrite Hsort. cbn [insert_desc].
    destruct (str_compare (report_year latest) (report_year r)) eqn:Hc.
    + exists [], r, (r' :: rs), (latest :: rest).
      repeat split; [constructor|].
      assert (Hle : str_le (report_year latest) (report_year r))
        by (unfold str_le; congruence).
      rewrite Hsplit. apply List.Forall_app. split.
      * eapply List.Forall_impl; [|exact Hb]. intros b Hlt.
        eapply str_le_trans; [apply str_lt_le, Hlt|exact Hle].
      * constructor; [exact Hle|].
        eapply List.Forall_impl; [|exact Ha]. intros a Hle'.
        eapply str_le_trans; [exact Hle'|exact Hle].
    + exists [], r, (r' :: rs), (latest :: rest).
      repeat split; [constructor|].
      assert (Hle : str_le (report_year latest) (report_year r))
        by (unfold str_le; congruence).
      rewrite Hsplit. apply List.Forall_app. split.
      * eapply List.Forall_impl; [|exact Hb]. intros b Hlt.
        eapply str_le_trans; [apply str_lt_le, Hlt|exact Hle].
      * constructor; [exact Hle|].
        eapply List.Forall_impl; [|exact Ha]. intros a Hle'.
        eapply str_le_trans; [exact Hle'|exact Hle].
    + exists (r :: before), latest, after, (insert_desc r rest).
      repeat split.
      * now rewrite Hsplit.
      * constructor; [now apply str_gt_lt|exact Hb].
      * exact Ha.
Qed.

Lemma filter_is_sublist {A : Type} (f : A -> bool) l :
  sublist (List.filter f l) l.
Proof.
  induction l as [|x l IH]; cbn; [constructor|].
  destruct (f x); now constructor.
Qed.

(** Whatever the settings, the selected reports are reports of the
    listing, in the order of the listing. *)
Theorem filter_reports_sublist cfg reports :
  sublist (fst (filter_reports_by_config cfg reports)) reports.
Proof.
  unfold filter_reports_by_config.
  destruct (PROCESS_ALL_YEARS cfg); [reflexivity|].
  destruct (TARGET_YEAR cfg) as [target|]; [apply filter_is_sublist|].
  destruct reports as [|r rs]; [constructor|].
  destruct (sorted_head_first_max r rs)
    as (before & latest & after & rest & -> & -> & _).
  cbn [fst]. apply sublist_inserts_l. constructor. apply sublist_nil_l.
Qed.

(** With no target year and a listing that is not empty, the one
    selected report is the first of the listing whose year is the
    greatest in the order of strings: the years before it are smaller,
    no year after it is greater. *)
Theorem latest_report_is_first_maximum cfg reports :
  latest_mode cfg -> reports <> [] ->
  exists before latest after,
    reports = before ++ latest :: after
    /\ filter_reports_by_config cfg reports
       = ([latest], [(INFO, Mode_latest_year (report_year latest))])
    /\ Forall (fun b => str_compare (report_year b) (report_year latest) = Lt)
         before
    /\ Forall (fun a => str_le (report_year a) (report_year latest)) after.
Proof.
  intros [Hall Hyear] Hne. unfold filter_reports_by_config.
  rewrite Hall, Hyear. destruct reports as [|r rs]; [congruence|].
  destruct (sorted_head_first_max r rs)
    as (before & latest & after & rest & Hsplit & Hsort & Hb & Ha).
  exists before, latest, after. rewrite Hsort. auto.
Qed.

Lemma latest_report_is_first_maximum_witness :
  exists before latest after,
    sample_listing = before ++ latest :: after
    /\ filter_reports_by_config latest_settings sample_listing
       = ([latest], [(INFO, Mode_latest_year (report_year latest))])
    /\ Forall (fun b => str_compare (report_year b) (report_year latest) = Lt)
         before
    /\ Forall (fun a => str_le (report_year a) (report_year latest)) after.
Proof.
  apply (latest_report_is_first_maximum latest_settings sample_listing).
  - split; reflexivity.
  - discriminate.
Defined.

Lemma fold_digits ds acc :
  fold_left (fun acc c => 10 * acc + digit_val c)%Z ds acc
  = (acc * 10 ^ Z.of_nat (length ds) + digits_val ds)%Z.
Proof.
  unfold digits_val. revert acc.
  induction ds as [|c ds IH]; intros acc; cbn [fold_left length].
  - cbn. lia.
  - rewrite IH, (IH (10 * 0 + digit_val c)%Z).
    rewrite Nat2Z.inj_succ, Z.pow_succ_r by lia. lia.
Qed.

Lemma digits_val_cons c ds :
  digits_val (c :: ds)
  = (digit_val c * 10 ^ Z.of_nat (length ds) + digits_val ds)%Z.
Proof.
  unfold digits_val at 1. cbn [fold_left]. rewrite fold_digits.
  now rewrite Z.mul_0_r, Z.add_0_l.
Qed.

Lemma digits_val_bound ds :
  all_digits ds -> (0 <= digits_val ds < 10 ^ Z.of_nat (length ds))%Z.
Proof.
  induction 1 as [|c ds Hc _ IH].
  - cbn. lia.
  - rewrite digits_val_cons. cbn [length].
    rewrite Nat2Z.inj_succ, Z.pow_succ_r by lia.
    pose proof (digit_val_range c Hc). nia.
Qed.

(** On digit strings of one length the order of strings is the order of
    numbers. *)
Lemma str_compare_digits a b :
  length a = length b -> all_digits a -> all_digits b ->
  str_compare a b = (digits_val a ?= digits_val b)%Z.
Proof.
  intros Hl Ha. revert b Hl.
  induction Ha as [|x a Hx Ha IH]; intros [|y b] Hl Hb; try discriminate;
    [reflexivity|].
  inversion Hb as [|? ? Hy Hb']; subst. injection Hl as Hl.
  cbn [str_compare]. rewrite !digits_val_cons, <- Hl.
  pose proof (digits_val_bound a Ha) as Hba.
  pose proof (digits_val_bound b Hb') as Hbb. rewrite <- Hl in Hbb.
  specialize (IH b Hl Hb').
  assert (Hcode : N.compare (code x) (code y)
                  = (digit_val x ?= digit_val y)%Z).
  { unfold digit_val. rewrite <- (N2Z.inj_compare (code x) (code y)).
    destruct (Z.compare_spec (Z.of_N (code x)) (Z.of_N (code y)));
      symmetry;
      [apply Z.compare_eq_iff|apply Z.compare_lt_iff|apply Z.compare_gt_iff];
      lia. }
  rewrite Hcode.
  set (P := (10 ^ Z.of_nat (length a))%Z) in *.
  destruct (Z.compare_spec (digit_val x) (digit_val y)) as [He|Hlt|Hgt].
  - rewrite IH, He.
    destruct (Z.compare_spec (digits_val a) (digits_val b));
      symmetry;
      [apply Z.compare_eq_iff|apply Z.compare_lt_iff|apply Z.compare_gt_iff];
      lia.
  - symmetry. apply Z.compare_lt_iff. nia.
  - symmetry. apply Z.compare_gt_iff. nia.
Qed.

(** Two years of four digits 0 to 9 compare as their numbers do. *)
Lemma plain_year_compare a b :
  plain_year a -> plain_year b ->
  str_compare (report_year a) (report_year b)
  = (year_number a ?= year_number b)%Z.
Proof.
  intros [Hla Ha] [Hlb Hb]. apply str_compare_digits; congruence.
Qed.

(** When every year of the listing is four of the digits 0 to 9, the
    latest report has the greatest year as a number. *)
Theorem latest_year_is_numeric_maximum cfg reports :
  latest_mode cfg -> reports <> [] -> Forall plain_year reports ->
  exists latest,
    fst (filter_reports_by_config cfg reports) = [latest]
    /\ In latest reports
    /\ Forall (fun r => (year_number r <= year_number latest)%Z) reports.
Proof.
  intros [Hall Hyear] Hne Hlisted. unfold filter_reports_by_config.
  rewrite Hall, Hyear. destruct reports as [|r0 rs]; [congruence|].
  destruct (sorted_head_first_max r0 rs)
    as (before & latest & after & rest & Hsplit & Hsort & Hb & Ha).
  exists latest. rewrite Hsort, Hsplit. split; [reflexivity|].
  assert (Hin : In latest (before ++ latest :: after))
    by (apply in_or_app; right; now left).
  split; [exact Hin|]. rewrite Hsplit in Hlisted.
  rewrite List.Forall_forall in Hlisted, Hb, Ha.
  pose proof (Hlisted latest Hin) as Hl.
  apply List.Forall_forall.
  intros r Hr. pose proof (Hlisted r Hr) as Hlr.
  apply in_app_or in Hr as [Hr|[Heq|Hr]].
  - specialize (Hb r Hr). cbn beta in Hb.
    rewrite (plain_year_compare r latest Hlr Hl) in Hb.
    apply -> Z.compare_lt_iff in Hb. lia.
  - rewrite Heq. lia.
  - specialize (Ha r Hr). unfold str_le in Ha.
    rewrite (plain_year_compare r latest Hlr Hl) in Ha.
    now apply Z.compare_le_iff.
Qed.

Lemma latest_year_is_numeric_maximum_witness :
  exists latest,
    fst (filter_reports_by_config latest_settings sample_listing) = [latest]
    /\ In latest sample_listing
    /\ Forall (fun r => (year_number r <= year_number latest)%Z)
         sample_listing.
Proof.
  apply (latest_year_is_numeric_maximum latest_settings sample_listing).
  - split; reflexivity.
  - discriminate.
  - repeat (constructor; [split; [reflexivity|repeat constructor]|]).
    constructor.
Defined.

(** [str] of a number of four digits is its four digits. *)
Lemma str_of_int_four_digits n :
  (1000 <= n <= 9999)%Z ->
  four_digit_window (str_of_int n) /\ digits_val (str_of_int n) = n.
Proof.
  intros Hn.
  pose (check := fun n : Z =>
    ((length (str_of_int n) =? 4)%nat && forallb is_digit (str_of_int n)
     && (digits_val (str_of_int n) =? n)%Z)%bool).
  assert (Hall : forallb check
                   (map (fun k => (1000 + Z.of_nat k)%Z) (seq 0 (90 * 100)))
                 = true)
    by (vm_compute; reflexivity).
  rewrite forallb_forall in Hall.
  assert (Hc : check n = true).
  { apply Hall, in_map_iff. exists (Z.to_nat (n - 1000)).
    split; [lia|]. apply in_seq. lia. }
  unfold check in Hc.
  apply andb_prop in Hc as [[Hlen Hdig]%andb_prop Hval].
  apply Nat.eqb_eq in Hlen. apply Z.eqb_eq in Hval.
  rewrite forallb_forall in Hdig.
  repeat split; [exact Hlen| |exact Hval].
  apply List.Forall_forall. exact Hdig.
Qed.

(** With a target year of four digits, and every year of the listing
    four of the digits 0 to 9, the selected reports are those whose year
    is the target, as a number. *)
Theorem specific_year_selects_by_number cfg target reports :
  PROCESS_ALL_YEARS cfg = false -> TARGET_YEAR cfg = Some target ->
  (1000 <= target <= 9999)%Z ->
  Forall plain_year reports ->
  forall r,
    In r (fst (filter_reports_by_config cfg reports))
    <-> In r reports /\ year_number r = target.
Proof.
  intros Hall Hyear Htarget Hlisted r. unfold filter_reports_by_config.
  rewrite Hall, Hyear. cbn [fst]. rewrite filter_In.
  destruct (str_of_int_four_digits target Htarget) as [[Hlen Hdig] Hval].
  rewrite List.Forall_forall in Hlisted.
  split; intros [Hin H]; (split; [exact Hin|]).
  - apply str_eqb_eq in H. unfold year_number. now rewrite H.
  - apply str_eqb_eq, str_compare_eq.
    destruct (Hlisted r Hin) as [Hl Hd].
    rewrite str_compare_digits by congruence.
    apply Z.compare_eq_iff. now rewrite Hval.
Qed.

Lemma specific_year_selects_by_number_witness :
  let r := listing_entry (s "Annual Report 2022") (s "2022") in
  In r (fst (filter_reports_by_config shipped_settings sample_listing))
  <-> In r sample_listing /\ year_number r = 2022%Z.
Proof.
  refine (specific_year_selects_by_number shipped_settings 2022
            sample_listing eq_refl eq_refl _ _
            (listing_entry (s "Annual Report 2022") (s "2022"))).
  - lia.
  - repeat (constructor; [split; [reflexivity|repeat constructor]|]).
    constructor.
Defined.
